(** * Single-chunk Arweave v2 transaction signing ([server/arweave/manual_tx.py])

    A shallow embedding of the transaction signer: the base64url codec, the
    JWK key loader, the labelled SHA-384 "deep hash" of the transaction
    fields, the RSA signer and the two node queries, with the properties of
    the design document stated and settled against that code.

    Python [bytes] are [list byte], Python [str] is [string] (code points
    below 256), Python [int] is [Z] or [N], a raised exception is the left
    injection of a sum. *)

From Stdlib Require Import NArith ZArith List String Ascii Bool Lia.
From Stdlib.Strings Require Import Byte.
From Stdlib Require Import DecimalString.
Import ListNotations.
Local Open Scope N_scope.

(** ** Bytes *)

Definition bytes := list byte.

Definition byte_of_N (n : N) : byte :=
  match Byte.of_N (n mod 256) with
  | Some b => b
  | None => x00
  end.

(** [int.from_bytes(b, 'big')] *)
Definition int_from_bytes (b : bytes) : N :=
  fold_left (fun acc x => acc * 256 + Byte.to_N x) b 0.

(** [n.to_bytes(len, 'big')] for [n] below [256 ^ len]. *)
Fixpoint int_to_bytes (len : nat) (n : N) : bytes :=
  match len with
  | O => []
  | S len' => int_to_bytes len' (n / 256) ++ [byte_of_N n]
  end.

(** Numbers below a bound, in order. *)
Definition N_range (bound : nat) : list N := map N.of_nat (seq 0 bound).

(** ** The SHA-2 family ([hashlib.sha256], [hashlib.sha384]; FIPS 180-4) *)

Module SHA2.

Section Family.
(** Word size in bits, the rotation and shift amounts of the big and
    small sigma functions, the round constants and the initial state. *)
Variable w : N.
Variables (S0a S0b S0c S1a S1b S1c : N).
Variables (s0a s0b s0c s1a s1b s1c : N).
Variable K : list N.
Variable H0 : list N.

Definition wordmask : N := N.ones w.
Definition add (x y : N) : N := N.land (x + y) wordmask.
Definition rotr (n x : N) : N :=
  N.lor (N.shiftr x n) (N.land (N.shiftl x (w - n)) wordmask).
Definition shr (n x : N) : N := N.shiftr x n.
Definition Ch (x y z : N) : N :=
  N.lxor (N.land x y) (N.land (N.lxor x wordmask) z).
Definition Maj (x y z : N) : N :=
  N.lxor (N.lxor (N.land x y) (N.land x z)) (N.land y z).
Definition Sigma0 (x : N) : N :=
  N.lxor (N.lxor (rotr S0a x) (rotr S0b x)) (rotr S0c x).
Definition Sigma1 (x : N) : N :=
  N.lxor (N.lxor (rotr S1a x) (rotr S1b x)) (rotr S1c x).
Definition sigma0 (x : N) : N :=
  N.lxor (N.lxor (rotr s0a x) (rotr s0b x)) (shr s0c x).
Definition sigma1 (x : N) : N :=
  N.lxor (N.lxor (rotr s1a x) (rotr s1b x)) (shr s1c x).

Definition wordbytes : nat := N.to_nat (w / 8).
Definition blockbytes : nat := (16 * wordbytes)%nat.

(** Padding: a [0x80] byte, zeros up to the last two words of a block,
    then the bit length of the message as a two-word big-endian integer. *)
Definition pad (msg : bytes) : bytes :=
  let len := List.length msg in
  let used := ((len + 1 + 2 * wordbytes) mod blockbytes)%nat in
  let zeros := ((blockbytes - used) mod blockbytes)%nat in
  msg ++ [x80] ++ repeat x00 zeros
      ++ int_to_bytes (2 * wordbytes) (8 * N.of_nat len).

Fixpoint words_of (fuel : nat) (b : bytes) : list N :=
  match fuel with
  | O => []
  | S fuel' =>
      match b with
      | [] => []
      | _ => int_from_bytes (firstn wordbytes b)
               :: words_of fuel' (skipn wordbytes b)
      end
  end.

(** Message schedule: [win] holds the sixteen most recent words, oldest
    first. *)
Fixpoint expand (n : nat) (win : list N) : list N :=
  match n with
  | O => []
  | S n' =>
      match win with
      | [] => []
      | w16 :: rest =>
          let wt := add (add (sigma1 (nth 13 rest 0)) (nth 8 rest 0))
                        (add (sigma0 (nth 0 rest 0)) w16) in
          wt :: expand n' (rest ++ [wt])
      end
  end.

Definition schedule (block : list N) : list N :=
  block ++ expand (List.length K - 16) block.

Record regs := Regs { ra : N; rb : N; rc : N; rd : N;
                      re : N; rf : N; rg : N; rh : N }.

Definition round (r : regs) (kw : N * N) : regs :=
  let '(k, wt) := kw in
  let t1 := add (add (add (rh r) (Sigma1 (re r)))
                     (add (Ch (re r) (rf r) (rg r)) k)) wt in
  let t2 := add (Sigma0 (ra r)) (Maj (ra r) (rb r) (rc r)) in
  Regs (add t1 t2) (ra r) (rb r) (rc r) (add (rd r) t1) (re r) (rf r) (rg r).

Definition regs_of (h : list N) : regs :=
  Regs (nth 0 h 0) (nth 1 h 0) (nth 2 h 0) (nth 3 h 0)
       (nth 4 h 0) (nth 5 h 0) (nth 6 h 0) (nth 7 h 0).

Definition compress (h : list N) (block : list N) : list N :=
  let r0 := regs_of h in
  let r := fold_left round (combine K (schedule block)) r0 in
  [add (ra r0) (ra r); add (rb r0) (rb r); add (rc r0) (rc r);
   add (rd r0) (rd r); add (re r0) (re r); add (rf r0) (rf r);
   add (rg r0) (rg r); add (rh r0) (rh r)].

Fixpoint blocks (fuel : nat) (ws : list N) (h : list N) : list N :=
  match fuel with
  | O => h
  | S fuel' =>
      match ws with
      | [] => h
      | _ => blocks fuel' (skipn 16 ws) (compress h (firstn 16 ws))
      end
  end.

Definition digest (outwords : nat) (msg : bytes) : bytes :=
  let p := pad msg in
  let ws := words_of (List.length p) p in
  let h := blocks (List.length ws) ws H0 in
  flat_map (int_to_bytes wordbytes) (firstn outwords h).
End Family.

(** The constants are taken from the first primes: the round constants are
    the first bits of the fractional parts of their cube roots, the initial
    states those of their square roots (FIPS 180-4, 4.2 and 5.3). *)

Definition is_prime (v : N) : bool :=
  (2 <=? v) && forallb (fun dv => negb (v mod dv =? 0)) (skipn 2 (N_range (N.to_nat v))).

Definition primes (count : nat) : list N :=
  firstn count (filter is_prime (N_range 410)).

(** The bits of the largest [r] with [r ^ 3 <= x], from bit [bits - 1] down. *)
Fixpoint cbrt_bits (bits : nat) (x r : N) : N :=
  match bits with
  | O => r
  | S bits' =>
      let r' := N.lor r (N.shiftl 1 (N.of_nat bits')) in
      cbrt_bits bits' x (if r' * r' * r' <=? x then r' else r)
  end.

Definition frac_cbrt (w pr : N) : N :=
  N.land (cbrt_bits (N.to_nat w + 3) (N.shiftl pr (3 * w)) 0) (N.ones w).

Definition frac_sqrt (w pr : N) : N :=
  N.land (N.sqrt (N.shiftl pr (2 * w))) (N.ones w).

Definition K256 : list N := Eval vm_compute in map (frac_cbrt 32) (primes 64).

Definition H256 : list N := Eval vm_compute in map (frac_sqrt 32) (primes 8).

Definition K512 : list N := Eval vm_compute in map (frac_cbrt 64) (primes 80).

Definition H384 : list N := Eval vm_compute in map (frac_sqrt 64) (skipn 8 (primes 16)).

Definition sha256 : bytes -> bytes :=
  digest 32 2 13 22 6 11 25 7 18 3 17 19 10 K256 H256 8.

Definition sha384 : bytes -> bytes :=
  digest 64 28 34 39 14 18 41 1 8 7 19 61 6 K512 H384 6.

End SHA2.

Definition sha256 (data : bytes) : bytes := SHA2.sha256 data.
Definition sha384 (data : bytes) : bytes := SHA2.sha384 data.

(** ** Exceptions

    A call either returns a value or raises; the classes below are the ones
    the module and its library calls can raise. *)

Inductive exn : Type :=
| KeyError (key : string)   (* a missing dict key *)
| ValueError                (* non-ASCII base64 text, rejected RSA numbers,
                               a digest too large for the key *)
| binascii_Error            (* malformed base64 *)
| OSError                   (* [open] failed *)
| JSONDecodeError           (* [json.load] failed *)
| RequestException.         (* [requests] could not get a response *)

Definition exn_name (e : exn) : string :=
  match e with
  | KeyError _ => "KeyError"
  | ValueError => "ValueError"
  | binascii_Error => "binascii.Error"
  | OSError => "OSError"
  | JSONDecodeError => "json.JSONDecodeError"
  | RequestException => "requests.RequestException"
  end.

Definition result (A : Type) : Type := (exn + A)%type.

Definition rbind {A B : Type} (r : result A) (k : A -> result B) : result B :=
  match r with
  | inl e => inl e
  | inr a => k a
  end.

Declare Scope result_scope.
Delimit Scope result_scope with result.
Notation "x <- r ;; k" := (rbind r (fun x => k))
  (at level 61, r at next level, right associativity) : result_scope.

(** ** Python [str] helpers *)

(** [c * n] for a one-character string [c]. *)
Fixpoint str_repeat (c : ascii) (n : nat) : string :=
  match n with
  | O => EmptyString
  | S n' => String c (str_repeat c n')
  end.

(** [s.rstrip(c)] for a single character [c]. *)
Fixpoint rstrip (c : ascii) (s : string) : string :=
  match s with
  | EmptyString => EmptyString
  | String a s' =>
      match rstrip c s' with
      | EmptyString => if (a =? c)%char then EmptyString else String a EmptyString
      | r => String a r
      end
  end.

Fixpoint lstrip_by (f : ascii -> bool) (s : string) : string :=
  match s with
  | EmptyString => EmptyString
  | String a s' => if f a then lstrip_by f s' else s
  end.

Fixpoint rstrip_by (f : ascii -> bool) (s : string) : string :=
  match s with
  | EmptyString => EmptyString
  | String a s' =>
      match rstrip_by f s' with
      | EmptyString => if f a then EmptyString else String a EmptyString
      | r => String a r
      end
  end.

(** [str.isspace] on the code points below 256. *)
Definition isspace (c : ascii) : bool :=
  let n := N_of_ascii c in
  ((9 <=? n) && (n <=? 13)) || ((28 <=? n) && (n <=? 32))
  || (n =? 133) || (n =? 160).

(** [s.strip()] *)
Definition strip (s : string) : string := rstrip_by isspace (lstrip_by isspace s).

Definition str_map (f : ascii -> ascii) : string -> string :=
  fix go s := match s with
              | EmptyString => EmptyString
              | String a s' => String (f a) (go s')
              end.

Definition str_forallb (f : ascii -> bool) : string -> bool :=
  fix go s := match s with
              | EmptyString => true
              | String a s' => f a && go s'
              end.

Definition isascii (c : ascii) : bool := N_of_ascii c <? 128.

(** [s.encode("utf-8")]: one byte below 128, two bytes from 128 to 255. *)
Fixpoint encode_utf8 (s : string) : bytes :=
  match s with
  | EmptyString => []
  | String a s' =>
      let n := N_of_ascii a in
      if n <? 128 then byte_of_N n :: encode_utf8 s'
      else byte_of_N (N.lor 192 (N.shiftr n 6))
             :: byte_of_N (N.lor 128 (N.land n 63)) :: encode_utf8 s'
  end.

(** [str(n)] for an [int]. *)
Definition str_of_int (n : Z) : string := NilZero.string_of_int (Z.to_int n).

(** ** Base64 ([base64.urlsafe_b64encode], [base64.urlsafe_b64decode] and the
    [binascii] routines under them) *)

Module Base64.

Definition table_b2a_base64 : string :=
  "ABCDEFGHIJKLMNOPQRSTUVWXYZabcdefghijklmnopqrstuvwxyz0123456789+/"%string.

Definition BASE64_PAD : ascii := "="%char.

Definition b2a_char (v : N) : ascii :=
  match String.get (N.to_nat (N.land v 63)) table_b2a_base64 with
  | Some c => c
  | None => BASE64_PAD
  end.

Fixpoint index_of (c : ascii) (s : string) (i : N) : option N :=
  match s with
  | EmptyString => None
  | String a s' => if (a =? c)%char then Some i else index_of c s' (N.succ i)
  end.

(** The inverse table: the value of an alphabet character, [None] for every
    other character. *)
Definition a2b_char (c : ascii) : option N := index_of c table_b2a_base64 0.

(** [binascii.b2a_base64(data, newline=False)]: three bytes give four
    characters; one or two remaining bytes are padded with [=]. *)
Fixpoint b2a_base64 (data : bytes) : string :=
  match data with
  | [] => EmptyString
  | [b0] =>
      let n0 := Byte.to_N b0 in
      String (b2a_char (N.shiftr n0 2))
        (String (b2a_char (N.shiftl (N.land n0 3) 4))
           (String BASE64_PAD (String BASE64_PAD EmptyString)))
  | [b0; b1] =>
      let n0 := Byte.to_N b0 in
      let n1 := Byte.to_N b1 in
      String (b2a_char (N.shiftr n0 2))
        (String (b2a_char (N.lor (N.shiftl (N.land n0 3) 4) (N.shiftr n1 4)))
           (String (b2a_char (N.shiftl (N.land n1 15) 2))
              (String BASE64_PAD EmptyString)))
  | b0 :: b1 :: b2 :: rest =>
      let n0 := Byte.to_N b0 in
      let n1 := Byte.to_N b1 in
      let n2 := Byte.to_N b2 in
      String (b2a_char (N.shiftr n0 2))
        (String (b2a_char (N.lor (N.shiftl (N.land n0 3) 4) (N.shiftr n1 4)))
           (String (b2a_char (N.lor (N.shiftl (N.land n1 15) 2) (N.shiftr n2 6)))
              (String (b2a_char n2) (b2a_base64 rest))))
  end.

(** [binascii.a2b_base64(s)] in its default, non-strict mode: a state machine
    over the characters.  [quad_pos] counts the alphabet characters of the
    current group of four, [leftchar] holds the bits not yet written, [pads]
    counts the [=] seen in a row once two characters of the group are in.
    Characters outside the alphabet are skipped; enough [=] after a partial
    group ends the decoding; input that ends inside a group is an error. *)
Fixpoint a2b_loop (s : string) (quad_pos leftchar pads : N) (out : bytes)
  : result bytes :=
  match s with
  | EmptyString => if quad_pos =? 0 then inr out else inl binascii_Error
  | String this_ch s' =>
      if (this_ch =? BASE64_PAD)%char then
        if 2 <=? quad_pos then
          if 4 <=? quad_pos + (pads + 1) then inr out
          else a2b_loop s' quad_pos leftchar (pads + 1) out
        else a2b_loop s' quad_pos leftchar pads out
      else
        match a2b_char this_ch with
        | None => a2b_loop s' quad_pos leftchar pads out
        | Some v =>
            match quad_pos with
            | 0 => a2b_loop s' 1 v 0 out
            | 1 => a2b_loop s' 2 (N.land v 15) 0
                     (out ++ [byte_of_N (N.lor (N.shiftl leftchar 2) (N.shiftr v 4))])
            | 2 => a2b_loop s' 3 (N.land v 3) 0
                     (out ++ [byte_of_N (N.lor (N.shiftl leftchar 4) (N.shiftr v 2))])
            | _ => a2b_loop s' 0 0 0
                     (out ++ [byte_of_N (N.lor (N.shiftl leftchar 6) v)])
            end
        end
  end.

Definition a2b_base64 (s : string) : result bytes := a2b_loop s 0 0 0 [].

Definition urlsafe_encode_translation (c : ascii) : ascii :=
  if (c =? "+")%char then "-"%char
  else if (c =? "/")%char then "_"%char else c.

Definition urlsafe_decode_translation (c : ascii) : ascii :=
  if (c =? "-")%char then "+"%char
  else if (c =? "_")%char then "/"%char else c.

(** [base64.urlsafe_b64encode(s)], read as ASCII text. *)
Definition urlsafe_b64encode (s : bytes) : string :=
  str_map urlsafe_encode_translation (b2a_base64 s).

(** [base64.urlsafe_b64decode(s)] for a [str] argument: text that is not
    ASCII is a [ValueError]. *)
Definition urlsafe_b64decode (s : string) : result bytes :=
  if str_forallb isascii s
  then a2b_base64 (str_map urlsafe_decode_translation s)
  else inl ValueError.

End Base64.

(** ** Utility functions of the module *)

(** Convert raw bytes to base64url (no [=] padding). *)
Definition base64url_encode (data : bytes) : string :=
  rstrip "="%char (Base64.urlsafe_b64encode data).

(** Decode base64url (adding back any missing [=]). *)
Definition base64url_decode (s : string) : result bytes :=
  let rem := (String.length s mod 4)%nat in
  let s := if (0 <? rem)%nat then (s ++ str_repeat "="%char (4 - rem))%string else s in
  Base64.urlsafe_b64decode s.

(** ** Python dicts with [str] keys and [str] values, in insertion order
    (a JWK object, a tag) *)

Definition pydict := list (string * string).

Fixpoint dict_get (d : pydict) (key : string) : result string :=
  match d with
  | [] => inl (KeyError key)
  | (k, v) :: d' => if String.eqb k key then inr v else dict_get d' key
  end.

(** ** [json.dumps] with its default settings, on a list of such dicts *)

Module Json.

Definition dquote : ascii := "034"%char.
Definition backslash : ascii := "092"%char.

Definition hexdigit (v : N) : ascii :=
  match String.get (N.to_nat v) "0123456789abcdef" with
  | Some c => c
  | None => "0"%char
  end.

(** One character of a string under [ensure_ascii]: the printable ASCII
    characters stand for themselves, the rest is escaped. *)
Definition escape_char (c : ascii) : string :=
  let n := N_of_ascii c in
  if n =? 34 then String backslash (String dquote EmptyString)
  else if n =? 92 then String backslash (String backslash EmptyString)
  else if n =? 8 then String backslash "b"
  else if n =? 12 then String backslash "f"
  else if n =? 10 then String backslash "n"
  else if n =? 13 then String backslash "r"
  else if n =? 9 then String backslash "t"
  else if (32 <=? n) && (n <=? 126) then String c EmptyString
  else String backslash
         (String "u" (String "0" (String "0"
            (String (hexdigit (n / 16)) (String (hexdigit (n mod 16)) EmptyString))))).

Fixpoint escape (s : string) : string :=
  match s with
  | EmptyString => EmptyString
  | String c s' => (escape_char c ++ escape s')%string
  end.

Definition encode_str (s : string) : string :=
  String dquote (escape s ++ String dquote EmptyString).

(** [sep.join(items)] *)
Fixpoint join (sep : string) (items : list string) : string :=
  match items with
  | [] => EmptyString
  | [x] => x
  | x :: rest => (x ++ sep ++ join sep rest)%string
  end.

Definition encode_dict (d : pydict) : string :=
  ("{" ++ join ", " (map (fun kv => encode_str (fst kv) ++ ": " ++ encode_str (snd kv)) d)
       ++ "}")%string.

Definition dumps (l : list pydict) : string :=
  ("[" ++ join ", " (map encode_dict l) ++ "]")%string.

End Json.

(** ** RSA keys and signatures (the [cryptography] package:
    [rsa.RSAPrivateNumbers(...).private_key()] and
    [private_key.sign(data, padding.PKCS1v15(), algorithm)]) *)

Module RSA.

Record RSAPublicNumbers := { e : N; n : N }.

Record RSAPrivateNumbers :=
  { p : N; q : N; d : N; dmp1 : N; dmq1 : N; iqmp : N;
    public_numbers : RSAPublicNumbers }.

Inductive RSAPrivateKey := PrivateKey (numbers : RSAPrivateNumbers).

Definition private_numbers (key : RSAPrivateKey) : RSAPrivateNumbers :=
  let '(PrivateKey numbers) := key in numbers.

(** The checks [private_key()] makes on the numbers before it builds the
    key; each failure is a [ValueError].  The last one is the consistency of
    the modulus with the two primes. *)
Definition check_private_key_components (k : RSAPrivateNumbers) : bool :=
  let modulus := n (public_numbers k) in
  let public_exponent := e (public_numbers k) in
  (3 <=? modulus)
  && (p k <? modulus)
  && (q k <? modulus)
  && (dmp1 k <? modulus)
  && (dmq1 k <? modulus)
  && (iqmp k <? modulus)
  && (d k <? modulus)
  && (3 <=? public_exponent) && (public_exponent <? modulus)
  && N.odd public_exponent
  && N.odd (dmp1 k)
  && N.odd (dmq1 k)
  && (p k * q k =? modulus).

(** [BN_check_prime], the test the key validation runs on each of the two
    primes.  The library tries small divisors and then Miller-Rabin rounds
    with bases drawn at random: it accepts every prime, and a number that is
    not prime only by a chance below 2^-128.  It is modelled as primality:
    no divisor from 2 up to the number itself. *)
Definition BN_check_prime (v : N) : bool := SHA2.is_prime v.

(** The arithmetic of [RSA_check_key]: the public exponent is odd and not 1,
    the modulus is the product of the primes, the two exponents are inverse
    to one another modulo the least common multiple of [p - 1] and [q - 1],
    and the three CRT numbers are those of [d], [p] and [q]; [iqmp] is
    compared with the inverse of [q] modulo [p], the one number below [p]
    whose product with [q] is 1 modulo [p]. *)
Definition check_key_relations (k : RSAPrivateNumbers) : bool :=
  let modulus := n (public_numbers k) in
  let public_exponent := e (public_numbers k) in
  negb (public_exponent =? 1) && N.odd public_exponent
  && (p k * q k =? modulus)
  && ((d k * public_exponent) mod N.lcm (p k - 1) (q k - 1) =? 1)
  && (dmp1 k =? d k mod (p k - 1))
  && (dmq1 k =? d k mod (q k - 1))
  && (iqmp k <? p k) && ((iqmp k * q k) mod p k =? 1).

(** [RSA_check_key]: the relations, and both primes prime.  Every failure
    is reported alike, so the order of the checks does not show; the
    primality tests are made last. *)
Definition check_key (k : RSAPrivateNumbers) : bool :=
  if check_key_relations k
  then if BN_check_prime (p k) then BN_check_prime (q k) else false
  else false.

(** [RSAPrivateNumbers.private_key()]: the checks on the numbers, then the
    validation of the key built from them, which also refuses an even
    prime.  Each failure is a [ValueError]. *)
Definition private_key (k : RSAPrivateNumbers) : result RSAPrivateKey :=
  if check_private_key_components k
  then if check_key k
       then if N.odd (p k) && N.odd (q k)
            then inr (PrivateKey k)
            else inl ValueError
       else inl ValueError
  else inl ValueError.

Inductive hash_algorithm := SHA256 | SHA384.

(** The only padding the module uses. *)
Inductive asymmetric_padding := PKCS1v15.

Definition hash (algorithm : hash_algorithm) : bytes -> bytes :=
  match algorithm with
  | SHA256 => sha256
  | SHA384 => sha384
  end.

(** The DER prefix of the [DigestInfo] of each hash (RFC 8017, 9.2). *)
Definition digest_info_prefix (algorithm : hash_algorithm) : bytes :=
  match algorithm with
  | SHA256 => [x30; x31; x30; x0d; x06; x09; x60; x86; x48; x01;
               x65; x03; x04; x02; x01; x05; x00; x04; x20]
  | SHA384 => [x30; x41; x30; x0d; x06; x09; x60; x86; x48; x01;
               x65; x03; x04; x02; x02; x05; x00; x04; x30]
  end.

(** Length of the modulus in bytes. *)
Definition key_size_bytes (modulus : N) : nat := N.to_nat ((N.size modulus + 7) / 8).

(** EMSA-PKCS1-v1_5: [00 01 FF .. FF 00 DigestInfo]; at least eight [FF]
    bytes must fit. *)
Definition emsa_pkcs1_v15 (algorithm : hash_algorithm) (data : bytes) (emLen : nat)
  : result bytes :=
  let t := digest_info_prefix algorithm ++ hash algorithm data in
  if (emLen <? List.length t + 11)%nat then inl ValueError
  else inr ([x00; x01] ++ repeat xff (emLen - List.length t - 3) ++ [x00] ++ t).

Fixpoint pow_mod_pos (b : N) (ex : positive) (m : N) : N :=
  match ex with
  | xH => b mod m
  | xO ex' => let r := pow_mod_pos b ex' m in (r * r) mod m
  | xI ex' => let r := pow_mod_pos b ex' m in ((r * r) mod m * b) mod m
  end.

(** [pow(b, ex, m)] *)
Definition pow_mod (b ex m : N) : N :=
  match ex with
  | N0 => 1 mod m
  | Npos ex' => pow_mod_pos b ex' m
  end.

(** RSASSA-PKCS1-v1_5: the encoded message raised to the private exponent,
    as a byte string of the length of the modulus. *)
Definition sign (key : RSAPrivateKey) (data : bytes)
    (padding : asymmetric_padding) (algorithm : hash_algorithm)
  : result bytes :=
  let k := private_numbers key in
  let modulus := n (public_numbers k) in
  let emLen := key_size_bytes modulus in
  match padding with
  | PKCS1v15 =>
      (em <- emsa_pkcs1_v15 algorithm data emLen ;;
       inr (int_to_bytes emLen (pow_mod (int_from_bytes em) (d k) modulus)))%result
  end.

End RSA.

(** ** The transaction record

    [tx_fields] is a dict with a fixed set of keys, built in [main]; it is a
    record here, one field a key.  A tag is a dict of strings. *)

Module Tx.
Record tx_fields := mk
  { format : Z;
    id : string;
    last_tx : string;
    owner : string;
    tags : list pydict;
    target : string;
    quantity : string;
    data : string;
    reward : string;
    signature : string;
    data_size : string;
    data_root : string }.

Definition set_data_root (v : string) (tx : tx_fields) : tx_fields :=
  mk (format tx) (id tx) (last_tx tx) (owner tx) (tags tx) (target tx)
     (quantity tx) (data tx) (reward tx) (signature tx) (data_size tx) v.

Definition set_signature (v : string) (tx : tx_fields) : tx_fields :=
  mk (format tx) (id tx) (last_tx tx) (owner tx) (tags tx) (target tx)
     (quantity tx) (data tx) (reward tx) v (data_size tx) (data_root tx).

Definition set_id (v : string) (tx : tx_fields) : tx_fields :=
  mk (format tx) v (last_tx tx) (owner tx) (tags tx) (target tx)
     (quantity tx) (data tx) (reward tx) (signature tx) (data_size tx)
     (data_root tx).
End Tx.

(** Truth value of a [str]: the empty string is false. *)
Definition truthy (s : string) : bool :=
  match s with
  | EmptyString => false
  | String _ _ => true
  end.

(** ** Objects and references

    A dict is a mutable object: a variable holds a reference to it, and an
    item assignment changes the object every holder of the reference sees.
    The heap maps each reference to the record it denotes; a computation
    takes the heap and returns a value or an exception, and the heap it
    leaves. *)

Definition ref := nat.
Definition heap := ref -> Tx.tx_fields.

Definition M (A : Type) : Type := heap -> result A * heap.

Definition ret {A : Type} (a : A) : M A := fun h => (inr a, h).

Definition bind {A B : Type} (m : M A) (k : A -> M B) : M B :=
  fun h => match m h with
           | (inl ex, h') => (inl ex, h')
           | (inr a, h') => k a h'
           end.

(** A call that does not touch the heap. *)
Definition lift {A : Type} (r : result A) : M A := fun h => (r, h).

Definition deref (r : ref) : M Tx.tx_fields := fun h => (inr (h r), h).

Definition update (r : ref) (f : Tx.tx_fields -> Tx.tx_fields) : M unit :=
  fun h => (inr tt, fun r' => if Nat.eqb r' r then f (h r) else h r').

Declare Scope M_scope.
Delimit Scope M_scope with M.
Notation "x <- m ;; k" := (bind m (fun x => k))
  (at level 61, m at next level, right associativity) : M_scope.
Notation "m ;; k" := (bind m (fun _ => k))
  (at level 61, right associativity) : M_scope.

(** ** Deep hashing *)

(** Single-chunk helper for small data: sha-384(label + chunk). *)
Definition deep_hash_chunk (chunk_type chunk : bytes) : bytes :=
  sha384 (chunk_type ++ chunk).

Definition bytes_literal (s : string) : bytes := map byte_of_ascii (list_ascii_of_string s).

(** What the loop of [deep_hash_transaction_v2] tests with [isinstance]:
    a chunk is a byte string or a tuple. *)
Inductive pyval :=
| PBytes (v : bytes)
| PTuple (items : list bytes).

(** One turn of the loop over the [(label, chunk)] pairs: a chunk that is a
    tuple is skipped, any other chunk has its labelled digest appended to
    the rolling [to_hash]. *)
Definition hash_step (to_hash : bytes) (item : bytes * pyval) : bytes :=
  let '(label, chunk) := item in
  match chunk with
  | PTuple _ => to_hash
  | PBytes chunk => to_hash ++ deep_hash_chunk label chunk
  end.

(** The list the loop runs over.  The entry for an empty target is the pair
    [(b'', b'')], which unpacks to the label [b''] and the chunk [b'']. *)
Definition labelled_chunks (tx : Tx.tx_fields) : result (list (bytes * pyval)) :=
  (let format_bytes := encode_utf8 (str_of_int (Tx.format tx)) in
   owner_bytes <- base64url_decode (Tx.owner tx) ;;
   let reward_bytes := encode_utf8 (Tx.reward tx) in
   last_tx_bytes <- (if truthy (Tx.last_tx tx)
                     then base64url_decode (Tx.last_tx tx) else inr []) ;;
   data_root_bytes <- base64url_decode (Tx.data_root tx) ;;
   let data_size_bytes := encode_utf8 (Tx.data_size tx) in
   let tags_json := Json.dumps (Tx.tags tx) in
   let tags_bytes := encode_utf8 tags_json in
   target_item <- (if truthy (Tx.target tx)
                   then (target_bytes <- base64url_decode (Tx.target tx) ;;
                         inr (bytes_literal "ARWEAVE_TARGET", PBytes target_bytes))
                   else inr ([], PBytes [])) ;;
   inr [ (bytes_literal "ARWEAVE_FORMAT", PBytes format_bytes);
         (bytes_literal "ARWEAVE_OWNER", PBytes owner_bytes);
         (bytes_literal "ARWEAVE_REWARD", PBytes reward_bytes);
         (bytes_literal "ARWEAVE_LAST_TX", PBytes last_tx_bytes);
         (bytes_literal "ARWEAVE_DATA_ROOT", PBytes data_root_bytes);
         (bytes_literal "ARWEAVE_DATA_SIZE", PBytes data_size_bytes);
         (bytes_literal "ARWEAVE_TAGS", PBytes tags_bytes);
         target_item;
         (bytes_literal "ARWEAVE_QUANTITY", PBytes (encode_utf8 (Tx.quantity tx))) ])%result.

Definition deep_hash_transaction_v2 (tx_fields : Tx.tx_fields) : result bytes :=
  (items <- labelled_chunks tx_fields ;;
   let to_hash := fold_left hash_step items [] in
   inr (sha384 to_hash))%result.

(** ** Signing *)

Definition sign_transaction_v2 (tx_fields : ref) (private_key : RSA.RSAPrivateKey)
  : M ref :=
  (tx <- deref tx_fields ;;
   (if truthy (Tx.data tx)
    then data_bytes <- lift (base64url_decode (Tx.data tx)) ;;
         update tx_fields (Tx.set_data_root (base64url_encode (sha256 data_bytes)))
    else update tx_fields (Tx.set_data_root EmptyString)) ;;
   tx <- deref tx_fields ;;
   dd <- lift (deep_hash_transaction_v2 tx) ;;
   signature <- lift (RSA.sign private_key dd RSA.PKCS1v15 RSA.SHA384) ;;
   let sig_b64 := base64url_encode signature in
   update tx_fields (Tx.set_signature sig_b64) ;;
   let id_bytes := sha256 signature in
   let id_b64 := base64url_encode id_bytes in
   update tx_fields (Tx.set_id id_b64) ;;
   ret tx_fields)%M.

(** ** What the module reads from outside: the key file and the node *)

Record Response := { status_code : Z; text : string }.

(** [int.from_bytes(base64url_decode(jwk[key]), 'big')] *)
Definition jwk_int (jwk : pydict) (key : string) : result N :=
  (s <- dict_get jwk key ;;
   v <- base64url_decode s ;;
   inr (int_from_bytes v))%result.

Section Outside.
(** [json.load(open(filepath))] and [requests.get(url)]. *)
Variable json_load_file : string -> result pydict.
Variable requests_get : string -> result Response.

(** Load an Arweave JWK from a JSON file, build an RSA private key. *)
Definition load_jwk (filepath : string) : result (RSA.RSAPrivateKey * pydict) :=
  (jwk <- json_load_file filepath ;;
   n <- jwk_int jwk "n" ;;
   e <- jwk_int jwk "e" ;;
   d <- jwk_int jwk "d" ;;
   p <- jwk_int jwk "p" ;;
   q <- jwk_int jwk "q" ;;
   dp <- jwk_int jwk "dp" ;;
   dq <- jwk_int jwk "dq" ;;
   qi <- jwk_int jwk "qi" ;;
   privkey <- RSA.private_key
                {| RSA.p := p; RSA.q := q; RSA.d := d;
                   RSA.dmp1 := dp; RSA.dmq1 := dq; RSA.iqmp := qi;
                   RSA.public_numbers := {| RSA.e := e; RSA.n := n |} |} ;;
   inr (privkey, jwk))%result.

(** Fetch an anchor/last_tx from the node. *)
Definition get_anchor (node_url : string) : result string :=
  (r <- requests_get (node_url ++ "/tx_anchor")%string ;;
   if (status_code r =? 200)%Z then inr (strip (text r)) else inr EmptyString)%result.

(** Fetch a recommended transaction fee from the /price/ endpoint. *)
Definition get_price (node_url : string) (size : Z) : result string :=
  (r <- requests_get (node_url ++ "/price/" ++ str_of_int size)%string ;;
   if (status_code r =? 200)%Z then inr (strip (text r)) else inr "0"%string)%result.
End Outside.

(** The dict [main] builds for the payload [data_bytes], the anchor and the
    fee it fetched and the modulus of the JWK. *)
Definition main_tx_fields (anchor : string) (jwk_n : string) (reward : string)
    (data_bytes : bytes) : Tx.tx_fields :=
  let data_b64 := base64url_encode data_bytes in
  let data_len := Z.of_nat (List.length data_bytes) in
  {| Tx.format := 2;
     Tx.id := EmptyString;
     Tx.last_tx := anchor;
     Tx.owner := jwk_n;
     Tx.tags := [];
     Tx.target := EmptyString;
     Tx.quantity := "0";
     Tx.data := data_b64;
     Tx.reward := reward;
     Tx.signature := EmptyString;
     Tx.data_size := str_of_int data_len;
     Tx.data_root := EmptyString |}.

(** ** Checks, for properties settled value by value *)

(** A sextet through the URL-safe alphabet. *)
Definition urlsafe_char (v : N) : ascii :=
  Base64.urlsafe_encode_translation (Base64.b2a_char v).

(** The character of a sextet is not the pad, is ASCII, and its value under
    the decoding table is the sextet. *)
Definition sextet_ok (v : N) : bool :=
  negb (urlsafe_char v =? Base64.BASE64_PAD)%char
  && isascii (urlsafe_char v)
  && match Base64.a2b_char (Base64.urlsafe_decode_translation (urlsafe_char v)) with
     | Some u => u =? v
     | None => false
     end
  && negb (Base64.urlsafe_decode_translation (urlsafe_char v) =? Base64.BASE64_PAD)%char.

(** The second sextet of a group holds two bits [a] of the first byte above
    four bits [h] of the second; the third holds four bits above two. *)
Definition sextet1_ok (a h : N) : bool :=
  let v := N.land (N.lor (N.shiftl a 4) h) 63 in
  (N.shiftr v 4 =? a) && (N.land v 15 =? h).

Definition sextet2_ok (a h : N) : bool :=
  let v := N.land (N.lor (N.shiftl a 2) h) 63 in
  (N.shiftr v 2 =? a) && (N.land v 3 =? h).

(** The bytes the decoder rebuilds from the parts of one byte. *)
Definition byte0_ok (x : byte) : bool :=
  let n := Byte.to_N x in
  Byte.eqb (byte_of_N (N.lor (N.shiftl (N.land (N.shiftr n 2) 63) 2) (N.land n 3))) x
  && (N.shiftr (N.land (N.shiftl (N.land n 3) 4) 63) 4 =? N.land n 3)
  && (N.land n 3 <? 4) && (N.shiftr n 4 <? 16).

Definition byte1_ok (x : byte) : bool :=
  let n := Byte.to_N x in
  Byte.eqb (byte_of_N (N.lor (N.shiftl (N.shiftr n 4) 4) (N.land n 15))) x
  && (N.shiftr (N.land (N.shiftl (N.land n 15) 2) 63) 2 =? N.land n 15)
  && (N.land n 15 <? 16) && (N.shiftr n 6 <? 4).

Definition byte2_ok (x : byte) : bool :=
  let n := Byte.to_N x in
  Byte.eqb (byte_of_N (N.lor (N.shiftl (N.shiftr n 6) 6) (N.land n 63))) x.

(** What [base64url_decode] does to its argument before decoding. *)
Definition pad4 (s : string) : string :=
  let rem := (String.length s mod 4)%nat in
  if (0 <? rem)%nat then (s ++ str_repeat "="%char (4 - rem))%string else s.

(** A byte string in lowercase hexadecimal, for known answers. *)
Fixpoint hex (data : bytes) : string :=
  match data with
  | [] => EmptyString
  | x :: rest =>
      String (Json.hexdigit (Byte.to_N x / 16))
        (String (Json.hexdigit (Byte.to_N x mod 16)) (hex rest))
  end.

(** ** The canonical hash as the design document words it

    The fields in the order format, owner, target (left out when empty),
    quantity, fee, last-transaction anchor, tags, data_size, data_root; a
    SHA-384 digest of label and bytes for each; the SHA-384 digest of the
    digests in that order.  Labels and field bytes are those of
    [deep_hash_transaction_v2]. *)

Definition spec_fields (tx : Tx.tx_fields) : result (list (bytes * bytes)) :=
  (owner_bytes <- base64url_decode (Tx.owner tx) ;;
   target_bytes <- (if truthy (Tx.target tx)
                    then base64url_decode (Tx.target tx) else inr []) ;;
   last_tx_bytes <- (if truthy (Tx.last_tx tx)
                     then base64url_decode (Tx.last_tx tx) else inr []) ;;
   data_root_bytes <- base64url_decode (Tx.data_root tx) ;;
   inr ([ (bytes_literal "ARWEAVE_FORMAT", encode_utf8 (str_of_int (Tx.format tx)));
          (bytes_literal "ARWEAVE_OWNER", owner_bytes) ]
        ++ (if truthy (Tx.target tx)
            then [ (bytes_literal "ARWEAVE_TARGET", target_bytes) ] else [])
        ++ [ (bytes_literal "ARWEAVE_QUANTITY", encode_utf8 (Tx.quantity tx));
             (bytes_literal "ARWEAVE_REWARD", encode_utf8 (Tx.reward tx));
             (bytes_literal "ARWEAVE_LAST_TX", last_tx_bytes);
             (bytes_literal "ARWEAVE_TAGS", encode_utf8 (Json.dumps (Tx.tags tx)));
             (bytes_literal "ARWEAVE_DATA_SIZE", encode_utf8 (Tx.data_size tx));
             (bytes_literal "ARWEAVE_DATA_ROOT", data_root_bytes) ]))%result.

Definition spec_deep_hash (tx : Tx.tx_fields) : result bytes :=
  (fields <- spec_fields tx ;;
   inr (sha384 (flat_map (fun lc => sha384 (fst lc ++ snd lc)) fields)))%result.

(** The first byte of a returned byte string. *)
Definition first_byte (r : result bytes) : option byte :=
  match r with
  | inr (x :: _) => Some x
  | _ => None
  end.

(** A non-negative decimal integer string, as the design document asks of
    quantity and fee. *)
Definition is_digit (c : ascii) : bool :=
  let n := N_of_ascii c in (48 <=? n) && (n <=? 57).

Definition is_decimal (s : string) : bool := truthy s && str_forallb is_digit s.

(** ** The effect of [sign_transaction_v2] on the record it is given *)

Definition new_data_root (tx : Tx.tx_fields) : result string :=
  if truthy (Tx.data tx)
  then (data_bytes <- base64url_decode (Tx.data tx) ;;
        inr (base64url_encode (sha256 data_bytes)))%result
  else inr EmptyString.

Definition sign_record (tx : Tx.tx_fields) (private_key : RSA.RSAPrivateKey)
  : result unit * Tx.tx_fields :=
  match new_data_root tx with
  | inl ex => (inl ex, tx)
  | inr root =>
      let tx1 := Tx.set_data_root root tx in
      match deep_hash_transaction_v2 tx1 with
      | inl ex => (inl ex, tx1)
      | inr dd =>
          match RSA.sign private_key dd RSA.PKCS1v15 RSA.SHA384 with
          | inl ex => (inl ex, tx1)
          | inr sg =>
              (inr tt,
               Tx.set_id (base64url_encode (sha256 sg))
                 (Tx.set_signature (base64url_encode sg) tx1))
          end
      end
  end.

(** Two records that differ at most in quantity, fee and data_size. *)
Definition same_but_amounts (tx tx' : Tx.tx_fields) : Prop :=
  Tx.format tx' = Tx.format tx /\ Tx.id tx' = Tx.id tx
  /\ Tx.last_tx tx' = Tx.last_tx tx /\ Tx.owner tx' = Tx.owner tx
  /\ Tx.tags tx' = Tx.tags tx /\ Tx.target tx' = Tx.target tx
  /\ Tx.data tx' = Tx.data tx /\ Tx.signature tx' = Tx.signature tx
  /\ Tx.data_root tx' = Tx.data_root tx.

(** Two calls that end the same way: both return, or both raise the same
    exception. *)
Definition same_outcome {A B : Type} (r : result A) (r' : result B) : Prop :=
  match r, r' with
  | inl ex, inl ex' => ex = ex'
  | inr _, inr _ => True
  | _, _ => False
  end.

(** A record whose base64url fields decode: the data field, the owner, and
    the anchor and the target when they are not empty. *)
Definition returns {A : Type} (r : result A) : bool :=
  match r with
  | inr _ => true
  | inl _ => false
  end.

Definition decodable (tx : Tx.tx_fields) : bool :=
  returns (new_data_root tx)
  && returns (base64url_decode (Tx.owner tx))
  && (negb (truthy (Tx.last_tx tx)) || returns (base64url_decode (Tx.last_tx tx)))
  && (negb (truthy (Tx.target tx)) || returns (base64url_decode (Tx.target tx))).

(** The four ways [sign_transaction_v2] can end, with the record it leaves:
    the payload does not decode, a hashed field does not decode, the key is
    too short for the digest, or the record is signed. *)

Inductive sign_outcome (tx : Tx.tx_fields) (key : RSA.RSAPrivateKey)
  : result unit -> Tx.tx_fields -> Prop :=
| payload_undecodable ex :
    new_data_root tx = inl ex ->
    sign_outcome tx key (inl ex) tx
| field_undecodable root ex :
    new_data_root tx = inr root ->
    deep_hash_transaction_v2 (Tx.set_data_root root tx) = inl ex ->
    sign_outcome tx key (inl ex) (Tx.set_data_root root tx)
| key_too_short root dd ex :
    new_data_root tx = inr root ->
    deep_hash_transaction_v2 (Tx.set_data_root root tx) = inr dd ->
    RSA.sign key dd RSA.PKCS1v15 RSA.SHA384 = inl ex ->
    sign_outcome tx key (inl ex) (Tx.set_data_root root tx)
| signed root dd sg :
    new_data_root tx = inr root ->
    deep_hash_transaction_v2 (Tx.set_data_root root tx) = inr dd ->
    RSA.sign key dd RSA.PKCS1v15 RSA.SHA384 = inr sg ->
    sign_outcome tx key (inr tt)
      (Tx.set_id (base64url_encode (sha256 sg))
         (Tx.set_signature (base64url_encode sg) (Tx.set_data_root root tx))).

(** A record signed with [private_key]: its signature field is the
    base64url text of the RSASSA-PKCS1-v1_5 signature, with SHA-384, of its
    deep hash, and its id the base64url text of the SHA-256 digest of that
    signature.  The signature is the encoded message
    [00 01 FF .. FF 00 DigestInfo(SHA-384, deep hash)] raised to the private
    exponent modulo the modulus. *)
Definition signed_by (private_key : RSA.RSAPrivateKey) (tx : Tx.tx_fields) : Prop :=
  let numbers := RSA.private_numbers private_key in
  let modulus := RSA.n (RSA.public_numbers numbers) in
  let emLen := RSA.key_size_bytes modulus in
  exists dd sg : bytes,
    deep_hash_transaction_v2 tx = inr dd
    /\ RSA.sign private_key dd RSA.PKCS1v15 RSA.SHA384 = inr sg
    /\ sg = int_to_bytes emLen
              (RSA.pow_mod
                 (int_from_bytes
                    ([x00; x01] ++ repeat xff (emLen - 70) ++ [x00]
                     ++ RSA.digest_info_prefix RSA.SHA384 ++ sha384 dd))
                 (RSA.d numbers) modulus)
    /\ Tx.signature tx = base64url_encode sg
    /\ Tx.id tx = base64url_encode (sha256 sg).

(** The heap [h] with the data_root of the record at [l] replaced. *)
Definition with_data_root (v : string) (l : ref) (h : heap) : heap :=
  fun r => if Nat.eqb r l then Tx.set_data_root v (h l) else h r.

(** ** Sample inputs *)

Module Sample.

(** A 640-bit RSA key: two 320-bit primes, private exponent 3. *)
Definition numbers : RSA.RSAPrivateNumbers :=
  {| RSA.p := 0xe54270842046fd60b8a3be1676cb48bb702b5758ee6cfd2f541278335f01e87811871b4eaba91b49;
     RSA.q := 0xdc94afa44a5564c2185144af6ae18f929b53ac6b9b2661b453295e1e954b2c190580003f95669813;
     RSA.d := 3;
     RSA.dmp1 := 3;
     RSA.dmq1 := 3;
     RSA.iqmp := 0x26e655e27db93536a4a2100f15594fbd0f3fa54e53909b1da151b9ed09f132fbd1b859026bd3c9da;
     RSA.public_numbers :=
       {| RSA.e := 0x20ec601106074a8d5b17aba3678138abf9a7673b12200ff95a981c19a8cc3a6206d4ca72a9c2ccb0d552e802e6747d5d1d91ec19a5ef4595facf5d84e012601eb66a584b6ce806579199071260211c83;
          RSA.n := 0xc58a4066242bbf50228e05d46d075407d9ec6b626cc05fd81f90a899f4c95e4c28fcbeaffa90cc26c1c89039d157525182608b5fc54879d1ec5b34e1ca019f9bedb9e81681bd3a9e809d45fc81d65e6b |} |}.

Definition key : RSA.RSAPrivateKey := RSA.PrivateKey numbers.

(** Its modulus in base64url, the owner field of a record. *)
Definition owner : string :=
  "xYpAZiQrv1AijgXUbQdUB9nsa2JswF_YH5ComfTJXkwo_L6v-pDMJsHIkDnRV1JRgmCLX8VIedHsWzThygGfm-256BaBvTqegJ1F_IHWXms".

(** A key too short for a SHA-384 [DigestInfo]: modulus 3233 = 61 * 53. *)
Definition small_key : RSA.RSAPrivateKey :=
  RSA.PrivateKey
    {| RSA.p := 61; RSA.q := 53; RSA.d := 413; RSA.dmp1 := 53; RSA.dmq1 := 49;
       RSA.iqmp := 38;
       RSA.public_numbers := {| RSA.e := 17; RSA.n := 3233 |} |}.

Definition hello : bytes := bytes_literal "hello".

(** Anchor "abc", payload "hello", quantity "0", fee "100", no target. *)
Definition tx_hello : Tx.tx_fields := main_tx_fields "abc" owner "100" hello.

(** The same with a target. *)
Definition tx_target : Tx.tx_fields :=
  {| Tx.format := 2; Tx.id := EmptyString; Tx.last_tx := "abc"; Tx.owner := owner;
     Tx.tags := [[("name", "App"); ("value", "SolAR")]]%string;
     Tx.target := "aGVsbG8"; Tx.quantity := "7";
     Tx.data := base64url_encode hello; Tx.reward := "100";
     Tx.signature := EmptyString; Tx.data_size := "5"; Tx.data_root := EmptyString |}.

(** Quantity and fee that are no decimal numbers, and a data_size that is
    not the length of the five-byte payload. *)
Definition tx_unvalidated : Tx.tx_fields :=
  {| Tx.format := 2; Tx.id := EmptyString; Tx.last_tx := "abc"; Tx.owner := owner;
     Tx.tags := []; Tx.target := EmptyString; Tx.quantity := "-1";
     Tx.data := base64url_encode hello; Tx.reward := "free";
     Tx.signature := EmptyString; Tx.data_size := "999"; Tx.data_root := EmptyString |}.

(** A JWK whose modulus 35 is not the product of its primes 3 and 5. *)
Definition jwk_inconsistent : pydict :=
  [ ("kty", "RSA"); ("n", "Iw"); ("e", "Aw"); ("d", "Aw"); ("p", "Aw");
    ("q", "BQ"); ("dp", "AQ"); ("dq", "Aw"); ("qi", "Ag") ]%string.

Definition heap_of (tx : Tx.tx_fields) : heap := fun _ => tx.

Definition not_found (url : string) : result Response :=
  inr {| status_code := 404; text := "Not Found" |}.

End Sample.

(** ** Alphabets of the codec *)

(** The characters [base64url_encode] writes: letters, digits, [-] and [_]. *)
Definition is_urlsafe (c : ascii) : bool :=
  let v := N_of_ascii c in
  ((65 <=? v) && (v <=? 90)) || ((97 <=? v) && (v <=? 122))
  || ((48 <=? v) && (v <=? 57)) || (v =? 45) || (v =? 95).

(** The characters [base64url_decode] gives a value: those, and [+] and [/]. *)
Definition in_alphabet (c : ascii) : bool :=
  match Base64.a2b_char (Base64.urlsafe_decode_translation c) with
  | Some _ => true
  | None => false
  end.

(** A character the decoder passes over: ASCII, without a value, not the
    pad. *)
Definition is_skipped (c : ascii) : bool :=
  isascii c && negb (in_alphabet c) && negb (c =? Base64.BASE64_PAD)%char.

Definition sextet_urlsafe (v : N) : bool := is_urlsafe (urlsafe_char v).

Definition alphabet_char_ok (v : N) : bool :=
  let c := ascii_of_N v in
  implb (in_alphabet c)
    (isascii c && negb (Base64.urlsafe_decode_translation c =? Base64.BASE64_PAD)%char)
  && implb (is_urlsafe c) (in_alphabet c)
  && implb (is_skipped c)
       (negb (Base64.urlsafe_decode_translation c =? Base64.BASE64_PAD)%char).

Definition str_last (s : string) : option ascii :=
  match s with
  | EmptyString => None
  | String c s' =>
      (fix last (c : ascii) (s : string) : option ascii :=
         match s with
         | EmptyString => Some c
         | String c' s' => last c' s'
         end) c s'
  end.

Definition str_first (s : string) : option ascii :=
  match s with
  | EmptyString => None
  | String c _ => Some c
  end.

(** ** Posting, and the program

    [main] reads the key file and asks the node twice, prints, builds a dict,
    has it signed and posts it.  The world it runs in holds the dicts, the
    next free reference, the lines printed and the calls of [requests.post]
    made, whether they returned or raised. *)

Record world := World
  { objects : heap;
    next_ref : ref;
    stdout : list string;
    posted : list (string * Tx.tx_fields) }.

Definition IO (A : Type) : Type := world -> result A * world.

Definition io_ret {A : Type} (a : A) : IO A := fun w => (inr a, w).

Definition io_bind {A B : Type} (m : IO A) (k : A -> IO B) : IO B :=
  fun w => match m w with
           | (inl ex, w') => (inl ex, w')
           | (inr a, w') => k a w'
           end.

(** A call that leaves the world alone. *)
Definition io_lift {A : Type} (r : result A) : IO A := fun w => (r, w).

(** A call that works on the dicts only. *)
Definition io_heap {A : Type} (m : M A) : IO A :=
  fun w => let '(r, h) := m (objects w) in
           (r, World h (next_ref w) (stdout w) (posted w)).

(** [print(line)] *)
Definition print (line : string) : IO unit :=
  fun w => (inr tt, World (objects w) (next_ref w) (stdout w ++ [line]) (posted w)).

(** A dict display: a new object. *)
Definition new_dict (tx : Tx.tx_fields) : IO ref :=
  fun w => (inr (next_ref w),
            World (fun r => if Nat.eqb r (next_ref w) then tx else objects w r)
                  (S (next_ref w)) (stdout w) (posted w)).

Declare Scope IO_scope.
Delimit Scope IO_scope with IO.
Notation "x <- m ;; k" := (io_bind m (fun x => k))
  (at level 61, m at next level, right associativity) : IO_scope.
Notation "m ;; k" := (io_bind m (fun _ => k))
  (at level 61, right associativity) : IO_scope.

Section Program.
(** [json.load(open(filepath))], [requests.get(url)] and
    [requests.post(url, json=body)]. *)
Variable json_load_file : string -> result pydict.
Variable requests_get : string -> result Response.
Variable requests_post : string -> Tx.tx_fields -> result Response.

(** POST the transaction to /tx. *)
Definition post_transaction (node_url : string) (tx_json : ref) : IO Response :=
  fun w =>
    let url := (node_url ++ "/tx")%string in
    let body := objects w tx_json in
    (requests_post url body,
     World (objects w) (next_ref w) (stdout w) (posted w ++ [(url, body)])).

Definition main : IO unit :=
  (let node_url := "http://localhost:1984"%string in
   loaded <- io_lift (load_jwk json_load_file "arweave-key.json") ;;
   let privkey := fst loaded in
   let jwk := snd loaded in
   anchor <- io_lift (get_anchor requests_get node_url) ;;
   let data_bytes := bytes_literal "Hello from single-chunk v2 transaction!" in
   let data_len := Z.of_nat (List.length data_bytes) in
   reward <- io_lift (get_price requests_get node_url data_len) ;;
   (if String.eqb reward "0"
    then print "Warning: Reward=0, might be invalid on a real node."
    else io_ret tt) ;;
   jwk_n <- io_lift (dict_get jwk "n") ;;
   tx_fields <- new_dict (main_tx_fields anchor jwk_n reward data_bytes) ;;
   tx_fields <- io_heap (sign_transaction_v2 tx_fields privkey) ;;
   resp <- post_transaction node_url tx_fields ;;
   print ("POST /tx status: " ++ str_of_int (status_code resp)) ;;
   print ("POST /tx text: " ++ text resp) ;;
   tx <- io_heap (deref tx_fields) ;;
   if ((status_code resp =? 200) || (status_code resp =? 202))%Z
   then print ("Transaction posted successfully. TxID: " ++ Tx.id tx)
   else print "Transaction might have failed. Check node logs/responses.")%IO.
End Program.

(** The payload [main] sends. *)
Definition main_payload : bytes :=
  bytes_literal "Hello from single-chunk v2 transaction!".

(** ** Reading orders and shapes, for the statements below *)

(** The fields of the key file, in the order [load_jwk] reads them. *)
Definition jwk_fields : list string := ["n"; "e"; "d"; "p"; "q"; "dp"; "dq"; "qi"]%string.


(** The encoded message of RSASSA-PKCS1-v1_5 with SHA-384 for a key of
    [emLen] bytes, as a number. *)
Definition encoded_message (emLen : nat) (data : bytes) : N :=
  int_from_bytes ([x00; x01] ++ repeat xff (emLen - 70) ++ [x00]
                  ++ RSA.digest_info_prefix RSA.SHA384 ++ sha384 data).

(** A text without white space at either end. *)
Definition trimmed (s : string) : Prop :=
  match str_first s with
  | Some c => isspace c = false
  | None => True
  end
  /\ match str_last s with
     | Some c => isspace c = false
     | None => True
     end.

(** The numbers of a key [load_jwk] accepts: what the RSA library checks
    before it builds the key. *)
Definition consistent (k : RSA.RSAPrivateNumbers) : Prop :=
  let modulus := RSA.n (RSA.public_numbers k) in
  let public_exponent := RSA.e (RSA.public_numbers k) in
  RSA.p k * RSA.q k = modulus
  /\ 3 <= modulus
  /\ RSA.p k < modulus /\ RSA.q k < modulus /\ RSA.d k < modulus
  /\ RSA.dmp1 k < modulus /\ RSA.dmq1 k < modulus /\ RSA.iqmp k < modulus
  /\ 3 <= public_exponent /\ public_exponent < modulus
  /\ N.odd public_exponent = true
  /\ N.odd (RSA.dmp1 k) = true /\ N.odd (RSA.dmq1 k) = true.

(** The record [main] has signed for a payload: the fields it wrote
    itself, and the data_root the signer computed from the payload. *)
Definition built_record (anchor jwk_n reward : string) (payload : bytes)
    (tx : Tx.tx_fields) : Prop :=
  Tx.format tx = 2%Z /\ Tx.last_tx tx = anchor /\ Tx.owner tx = jwk_n
  /\ Tx.tags tx = [] /\ Tx.target tx = EmptyString /\ Tx.quantity tx = "0"%string
  /\ Tx.data tx = base64url_encode payload /\ Tx.reward tx = reward
  /\ Tx.data_size tx = str_of_int (Z.of_nat (List.length payload))
  /\ Tx.data_root tx = base64url_encode (sha256 payload).

(** The lines [main] prints: the warning for a fee of "0", and the report
    of the node's answer. *)
Definition warning (reward : string) : list string :=
  if String.eqb reward "0"
  then ["Warning: Reward=0, might be invalid on a real node."%string]
  else [].

Definition report (resp : Response) (tx : Tx.tx_fields) : list string :=
  [ ("POST /tx status: " ++ str_of_int (status_code resp))%string;
    ("POST /tx text: " ++ text resp)%string;
    if ((status_code resp =? 200) || (status_code resp =? 202))%Z
    then ("Transaction posted successfully. TxID: " ++ Tx.id tx)%string
    else "Transaction might have failed. Check node logs/responses."%string ].

(** ** A sample run *)

Module SampleRun.

(** A 624-bit RSA key with private exponent 3.  Its primes are
    [k * 2 ^ 160 + 1] with [k] below [2 ^ 160], numbers whose primality has
    a short proof. *)
Definition prime_shift : N := 160.

Definition p_factor : N := 0xacf88e8eb71cd25bb1769226b63d7383456c79.

Definition q_factor : N := 0xcdc6602348a65021a1e9f2c47c3d3922835719.

Definition numbers : RSA.RSAPrivateNumbers :=
  {| RSA.p := 0xacf88e8eb71cd25bb1769226b63d7383456c790000000000000000000000000000000000000001;
     RSA.q := 0xcdc6602348a65021a1e9f2c47c3d39228357190000000000000000000000000000000000000001;
     RSA.d := 3;
     RSA.dmp1 := 3;
     RSA.dmq1 := 3;
     RSA.iqmp := 0x4700316c31c2e8b4d2a47f7cbae836dd905e4c1836019c7390856c21def6eb953aaa0439c92958;
     RSA.public_numbers :=
       {| RSA.e := 0x5cb0b79265075438a141b4ce87d9a322e38ec1c26a2b510597a7211f3fefa2c26c82a90a79e0aaaaaaaaaaaaaaaaaaaaaaaaaaaaaaaaaaaaaaab;
          RSA.n := 0x8b09135b978afe54f1e28f35cbc674b4555622a39f40f988637ab1aedfe77423a2c3fd8fb6d1017abeeeb1ffc3227d536084eb327aaca5c8c3920000000000000000000000000000000000000001 |} |}.

Definition key : RSA.RSAPrivateKey := RSA.PrivateKey numbers.

(** The key as a JWK. *)
Definition jwk : pydict :=
  [ ("kty", "RSA");
    ("n", "iwkTW5eK_lTx4o81y8Z0tFVWIqOfQPmIY3qxrt_ndCOiw_2PttEBer7usf_DIn1TYITrMnqspcjDkgAAAAAAAAAAAAAAAAAAAAAAAAAB");
    ("e", "XLC3kmUHVDihQbTOh9mjIuOOwcJqK1EFl6chHz_vosJsgqkKeeCqqqqqqqqqqqqqqqqqqqqqqqqqqw");
    ("d", "Aw");
    ("p", "rPiOjrcc0luxdpImtj1zg0VseQAAAAAAAAAAAAAAAAAAAAAAAAAB");
    ("q", "zcZgI0imUCGh6fLEfD05IoNXGQAAAAAAAAAAAAAAAAAAAAAAAAAB");
    ("dp", "Aw");
    ("dq", "Aw");
    ("qi", "RwAxbDHC6LTSpH98uug23ZBeTBg2AZxzkIVsId7265U6qgQ5ySlY") ]%string.

Definition key_file (filepath : string) : result pydict :=
  if String.eqb filepath "arweave-key.json" then inr jwk else inl OSError.

(** A node that answers the anchor and the price with a trailing newline. *)
Definition node (url : string) : result Response :=
  if String.eqb url "http://localhost:1984/tx_anchor"
  then inr {| status_code := 200; text := String "a" (String "b" (String "c" (String "010" EmptyString))) |}
  else inr {| status_code := 200; text := String "1" (String "0" (String "0" (String "010" EmptyString))) |}.

Definition accept (url : string) (body : Tx.tx_fields) : result Response :=
  inr {| status_code := 200; text := "OK" |}.

Definition empty_world : world :=
  {| objects := Sample.heap_of Sample.tx_hello; next_ref := 0%nat;
     stdout := []; posted := [] |}.


(** A record without data that says its data has five bytes. *)
Definition tx_without_data : Tx.tx_fields :=
  {| Tx.format := 2; Tx.id := EmptyString; Tx.last_tx := "abc";
     Tx.owner := Sample.owner; Tx.tags := []; Tx.target := EmptyString;
     Tx.quantity := "0"; Tx.data := EmptyString; Tx.reward := "100";
     Tx.signature := EmptyString; Tx.data_size := "5";
     Tx.data_root := EmptyString |}.

(** A record whose data is four pad characters: a text that is not empty
    and decodes to no bytes. *)
Definition tx_padding_only : Tx.tx_fields :=
  {| Tx.format := 2; Tx.id := EmptyString; Tx.last_tx := "abc";
     Tx.owner := Sample.owner; Tx.tags := []; Tx.target := EmptyString;
     Tx.quantity := "0"; Tx.data := "===="; Tx.reward := "100";
     Tx.signature := EmptyString; Tx.data_size := "0";
     Tx.data_root := EmptyString |}.

(** A JWK without its modulus. *)
Definition jwk_without_n : pydict :=
  [ ("kty", "RSA"); ("e", "Aw"); ("d", "Aw"); ("p", "Aw");
    ("q", "BQ"); ("dp", "AQ"); ("dq", "Aw"); ("qi", "Ag") ]%string.

End SampleRun.

(** * Properties *)

(** ** Checking a property on every byte, or on every number below a bound *)

Lemma N_range_In (bound : nat) (k : N) : k < N.of_nat bound -> In k (N_range bound).
Proof.
  intros Hk. unfold N_range. apply in_map_iff.
  exists (N.to_nat k). split.
  - apply N2Nat.id.
  - apply in_seq. lia.
Qed.

Lemma N_forall_below (bound : nat) (P : N -> bool) :
  forallb P (N_range bound) = true -> forall k, k < N.of_nat bound -> P k = true.
Proof.
  intros Hall k Hk. rewrite forallb_forall in Hall.
  apply Hall, N_range_In, Hk.
Qed.

Lemma byte_of_to_N (x : byte) : byte_of_N (Byte.to_N x) = x.
Proof.
  unfold byte_of_N. pose proof (Byte.to_N_bounded x) as Hb.
  rewrite N.mod_small by lia. now rewrite Byte.of_to_N.
Qed.

Lemma byte_forall (P : byte -> bool) :
  forallb (fun v => P (byte_of_N v)) (N_range 256) = true -> forall x, P x = true.
Proof.
  intros Hall x. rewrite <- (byte_of_to_N x).
  apply (N_forall_below 256 (fun v => P (byte_of_N v)) Hall).
  pose proof (Byte.to_N_bounded x). lia.
Qed.

Lemma list_triple_ind (A : Type) (P : list A -> Prop) :
  P [] -> (forall x, P [x]) -> (forall x y, P [x; y]) ->
  (forall x y z l, P l -> P (x :: y :: z :: l)) ->
  forall l, P l.
Proof.
  intros H0 H1 H2 H3 l.
  assert (Hall : P l /\ (forall x, P (x :: l)) /\ (forall x y, P (x :: y :: l))).
  { induction l as [|z l (IH0 & IH1 & IH2)].
    - repeat split; auto.
    - repeat split; auto. }
  apply Hall.
Qed.

(** ** The base64url codec *)

Section Base64Facts.
Import Base64.

Lemma land_63_lt (v : N) : N.land v 63 < 64.
Proof.
  change 63 with (N.ones 6). rewrite N.land_ones.
  apply N.mod_lt. discriminate.
Qed.

Lemma b2a_char_land (v : N) : b2a_char (N.land v 63) = b2a_char v.
Proof.
  unfold b2a_char. rewrite <- N.land_assoc. reflexivity.
Qed.

Lemma sextet_ok_all (v : N) : sextet_ok (N.land v 63) = true.
Proof.
  apply (N_forall_below 64 sextet_ok).
  - vm_compute. reflexivity.
  - apply land_63_lt.
Qed.

Lemma urlsafe_char_facts (v : N) :
  (urlsafe_char v =? BASE64_PAD)%char = false
  /\ isascii (urlsafe_char v) = true
  /\ a2b_char (urlsafe_decode_translation (urlsafe_char v)) = Some (N.land v 63)
  /\ (urlsafe_decode_translation (urlsafe_char v) =? BASE64_PAD)%char = false.
Proof.
  pose proof (sextet_ok_all v) as H. unfold sextet_ok in H.
  unfold urlsafe_char in *. rewrite b2a_char_land in H.
  apply andb_prop in H. destruct H as [H H4].
  apply andb_prop in H. destruct H as [H H3].
  apply andb_prop in H. destruct H as [H1 H2].
  repeat split.
  - now apply negb_true_iff.
  - exact H2.
  - destruct (a2b_char _) as [u|]; [|discriminate].
    apply N.eqb_eq in H3. now subst.
  - now apply negb_true_iff.
Qed.

Lemma sextet1_ok_all (a h : N) : a < 4 -> h < 16 -> sextet1_ok a h = true.
Proof.
  intros Ha Hh.
  apply (N_forall_below 16 (fun h => sextet1_ok a h)); [|exact Hh].
  apply (N_forall_below 4 (fun a => forallb (fun h => sextet1_ok a h) (N_range 16)));
    [vm_compute; reflexivity | exact Ha].
Qed.

Lemma sextet2_ok_all (a h : N) : a < 16 -> h < 4 -> sextet2_ok a h = true.
Proof.
  intros Ha Hh.
  apply (N_forall_below 4 (fun h => sextet2_ok a h)); [|exact Hh].
  apply (N_forall_below 16 (fun a => forallb (fun h => sextet2_ok a h) (N_range 4)));
    [vm_compute; reflexivity | exact Ha].
Qed.

Lemma byte0_ok_all (x : byte) : byte0_ok x = true.
Proof. apply byte_forall. vm_compute. reflexivity. Qed.

Lemma byte1_ok_all (x : byte) : byte1_ok x = true.
Proof. apply byte_forall. vm_compute. reflexivity. Qed.

Lemma byte2_ok_all (x : byte) : byte2_ok x = true.
Proof. apply byte_forall. vm_compute. reflexivity. Qed.

(** The three bytes of a group, rebuilt from its four sextets. *)
Lemma group_byte0 (x0 x1 : byte) :
  let n0 := Byte.to_N x0 in
  let n1 := Byte.to_N x1 in
  byte_of_N (N.lor (N.shiftl (N.land (N.shiftr n0 2) 63) 2)
               (N.shiftr (N.land (N.lor (N.shiftl (N.land n0 3) 4) (N.shiftr n1 4)) 63) 4))
  = x0.
Proof.
  intros n0 n1.
  pose proof (byte0_ok_all x0) as H0. pose proof (byte0_ok_all x1) as H1.
  unfold byte0_ok in H0, H1. fold n0 in H0. fold n1 in H1.
  repeat (apply andb_prop in H0; destruct H0 as [H0 ?]).
  repeat (apply andb_prop in H1; destruct H1 as [H1 ?]).
  assert (Hs : sextet1_ok (N.land n0 3) (N.shiftr n1 4) = true)
    by (apply sextet1_ok_all; now apply N.ltb_lt).
  unfold sextet1_ok in Hs. apply andb_prop in Hs. destruct Hs as [Hs _].
  apply N.eqb_eq in Hs. rewrite Hs.
  now apply Byte.byte_dec_bl.
Qed.

Lemma group_byte1 (x0 x1 x2 : byte) :
  let n0 := Byte.to_N x0 in
  let n1 := Byte.to_N x1 in
  let n2 := Byte.to_N x2 in
  byte_of_N
    (N.lor (N.shiftl (N.land (N.land (N.lor (N.shiftl (N.land n0 3) 4) (N.shiftr n1 4)) 63) 15) 4)
       (N.shiftr (N.land (N.lor (N.shiftl (N.land n1 15) 2) (N.shiftr n2 6)) 63) 2))
  = x1.
Proof.
  intros n0 n1 n2.
  pose proof (byte0_ok_all x0) as H0. pose proof (byte1_ok_all x1) as H1.
  pose proof (byte0_ok_all x1) as H1'. pose proof (byte1_ok_all x2) as H2.
  unfold byte0_ok, byte1_ok in *. fold n0 in H0. fold n1 in H1, H1'. fold n2 in H2.
  repeat (apply andb_prop in H0; destruct H0 as [H0 ?]).
  repeat (apply andb_prop in H1; destruct H1 as [H1 ?]).
  repeat (apply andb_prop in H1'; destruct H1' as [H1' ?]).
  repeat (apply andb_prop in H2; destruct H2 as [H2 ?]).
  assert (Hs : sextet1_ok (N.land n0 3) (N.shiftr n1 4) = true)
    by (apply sextet1_ok_all; now apply N.ltb_lt).
  assert (Ht : sextet2_ok (N.land n1 15) (N.shiftr n2 6) = true)
    by (apply sextet2_ok_all; now apply N.ltb_lt).
  unfold sextet1_ok in Hs. apply andb_prop in Hs. destruct Hs as [_ Hs].
  unfold sextet2_ok in Ht. apply andb_prop in Ht. destruct Ht as [Ht _].
  apply N.eqb_eq in Hs, Ht. rewrite Hs, Ht.
  now apply Byte.byte_dec_bl.
Qed.

Lemma group_byte2 (x1 x2 : byte) :
  let n1 := Byte.to_N x1 in
  let n2 := Byte.to_N x2 in
  byte_of_N
    (N.lor (N.shiftl (N.land (N.land (N.lor (N.shiftl (N.land n1 15) 2) (N.shiftr n2 6)) 63) 3) 6)
       (N.land n2 63))
  = x2.
Proof.
  intros n1 n2.
  pose proof (byte1_ok_all x1) as H1. pose proof (byte1_ok_all x2) as H2.
  pose proof (byte2_ok_all x2) as H2'.
  unfold byte1_ok, byte2_ok in *. fold n1 in H1. fold n2 in H2, H2'.
  repeat (apply andb_prop in H1; destruct H1 as [H1 ?]).
  repeat (apply andb_prop in H2; destruct H2 as [H2 ?]).
  assert (Ht : sextet2_ok (N.land n1 15) (N.shiftr n2 6) = true)
    by (apply sextet2_ok_all; now apply N.ltb_lt).
  unfold sextet2_ok in Ht. apply andb_prop in Ht. destruct Ht as [_ Ht].
  apply N.eqb_eq in Ht. rewrite Ht.
  now apply Byte.byte_dec_bl.
Qed.

(** With one byte left, the second sextet holds its two low bits alone. *)
Lemma tail1_byte0 (x0 : byte) :
  let n0 := Byte.to_N x0 in
  byte_of_N (N.lor (N.shiftl (N.land (N.shiftr n0 2) 63) 2)
               (N.shiftr (N.land (N.shiftl (N.land n0 3) 4) 63) 4))
  = x0.
Proof.
  intros n0. pose proof (byte0_ok_all x0) as H0.
  unfold byte0_ok in H0. fold n0 in H0.
  repeat (apply andb_prop in H0; destruct H0 as [H0 ?]).
  match goal with H : (_ =? _) = true |- _ => apply N.eqb_eq in H; rewrite H end.
  now apply Byte.byte_dec_bl.
Qed.

(** With two bytes left, the third sextet holds four bits of the second. *)
Lemma tail2_byte1 (x0 x1 : byte) :
  let n0 := Byte.to_N x0 in
  let n1 := Byte.to_N x1 in
  byte_of_N
    (N.lor (N.shiftl (N.land (N.land (N.lor (N.shiftl (N.land n0 3) 4) (N.shiftr n1 4)) 63) 15) 4)
       (N.shiftr (N.land (N.shiftl (N.land n1 15) 2) 63) 2))
  = x1.
Proof.
  intros n0 n1.
  pose proof (byte0_ok_all x0) as H0. pose proof (byte1_ok_all x1) as H1.
  pose proof (byte0_ok_all x1) as H1'.
  unfold byte0_ok, byte1_ok in *. fold n0 in H0. fold n1 in H1, H1'.
  repeat (apply andb_prop in H0; destruct H0 as [H0 ?]).
  repeat (apply andb_prop in H1; destruct H1 as [H1 ?]).
  repeat (apply andb_prop in H1'; destruct H1' as [H1' ?]).
  assert (Hs : sextet1_ok (N.land n0 3) (N.shiftr n1 4) = true)
    by (apply sextet1_ok_all; now apply N.ltb_lt).
  unfold sextet1_ok in Hs. apply andb_prop in Hs. destruct Hs as [_ Hs].
  apply N.eqb_eq in Hs. rewrite Hs.
  match goal with
  | H : (N.shiftr _ 2 =? _) = true |- _ => apply N.eqb_eq in H; rewrite H
  end.
  now apply Byte.byte_dec_bl.
Qed.

End Base64Facts.

Section Base64RoundTrip.
Import Base64.

(** *** The decoder, one character at a time *)

Lemma a2b_loop_q0 (ch : ascii) (v : N) (s : string) (l p : N) (out : bytes) :
  (ch =? BASE64_PAD)%char = false -> a2b_char ch = Some v ->
  a2b_loop (String ch s) 0 l p out = a2b_loop s 1 v 0 out.
Proof. intros H1 H2. cbn [a2b_loop]. rewrite H1, H2. reflexivity. Qed.

Lemma a2b_loop_q1 (ch : ascii) (v : N) (s : string) (l p : N) (out : bytes) :
  (ch =? BASE64_PAD)%char = false -> a2b_char ch = Some v ->
  a2b_loop (String ch s) 1 l p out
  = a2b_loop s 2 (N.land v 15) 0
      (out ++ [byte_of_N (N.lor (N.shiftl l 2) (N.shiftr v 4))]).
Proof. intros H1 H2. cbn [a2b_loop]. rewrite H1, H2. reflexivity. Qed.

Lemma a2b_loop_q2 (ch : ascii) (v : N) (s : string) (l p : N) (out : bytes) :
  (ch =? BASE64_PAD)%char = false -> a2b_char ch = Some v ->
  a2b_loop (String ch s) 2 l p out
  = a2b_loop s 3 (N.land v 3) 0
      (out ++ [byte_of_N (N.lor (N.shiftl l 4) (N.shiftr v 2))]).
Proof. intros H1 H2. cbn [a2b_loop]. rewrite H1, H2. reflexivity. Qed.

Lemma a2b_loop_q3 (ch : ascii) (v : N) (s : string) (l p : N) (out : bytes) :
  (ch =? BASE64_PAD)%char = false -> a2b_char ch = Some v ->
  a2b_loop (String ch s) 3 l p out
  = a2b_loop s 0 0 0 (out ++ [byte_of_N (N.lor (N.shiftl l 6) v)]).
Proof. intros H1 H2. cbn [a2b_loop]. rewrite H1, H2. reflexivity. Qed.

Lemma a2b_loop_pad2 (s : string) (l : N) (out : bytes) :
  a2b_loop (String BASE64_PAD (String BASE64_PAD s)) 2 l 0 out = inr out.
Proof. reflexivity. Qed.

Lemma a2b_loop_pad1 (s : string) (l : N) (out : bytes) :
  a2b_loop (String BASE64_PAD s) 3 l 0 out = inr out.
Proof. reflexivity. Qed.

(** *** The encoder, one group at a time *)

Lemma b2a_base64_group (x0 x1 x2 : byte) (rest : bytes) :
  b2a_base64 (x0 :: x1 :: x2 :: rest)
  = let n0 := Byte.to_N x0 in
    let n1 := Byte.to_N x1 in
    let n2 := Byte.to_N x2 in
    String (b2a_char (N.shiftr n0 2))
      (String (b2a_char (N.lor (N.shiftl (N.land n0 3) 4) (N.shiftr n1 4)))
         (String (b2a_char (N.lor (N.shiftl (N.land n1 15) 2) (N.shiftr n2 6)))
            (String (b2a_char n2) (b2a_base64 rest)))).
Proof. reflexivity. Qed.

Lemma urlsafe_b64encode_group (x0 x1 x2 : byte) (rest : bytes) :
  urlsafe_b64encode (x0 :: x1 :: x2 :: rest)
  = let n0 := Byte.to_N x0 in
    let n1 := Byte.to_N x1 in
    let n2 := Byte.to_N x2 in
    String (urlsafe_char (N.shiftr n0 2))
      (String (urlsafe_char (N.lor (N.shiftl (N.land n0 3) 4) (N.shiftr n1 4)))
         (String (urlsafe_char (N.lor (N.shiftl (N.land n1 15) 2) (N.shiftr n2 6)))
            (String (urlsafe_char n2) (urlsafe_b64encode rest)))).
Proof. reflexivity. Qed.

Lemma urlsafe_b64encode_1 (x0 : byte) :
  urlsafe_b64encode [x0]
  = let n0 := Byte.to_N x0 in
    String (urlsafe_char (N.shiftr n0 2))
      (String (urlsafe_char (N.shiftl (N.land n0 3) 4))
         (String BASE64_PAD (String BASE64_PAD EmptyString))).
Proof. reflexivity. Qed.

Lemma urlsafe_b64encode_2 (x0 x1 : byte) :
  urlsafe_b64encode [x0; x1]
  = let n0 := Byte.to_N x0 in
    let n1 := Byte.to_N x1 in
    String (urlsafe_char (N.shiftr n0 2))
      (String (urlsafe_char (N.lor (N.shiftl (N.land n0 3) 4) (N.shiftr n1 4)))
         (String (urlsafe_char (N.shiftl (N.land n1 15) 2))
            (String BASE64_PAD EmptyString))).
Proof. reflexivity. Qed.

(** *** Stripping the padding and putting it back *)

Lemma rstrip_cons (c a : ascii) (s : string) :
  (a =? c)%char = false -> rstrip c (String a s) = String a (rstrip c s).
Proof.
  intros Ha. cbn [rstrip]. rewrite Ha. now destruct (rstrip c s).
Qed.

Lemma pad4_group (c0 c1 c2 c3 : ascii) (s : string) :
  pad4 (String c0 (String c1 (String c2 (String c3 s))))
  = String c0 (String c1 (String c2 (String c3 (pad4 s)))).
Proof.
  unfold pad4. cbn [String.length].
  replace (S (S (S (S (String.length s))))) with (String.length s + 1 * 4)%nat by lia.
  rewrite Nat.Div0.mod_add.
  now destruct (0 <? String.length s mod 4)%nat.
Qed.

Lemma pad4_rstrip (data : bytes) :
  pad4 (rstrip BASE64_PAD (urlsafe_b64encode data)) = urlsafe_b64encode data.
Proof.
  induction data as [| x0 | x0 x1 | x0 x1 x2 rest IH] using list_triple_ind.
  - reflexivity.
  - rewrite urlsafe_b64encode_1. cbv zeta.
    destruct (urlsafe_char_facts (N.shiftr (Byte.to_N x0) 2)) as (H0 & _).
    destruct (urlsafe_char_facts (N.shiftl (N.land (Byte.to_N x0) 3) 4)) as (H1 & _).
    rewrite !rstrip_cons by assumption. reflexivity.
  - rewrite urlsafe_b64encode_2. cbv zeta.
    destruct (urlsafe_char_facts (N.shiftr (Byte.to_N x0) 2)) as (H0 & _).
    destruct (urlsafe_char_facts
                (N.lor (N.shiftl (N.land (Byte.to_N x0) 3) 4) (N.shiftr (Byte.to_N x1) 4)))
      as (H1 & _).
    destruct (urlsafe_char_facts (N.shiftl (N.land (Byte.to_N x1) 15) 2)) as (H2 & _).
    rewrite !rstrip_cons by assumption. reflexivity.
  - rewrite urlsafe_b64encode_group. cbv zeta.
    destruct (urlsafe_char_facts (N.shiftr (Byte.to_N x0) 2)) as (H0 & _).
    destruct (urlsafe_char_facts
                (N.lor (N.shiftl (N.land (Byte.to_N x0) 3) 4) (N.shiftr (Byte.to_N x1) 4)))
      as (H1 & _).
    destruct (urlsafe_char_facts
                (N.lor (N.shiftl (N.land (Byte.to_N x1) 15) 2) (N.shiftr (Byte.to_N x2) 6)))
      as (H2 & _).
    destruct (urlsafe_char_facts (Byte.to_N x2)) as (H3 & _).
    rewrite !rstrip_cons by assumption.
    rewrite pad4_group, IH. reflexivity.
Qed.

Lemma urlsafe_b64encode_isascii (data : bytes) :
  str_forallb isascii (urlsafe_b64encode data) = true.
Proof.
  induction data as [| x0 | x0 x1 | x0 x1 x2 rest IH] using list_triple_ind.
  - reflexivity.
  - rewrite urlsafe_b64encode_1. cbn [str_forallb].
    destruct (urlsafe_char_facts (N.shiftr (Byte.to_N x0) 2)) as (_ & H0 & _).
    destruct (urlsafe_char_facts (N.shiftl (N.land (Byte.to_N x0) 3) 4)) as (_ & H1 & _).
    rewrite H0, H1. reflexivity.
  - rewrite urlsafe_b64encode_2. cbn [str_forallb].
    destruct (urlsafe_char_facts (N.shiftr (Byte.to_N x0) 2)) as (_ & H0 & _).
    destruct (urlsafe_char_facts
                (N.lor (N.shiftl (N.land (Byte.to_N x0) 3) 4) (N.shiftr (Byte.to_N x1) 4)))
      as (_ & H1 & _).
    destruct (urlsafe_char_facts (N.shiftl (N.land (Byte.to_N x1) 15) 2)) as (_ & H2 & _).
    rewrite H0, H1, H2. reflexivity.
  - rewrite urlsafe_b64encode_group. cbn [str_forallb].
    destruct (urlsafe_char_facts (N.shiftr (Byte.to_N x0) 2)) as (_ & H0 & _).
    destruct (urlsafe_char_facts
                (N.lor (N.shiftl (N.land (Byte.to_N x0) 3) 4) (N.shiftr (Byte.to_N x1) 4)))
      as (_ & H1 & _).
    destruct (urlsafe_char_facts
                (N.lor (N.shiftl (N.land (Byte.to_N x1) 15) 2) (N.shiftr (Byte.to_N x2) 6)))
      as (_ & H2 & _).
    destruct (urlsafe_char_facts (Byte.to_N x2)) as (_ & H3 & _).
    rewrite H0, H1, H2, H3, IH. reflexivity.
Qed.

(** *** Decoding what the encoder wrote *)

Lemma a2b_loop_encode (data : bytes) :
  forall out,
    a2b_loop (str_map urlsafe_decode_translation (urlsafe_b64encode data)) 0 0 0 out
    = inr (out ++ data).
Proof.
  induction data as [| x0 | x0 x1 | x0 x1 x2 rest IH] using list_triple_ind; intros out.
  - cbn. now rewrite app_nil_r.
  - rewrite urlsafe_b64encode_1. cbv zeta. cbn [str_map].
    destruct (urlsafe_char_facts (N.shiftr (Byte.to_N x0) 2)) as (_ & _ & V0 & P0).
    destruct (urlsafe_char_facts (N.shiftl (N.land (Byte.to_N x0) 3) 4)) as (_ & _ & V1 & P1).
    rewrite (a2b_loop_q0 _ _ _ _ _ _ P0 V0).
    rewrite (a2b_loop_q1 _ _ _ _ _ _ P1 V1).
    change (urlsafe_decode_translation BASE64_PAD) with BASE64_PAD.
    rewrite a2b_loop_pad2. rewrite tail1_byte0. reflexivity.
  - rewrite urlsafe_b64encode_2. cbv zeta. cbn [str_map].
    destruct (urlsafe_char_facts (N.shiftr (Byte.to_N x0) 2)) as (_ & _ & V0 & P0).
    destruct (urlsafe_char_facts
                (N.lor (N.shiftl (N.land (Byte.to_N x0) 3) 4) (N.shiftr (Byte.to_N x1) 4)))
      as (_ & _ & V1 & P1).
    destruct (urlsafe_char_facts (N.shiftl (N.land (Byte.to_N x1) 15) 2)) as (_ & _ & V2 & P2).
    rewrite (a2b_loop_q0 _ _ _ _ _ _ P0 V0).
    rewrite (a2b_loop_q1 _ _ _ _ _ _ P1 V1).
    rewrite (a2b_loop_q2 _ _ _ _ _ _ P2 V2).
    change (urlsafe_decode_translation BASE64_PAD) with BASE64_PAD.
    rewrite a2b_loop_pad1. rewrite group_byte0, tail2_byte1.
    rewrite <- app_assoc. reflexivity.
  - rewrite urlsafe_b64encode_group. cbv zeta. cbn [str_map].
    destruct (urlsafe_char_facts (N.shiftr (Byte.to_N x0) 2)) as (_ & _ & V0 & P0).
    destruct (urlsafe_char_facts
                (N.lor (N.shiftl (N.land (Byte.to_N x0) 3) 4) (N.shiftr (Byte.to_N x1) 4)))
      as (_ & _ & V1 & P1).
    destruct (urlsafe_char_facts
                (N.lor (N.shiftl (N.land (Byte.to_N x1) 15) 2) (N.shiftr (Byte.to_N x2) 6)))
      as (_ & _ & V2 & P2).
    destruct (urlsafe_char_facts (Byte.to_N x2)) as (_ & _ & V3 & P3).
    rewrite (a2b_loop_q0 _ _ _ _ _ _ P0 V0).
    rewrite (a2b_loop_q1 _ _ _ _ _ _ P1 V1).
    rewrite (a2b_loop_q2 _ _ _ _ _ _ P2 V2).
    rewrite (a2b_loop_q3 _ _ _ _ _ _ P3 V3).
    rewrite group_byte0, group_byte1, group_byte2.
    rewrite IH. rewrite <- !app_assoc. reflexivity.
Qed.

Lemma str_repeat_length (c : ascii) (k : nat) : String.length (str_repeat c k) = k.
Proof.
  induction k as [|k IH]; cbn [str_repeat String.length]; congruence.
Qed.

Lemma string_append_length (s t : string) :
  String.length (s ++ t) = (String.length s + String.length t)%nat.
Proof.
  induction s as [|c s IH]; simpl; congruence.
Qed.

Lemma pad4_length (s : string) : (String.length (pad4 s) mod 4 = 0)%nat.
Proof.
  unfold pad4.
  pose proof (Nat.mod_upper_bound (String.length s) 4 ltac:(discriminate)) as Hlt.
  pose proof (Nat.div_mod_eq (String.length s) 4) as Hdm.
  destruct (0 <? String.length s mod 4)%nat eqn:Hrem.
  - rewrite string_append_length, str_repeat_length.
    replace (String.length s + (4 - String.length s mod 4))%nat
      with (0 + (String.length s / 4 + 1) * 4)%nat by lia.
    apply Nat.Div0.mod_add.
  - apply Nat.ltb_ge in Hrem. lia.
Qed.

Lemma base64url_decode_pad4 (s : string) :
  base64url_decode s = urlsafe_b64decode (pad4 s).
Proof. reflexivity. Qed.

Lemma base64url_roundtrip (data : bytes) :
  base64url_decode (base64url_encode data) = inr data.
Proof.
  rewrite base64url_decode_pad4. unfold base64url_encode.
  rewrite pad4_rstrip. unfold urlsafe_b64decode.
  rewrite urlsafe_b64encode_isascii. unfold a2b_base64.
  apply a2b_loop_encode.
Qed.

End Base64RoundTrip.

(** C6. Decoding the base64url encoding of a byte string gives the byte
    string back, for every byte string, the empty one included.  The
    encoder strips the [=] padding; the decoder pads its argument with [=]
    to a multiple of four characters, which for an encoding puts back what
    was stripped, and decodes. *)
Theorem base64url_decode_encode :
  forall data : bytes,
    base64url_decode (base64url_encode data) = inr data
    /\ base64url_decode (base64url_encode []) = inr []
    /\ base64url_encode data = rstrip "="%char (Base64.urlsafe_b64encode data)
    /\ (forall s : string,
          base64url_decode s = Base64.urlsafe_b64decode (pad4 s)
          /\ (String.length (pad4 s) mod 4 = 0)%nat)
    /\ pad4 (base64url_encode data) = Base64.urlsafe_b64encode data.
Proof.
  intros data. split; [apply base64url_roundtrip|].
  split; [reflexivity|]. split; [reflexivity|]. split.
  - intros s. split; [apply base64url_decode_pad4 | apply pad4_length].
  - apply pad4_rstrip.
Qed.

(** ** The hash functions on known answers (FIPS 180-4 examples) *)

Example sha256_abc :
  hex (sha256 (bytes_literal "abc"))
  = "ba7816bf8f01cfea414140de5dae2223b00361a396177a9cb410ff61f20015ad"%string.
Proof. vm_compute. reflexivity. Qed.

Example sha384_abc :
  hex (sha384 (bytes_literal "abc"))
  = "cb00753f45a35e8bb5a03d699ac65007272c32ab0eded1631a8b605a43ff5bed8086072ba1e7cc2358baeca134c825a7"%string.
Proof. vm_compute. reflexivity. Qed.

Example sha384_two_blocks :
  hex (sha384 (repeat x61 200))
  = "0691b6e978614b67d60557b2a2cddd53406508522efa21c624dbbfa8ab6e726d5c586b489c7c09f24109a64c10211d48"%string.
Proof. vm_compute. reflexivity. Qed.

(** ** Digest lengths *)

Lemma int_to_bytes_length (len : nat) : forall v, List.length (int_to_bytes len v) = len.
Proof.
  induction len as [|len IH]; intros v; cbn [int_to_bytes].
  - reflexivity.
  - rewrite length_app, IH. cbn. lia.
Qed.

Section DigestLength.
Variable w : N.
Variables (S0a S0b S0c S1a S1b S1c s0a s0b s0c s1a s1b s1c : N).
Variables (K H0 : list N).
Hypothesis H0_length : List.length H0 = 8%nat.

Lemma blocks_length (fuel : nat) :
  forall ws h,
    List.length h = 8%nat ->
    List.length (SHA2.blocks w S0a S0b S0c S1a S1b S1c s0a s0b s0c s1a s1b s1c K fuel ws h)
    = 8%nat.
Proof.
  induction fuel as [|fuel IH]; intros ws h Hh; cbn [SHA2.blocks].
  - exact Hh.
  - destruct ws as [|x ws]; [exact Hh|]. apply IH. reflexivity.
Qed.

Lemma flat_map_int_to_bytes_length (k : nat) (l : list N) :
  List.length (flat_map (int_to_bytes k) l) = (List.length l * k)%nat.
Proof.
  induction l as [|x l IH]; cbn [flat_map List.length].
  - reflexivity.
  - rewrite length_app, int_to_bytes_length, IH. lia.
Qed.

Lemma digest_length (outwords : nat) (msg : bytes) :
  (outwords <= 8)%nat ->
  List.length
    (SHA2.digest w S0a S0b S0c S1a S1b S1c s0a s0b s0c s1a s1b s1c K H0 outwords msg)
  = (outwords * SHA2.wordbytes w)%nat.
Proof.
  intros Hout. unfold SHA2.digest.
  rewrite flat_map_int_to_bytes_length, length_firstn.
  rewrite blocks_length by exact H0_length.
  rewrite Nat.min_l by exact Hout. reflexivity.
Qed.
End DigestLength.

Lemma sha256_length (data : bytes) : List.length (sha256 data) = 32%nat.
Proof.
  unfold sha256, SHA2.sha256. rewrite digest_length; [reflexivity | reflexivity | lia].
Qed.

Lemma sha384_length (data : bytes) : List.length (sha384 data) = 48%nat.
Proof.
  unfold sha384, SHA2.sha384. rewrite digest_length; [reflexivity | reflexivity | lia].
Qed.

Lemma base64url_encode_nonempty (data : bytes) :
  data <> [] -> base64url_encode data <> EmptyString.
Proof.
  intros Hne Hempty. pose proof (base64url_roundtrip data) as Hrt.
  rewrite Hempty in Hrt. cbv in Hrt. congruence.
Qed.

Lemma truthy_base64url_encode (data : bytes) :
  truthy (base64url_encode data) = negb (match data with [] => true | _ => false end).
Proof.
  destruct data as [|x data]; [reflexivity|].
  pose proof (base64url_encode_nonempty (x :: data)) as Hne.
  destruct (base64url_encode (x :: data)); [exfalso; apply Hne; congruence | reflexivity].
Qed.

(** ** The deep hash *)

Arguments sha384 : simpl never.
Arguments sha256 : simpl never.
Arguments base64url_decode : simpl never.
Arguments base64url_encode : simpl never.
Arguments encode_utf8 : simpl never.
Arguments bytes_literal : simpl never.

Lemma fold_hash_step_nine (i1 i2 i3 i4 i5 i6 i7 i8 i9 : bytes * bytes) :
  fold_left hash_step
    (map (fun lc => (fst lc, PBytes (snd lc))) [i1; i2; i3; i4; i5; i6; i7; i8; i9]) []
  = flat_map (fun lc => deep_hash_chunk (fst lc) (snd lc))
      [i1; i2; i3; i4; i5; i6; i7; i8; i9].
Proof.
  cbn [map fold_left hash_step flat_map fst snd].
  rewrite app_nil_l, app_nil_r, <- !app_assoc. reflexivity.
Qed.

(** The fields the hash reads, as bytes, when every base64url field
    decodes. *)
Lemma labelled_chunks_decoded (tx : Tx.tx_fields) (owner_bytes last_tx_bytes
    data_root_bytes : bytes) (target_item : bytes * bytes) :
  base64url_decode (Tx.owner tx) = inr owner_bytes ->
  (if truthy (Tx.last_tx tx) then base64url_decode (Tx.last_tx tx) else inr [])
    = inr last_tx_bytes ->
  base64url_decode (Tx.data_root tx) = inr data_root_bytes ->
  (if truthy (Tx.target tx)
   then rbind (base64url_decode (Tx.target tx))
          (fun target_bytes => inr (bytes_literal "ARWEAVE_TARGET", target_bytes))
   else inr ([], [])) = inr target_item ->
  labelled_chunks tx
  = inr (map (fun lc => (fst lc, PBytes (snd lc)))
           [ (bytes_literal "ARWEAVE_FORMAT", encode_utf8 (str_of_int (Tx.format tx)));
             (bytes_literal "ARWEAVE_OWNER", owner_bytes);
             (bytes_literal "ARWEAVE_REWARD", encode_utf8 (Tx.reward tx));
             (bytes_literal "ARWEAVE_LAST_TX", last_tx_bytes);
             (bytes_literal "ARWEAVE_DATA_ROOT", data_root_bytes);
             (bytes_literal "ARWEAVE_DATA_SIZE", encode_utf8 (Tx.data_size tx));
             (bytes_literal "ARWEAVE_TAGS", encode_utf8 (Json.dumps (Tx.tags tx)));
             target_item;
             (bytes_literal "ARWEAVE_QUANTITY", encode_utf8 (Tx.quantity tx)) ]).
Proof.
  intros Ho Hl Hr Ht. unfold labelled_chunks.
  rewrite Ho. cbn [rbind]. rewrite Hl. cbn [rbind]. rewrite Hr. cbn [rbind].
  destruct (truthy (Tx.target tx)).
  - destruct (base64url_decode (Tx.target tx)) as [ex|target_bytes];
      cbn [rbind] in Ht |- *; [discriminate|].
    injection Ht as <-. reflexivity.
  - injection Ht as <-. reflexivity.
Qed.

(** C1, as the code has it.  For every record with a target whose base64url
    fields decode, the hash is the SHA-384 digest of the nine labelled
    SHA-384 digests in the order format, owner, fee, last-transaction
    anchor, data_root, data_size, tags, target, quantity. *)
Theorem deep_hash_field_order :
  forall (tx : Tx.tx_fields) (owner_bytes last_tx_bytes data_root_bytes target_bytes : bytes),
    truthy (Tx.target tx) = true ->
    base64url_decode (Tx.owner tx) = inr owner_bytes ->
    (if truthy (Tx.last_tx tx) then base64url_decode (Tx.last_tx tx) else inr [])
      = inr last_tx_bytes ->
    base64url_decode (Tx.data_root tx) = inr data_root_bytes ->
    base64url_decode (Tx.target tx) = inr target_bytes ->
    deep_hash_transaction_v2 tx
    = inr (sha384
             (sha384 (bytes_literal "ARWEAVE_FORMAT" ++ encode_utf8 (str_of_int (Tx.format tx)))
              ++ sha384 (bytes_literal "ARWEAVE_OWNER" ++ owner_bytes)
              ++ sha384 (bytes_literal "ARWEAVE_REWARD" ++ encode_utf8 (Tx.reward tx))
              ++ sha384 (bytes_literal "ARWEAVE_LAST_TX" ++ last_tx_bytes)
              ++ sha384 (bytes_literal "ARWEAVE_DATA_ROOT" ++ data_root_bytes)
              ++ sha384 (bytes_literal "ARWEAVE_DATA_SIZE" ++ encode_utf8 (Tx.data_size tx))
              ++ sha384 (bytes_literal "ARWEAVE_TAGS" ++ encode_utf8 (Json.dumps (Tx.tags tx)))
              ++ sha384 (bytes_literal "ARWEAVE_TARGET" ++ target_bytes)
              ++ sha384 (bytes_literal "ARWEAVE_QUANTITY" ++ encode_utf8 (Tx.quantity tx)))).
Proof.
  intros tx ob lb rb tb Htruthy Ho Hl Hr Ht.
  unfold deep_hash_transaction_v2.
  rewrite (labelled_chunks_decoded tx ob lb rb (bytes_literal "ARWEAVE_TARGET", tb) Ho Hl Hr)
    by (rewrite Htruthy, Ht; reflexivity).
  cbn [rbind]. rewrite fold_hash_step_nine.
  cbn [flat_map fst snd]. unfold deep_hash_chunk.
  rewrite app_nil_r. reflexivity.
Qed.

Lemma deep_hash_field_order_witness :
  deep_hash_transaction_v2 Sample.tx_target
  = inr (sha384
           (sha384 (bytes_literal "ARWEAVE_FORMAT" ++ encode_utf8 "2")
            ++ sha384 (bytes_literal "ARWEAVE_OWNER"
                       ++ int_to_bytes 80 (RSA.n (RSA.public_numbers Sample.numbers)))
            ++ sha384 (bytes_literal "ARWEAVE_REWARD" ++ encode_utf8 "100")
            ++ sha384 (bytes_literal "ARWEAVE_LAST_TX" ++ [x69; xb7])
            ++ sha384 (bytes_literal "ARWEAVE_DATA_ROOT" ++ [])
            ++ sha384 (bytes_literal "ARWEAVE_DATA_SIZE" ++ encode_utf8 "5")
            ++ sha384 (bytes_literal "ARWEAVE_TAGS"
                       ++ encode_utf8 (Json.dumps (Tx.tags Sample.tx_target)))
            ++ sha384 (bytes_literal "ARWEAVE_TARGET" ++ Sample.hello)
            ++ sha384 (bytes_literal "ARWEAVE_QUANTITY" ++ encode_utf8 "7"))).
Proof.
  apply (deep_hash_field_order Sample.tx_target
           (int_to_bytes 80 (RSA.n (RSA.public_numbers Sample.numbers)))
           [x69; xb7] [] Sample.hello); vm_compute; reflexivity.
Defined.

(** C1 as the design document states it fails: on a record with a target
    the hash of the code is not the hash of the digests in the order format,
    owner, target, quantity, fee, anchor, tags, data_size, data_root. *)
Lemma deep_hash_not_spec_order :
  deep_hash_transaction_v2 Sample.tx_target <> spec_deep_hash Sample.tx_target.
Proof.
  intros Heq.
  assert (Hcode : first_byte (deep_hash_transaction_v2 Sample.tx_target) = Some xfc)
    by (vm_compute; reflexivity).
  assert (Hspec : first_byte (spec_deep_hash Sample.tx_target) = Some xd4)
    by (vm_compute; reflexivity).
  rewrite Heq, Hspec in Hcode. discriminate Hcode.
Qed.

(** C2, what the code does.  For every record with an empty target whose
    base64url fields decode, the loop runs over nine pairs, the eighth being
    the pair of two empty byte strings; its chunk is a byte string, not a
    tuple, so it is not skipped: the rolling hash holds nine digests, the
    eighth being the SHA-384 digest of the empty byte string, in the place
    of the target. *)
Theorem deep_hash_empty_target :
  forall (tx : Tx.tx_fields) (owner_bytes last_tx_bytes data_root_bytes : bytes),
    Tx.target tx = EmptyString ->
    base64url_decode (Tx.owner tx) = inr owner_bytes ->
    (if truthy (Tx.last_tx tx) then base64url_decode (Tx.last_tx tx) else inr [])
      = inr last_tx_bytes ->
    base64url_decode (Tx.data_root tx) = inr data_root_bytes ->
    exists items : list (bytes * pyval),
      labelled_chunks tx = inr items
      /\ List.length items = 9%nat
      /\ nth_error items 7 = Some ([], PBytes [])
      /\ fold_left hash_step items []
         = sha384 (bytes_literal "ARWEAVE_FORMAT" ++ encode_utf8 (str_of_int (Tx.format tx)))
           ++ sha384 (bytes_literal "ARWEAVE_OWNER" ++ owner_bytes)
           ++ sha384 (bytes_literal "ARWEAVE_REWARD" ++ encode_utf8 (Tx.reward tx))
           ++ sha384 (bytes_literal "ARWEAVE_LAST_TX" ++ last_tx_bytes)
           ++ sha384 (bytes_literal "ARWEAVE_DATA_ROOT" ++ data_root_bytes)
           ++ sha384 (bytes_literal "ARWEAVE_DATA_SIZE" ++ encode_utf8 (Tx.data_size tx))
           ++ sha384 (bytes_literal "ARWEAVE_TAGS" ++ encode_utf8 (Json.dumps (Tx.tags tx)))
           ++ sha384 []
           ++ sha384 (bytes_literal "ARWEAVE_QUANTITY" ++ encode_utf8 (Tx.quantity tx))
      /\ List.length (fold_left hash_step items []) = (9 * 48)%nat
      /\ deep_hash_transaction_v2 tx = inr (sha384 (fold_left hash_step items [])).
Proof.
  intros tx ob lb rb Htarget Ho Hl Hr.
  pose proof (labelled_chunks_decoded tx ob lb rb ([], []) Ho Hl Hr) as Hitems.
  rewrite Htarget in Hitems. specialize (Hitems eq_refl).
  eexists. split; [exact Hitems|].
  split; [reflexivity|]. split; [reflexivity|].
  assert (Hfold : forall i1 i2 i3 i4 i5 i6 i7 i9 : bytes * bytes,
             fold_left hash_step
               (map (fun lc => (fst lc, PBytes (snd lc)))
                  [i1; i2; i3; i4; i5; i6; i7; ([], []); i9]) []
             = sha384 (fst i1 ++ snd i1) ++ sha384 (fst i2 ++ snd i2)
               ++ sha384 (fst i3 ++ snd i3) ++ sha384 (fst i4 ++ snd i4)
               ++ sha384 (fst i5 ++ snd i5) ++ sha384 (fst i6 ++ snd i6)
               ++ sha384 (fst i7 ++ snd i7) ++ sha384 []
               ++ sha384 (fst i9 ++ snd i9)).
  { intros. rewrite fold_hash_step_nine. cbn [flat_map fst snd].
    unfold deep_hash_chunk. rewrite !app_nil_r. reflexivity. }
  split; [apply Hfold|]. split.
  - rewrite Hfold. rewrite !length_app, !sha384_length. reflexivity.
  - unfold deep_hash_transaction_v2. rewrite Hitems. reflexivity.
Qed.

Lemma deep_hash_empty_target_witness :
  exists items : list (bytes * pyval),
    labelled_chunks Sample.tx_hello = inr items
    /\ List.length items = 9%nat
    /\ nth_error items 7 = Some ([], PBytes [])
    /\ fold_left hash_step items []
       = sha384 (bytes_literal "ARWEAVE_FORMAT"
                 ++ encode_utf8 (str_of_int (Tx.format Sample.tx_hello)))
         ++ sha384 (bytes_literal "ARWEAVE_OWNER"
                    ++ int_to_bytes 80 (RSA.n (RSA.public_numbers Sample.numbers)))
         ++ sha384 (bytes_literal "ARWEAVE_REWARD" ++ encode_utf8 (Tx.reward Sample.tx_hello))
         ++ sha384 (bytes_literal "ARWEAVE_LAST_TX" ++ [x69; xb7])
         ++ sha384 (bytes_literal "ARWEAVE_DATA_ROOT" ++ [])
         ++ sha384 (bytes_literal "ARWEAVE_DATA_SIZE"
                    ++ encode_utf8 (Tx.data_size Sample.tx_hello))
         ++ sha384 (bytes_literal "ARWEAVE_TAGS"
                    ++ encode_utf8 (Json.dumps (Tx.tags Sample.tx_hello)))
         ++ sha384 []
         ++ sha384 (bytes_literal "ARWEAVE_QUANTITY"
                    ++ encode_utf8 (Tx.quantity Sample.tx_hello))
    /\ List.length (fold_left hash_step items []) = (9 * 48)%nat
    /\ deep_hash_transaction_v2 Sample.tx_hello = inr (sha384 (fold_left hash_step items [])).
Proof.
  apply (deep_hash_empty_target Sample.tx_hello
           (int_to_bytes 80 (RSA.n (RSA.public_numbers Sample.numbers)))
           [x69; xb7] []); vm_compute; reflexivity.
Defined.

(** ** Signing *)

(** *** The RSA signature *)

Lemma pow_mod_pos_spec (base : N) (ex : positive) (m : N) :
  m <> 0 -> RSA.pow_mod_pos base ex m = (base ^ Npos ex) mod m.
Proof.
  intros Hm. induction ex as [ex IH | ex IH |]; cbn [RSA.pow_mod_pos].
  - rewrite IH, <- N.Div0.mul_mod, N.Div0.mul_mod_idemp_l.
    replace (Npos ex~1) with (N.succ (Npos ex * 2)) by lia.
    rewrite N.pow_succ_r', N.pow_mul_r, N.pow_2_r.
    f_equal. apply N.mul_comm.
  - rewrite IH, <- N.Div0.mul_mod.
    replace (Npos ex~0) with (Npos ex * 2) by lia.
    rewrite N.pow_mul_r, N.pow_2_r. reflexivity.
  - rewrite N.pow_1_r. reflexivity.
Qed.

Lemma pow_mod_spec (base ex m : N) : m <> 0 -> RSA.pow_mod base ex m = (base ^ ex) mod m.
Proof.
  intros Hm. destruct ex as [|ex]; cbn [RSA.pow_mod].
  - reflexivity.
  - now apply pow_mod_pos_spec.
Qed.

(** With SHA-384 the [DigestInfo] is 67 bytes long: the key must have at
    least 78 bytes, and nothing else can make the signature fail. *)
Lemma rsa_sign_sha384 (key : RSA.RSAPrivateKey) (data : bytes) :
  let k := RSA.private_numbers key in
  let modulus := RSA.n (RSA.public_numbers k) in
  let emLen := RSA.key_size_bytes modulus in
  RSA.sign key data RSA.PKCS1v15 RSA.SHA384
  = if (emLen <? 78)%nat then inl ValueError
    else inr (int_to_bytes emLen
                (RSA.pow_mod
                   (int_from_bytes
                      ([x00; x01] ++ repeat xff (emLen - 70) ++ [x00]
                       ++ RSA.digest_info_prefix RSA.SHA384 ++ sha384 data))
                   (RSA.d k) modulus)).
Proof.
  intros k modulus emLen. unfold RSA.sign, RSA.emsa_pkcs1_v15.
  fold k. fold modulus. fold emLen.
  rewrite length_app. cbn [RSA.hash]. rewrite sha384_length.
  change (List.length (RSA.digest_info_prefix RSA.SHA384) + 48 + 11)%nat with 78%nat.
  change (List.length (RSA.digest_info_prefix RSA.SHA384) + 48)%nat with 67%nat.
  destruct (emLen <? 78)%nat; [reflexivity|].
  cbn [rbind]. replace (emLen - 67 - 3)%nat with (emLen - 70)%nat by lia.
  reflexivity.
Qed.

Lemma rsa_sign_sha384_nonempty (key : RSA.RSAPrivateKey) (data sg : bytes) :
  RSA.sign key data RSA.PKCS1v15 RSA.SHA384 = inr sg -> sg <> [].
Proof.
  rewrite rsa_sign_sha384. cbv zeta.
  destruct (_ <? 78)%nat eqn:Hk; [discriminate|].
  apply Nat.ltb_ge in Hk. intros [= <-] Hnil.
  apply (f_equal (@List.length byte)) in Hnil.
  rewrite int_to_bytes_length in Hnil. cbn in Hnil. lia.
Qed.

Lemma rsa_sign_same_outcome (key : RSA.RSAPrivateKey) (data data' : bytes) :
  same_outcome (RSA.sign key data RSA.PKCS1v15 RSA.SHA384)
               (RSA.sign key data' RSA.PKCS1v15 RSA.SHA384).
Proof.
  rewrite !rsa_sign_sha384. cbv zeta.
  destruct (_ <? 78)%nat; exact I || reflexivity.
Qed.

(** *** The record before and after *)

Ltac run_M :=
  cbv beta iota zeta delta [bind deref lift update ret rbind fst snd].

Lemma sign_transaction_v2_record (l : ref) (key : RSA.RSAPrivateKey) (h : heap) :
  fst (sign_transaction_v2 l key h)
  = match fst (sign_record (h l) key) with
    | inl ex => inl ex
    | inr _ => inr l
    end
  /\ forall r, snd (sign_transaction_v2 l key h) r
               = if Nat.eqb r l then snd (sign_record (h l) key) else h r.
Proof.
  unfold sign_transaction_v2, sign_record, new_data_root.
  run_M.
  destruct (truthy (Tx.data (h l))); run_M.
  - destruct (base64url_decode (Tx.data (h l))) as [ex|data_bytes]; run_M.
    + split; [reflexivity|]. intros r.
      destruct (Nat.eqb r l) eqn:E; [apply Nat.eqb_eq in E; subst|]; reflexivity.
    + rewrite Nat.eqb_refl.
      destruct (deep_hash_transaction_v2 _) as [ex|dd]; run_M.
      * split; reflexivity.
      * destruct (RSA.sign key dd RSA.PKCS1v15 RSA.SHA384) as [ex|sg]; run_M.
        -- split; reflexivity.
        -- split; [reflexivity|]. intros r. rewrite ?Nat.eqb_refl.
           destruct (Nat.eqb r l); reflexivity.
  - rewrite Nat.eqb_refl.
    destruct (deep_hash_transaction_v2 _) as [ex|dd]; run_M.
    + split; reflexivity.
    + destruct (RSA.sign key dd RSA.PKCS1v15 RSA.SHA384) as [ex|sg]; run_M.
      * split; reflexivity.
      * split; [reflexivity|]. intros r. rewrite ?Nat.eqb_refl.
        destruct (Nat.eqb r l); reflexivity.
Qed.

(** The hash reads neither the signature nor the id. *)
Lemma deep_hash_set_signature (v : string) (tx : Tx.tx_fields) :
  deep_hash_transaction_v2 (Tx.set_signature v tx) = deep_hash_transaction_v2 tx.
Proof. reflexivity. Qed.

Lemma deep_hash_set_id (v : string) (tx : Tx.tx_fields) :
  deep_hash_transaction_v2 (Tx.set_id v tx) = deep_hash_transaction_v2 tx.
Proof. reflexivity. Qed.

(** Whether the hash is computed, and which exception is raised if not,
    depends on the four base64url fields it decodes only. *)
Lemma deep_hash_same_outcome (tx tx' : Tx.tx_fields) :
  Tx.owner tx' = Tx.owner tx -> Tx.last_tx tx' = Tx.last_tx tx ->
  Tx.data_root tx' = Tx.data_root tx -> Tx.target tx' = Tx.target tx ->
  same_outcome (deep_hash_transaction_v2 tx) (deep_hash_transaction_v2 tx').
Proof.
  intros Ho Hl Hr Ht. unfold deep_hash_transaction_v2, labelled_chunks.
  rewrite Ho, Hl, Hr, Ht.
  destruct (base64url_decode (Tx.owner tx)) as [ex|ob]; cbn [rbind same_outcome]; [reflexivity|].
  destruct (if truthy (Tx.last_tx tx) then _ else _) as [ex|lb];
    cbn [rbind same_outcome]; [reflexivity|].
  destruct (base64url_decode (Tx.data_root tx)) as [ex|rb]; cbn [rbind same_outcome]; [reflexivity|].
  destruct (truthy (Tx.target tx)); cbn [rbind same_outcome]; [|exact I].
  destruct (base64url_decode (Tx.target tx)) as [ex|tb]; cbn [rbind same_outcome];
    [reflexivity | exact I].
Qed.

(** *** What can be raised *)

Lemma a2b_loop_raises (s : string) :
  forall quad_pos leftchar pads out ex,
    Base64.a2b_loop s quad_pos leftchar pads out = inl ex -> ex = binascii_Error.
Proof.
  induction s as [|c s IH]; intros quad_pos leftchar pads out ex; cbn [Base64.a2b_loop].
  - destruct (quad_pos =? 0); intros [= <-]; reflexivity.
  - destruct (c =? Base64.BASE64_PAD)%char.
    + destruct (2 <=? quad_pos).
      * destruct (4 <=? quad_pos + (pads + 1)); [discriminate | apply IH].
      * apply IH.
    + destruct (Base64.a2b_char c) as [v|]; [|apply IH].
      destruct quad_pos as [|[[]|[]|]]; apply IH.
Qed.

Lemma base64url_decode_raises (s : string) (ex : exn) :
  base64url_decode s = inl ex -> ex = ValueError \/ ex = binascii_Error.
Proof.
  rewrite base64url_decode_pad4. unfold Base64.urlsafe_b64decode, Base64.a2b_base64.
  destruct (str_forallb isascii (pad4 s)).
  - intros H. right. eapply a2b_loop_raises, H.
  - intros [= <-]. now left.
Qed.

Lemma deep_hash_raises (tx : Tx.tx_fields) (ex : exn) :
  deep_hash_transaction_v2 tx = inl ex -> ex = ValueError \/ ex = binascii_Error.
Proof.
  unfold deep_hash_transaction_v2, labelled_chunks.
  destruct (base64url_decode (Tx.owner tx)) as [e1|ob] eqn:Ho; cbn [rbind].
  { intros [= <-]. eapply base64url_decode_raises, Ho. }
  destruct (truthy (Tx.last_tx tx)).
  - destruct (base64url_decode (Tx.last_tx tx)) as [e2|lb] eqn:Hl; cbn [rbind].
    { intros [= <-]. eapply base64url_decode_raises, Hl. }
    destruct (base64url_decode (Tx.data_root tx)) as [e3|rb] eqn:Hr; cbn [rbind].
    { intros [= <-]. eapply base64url_decode_raises, Hr. }
    destruct (truthy (Tx.target tx)); cbn [rbind]; [|discriminate].
    destruct (base64url_decode (Tx.target tx)) as [e4|tb] eqn:Ht; cbn [rbind]; [|discriminate].
    intros [= <-]. eapply base64url_decode_raises, Ht.
  - cbn [rbind].
    destruct (base64url_decode (Tx.data_root tx)) as [e3|rb] eqn:Hr; cbn [rbind].
    { intros [= <-]. eapply base64url_decode_raises, Hr. }
    destruct (truthy (Tx.target tx)); cbn [rbind]; [|discriminate].
    destruct (base64url_decode (Tx.target tx)) as [e4|tb] eqn:Ht; cbn [rbind]; [|discriminate].
    intros [= <-]. eapply base64url_decode_raises, Ht.
Qed.

Lemma rsa_sign_raises (key : RSA.RSAPrivateKey) (data : bytes) (ex : exn) :
  RSA.sign key data RSA.PKCS1v15 RSA.SHA384 = inl ex -> ex = ValueError.
Proof.
  rewrite rsa_sign_sha384. cbv zeta.
  destruct (_ <? 78)%nat; [intros [= <-]; reflexivity | discriminate].
Qed.

(** *** The outcome of signing, case by case *)

Lemma sign_record_outcome (tx : Tx.tx_fields) (key : RSA.RSAPrivateKey) :
  sign_outcome tx key (fst (sign_record tx key)) (snd (sign_record tx key)).
Proof.
  unfold sign_record.
  destruct (new_data_root tx) as [ex|root] eqn:Hroot; cbn [fst snd].
  { now apply payload_undecodable. }
  destruct (deep_hash_transaction_v2 _) as [ex|dd] eqn:Hdd; cbn [fst snd].
  { now apply field_undecodable. }
  destruct (RSA.sign key dd RSA.PKCS1v15 RSA.SHA384) as [ex|sg] eqn:Hsg; cbn [fst snd].
  - eapply key_too_short; eassumption.
  - eapply signed; eassumption.
Qed.

Lemma new_data_root_raises (tx : Tx.tx_fields) (ex : exn) :
  new_data_root tx = inl ex -> ex = ValueError \/ ex = binascii_Error.
Proof.
  unfold new_data_root. destruct (truthy (Tx.data tx)); [|discriminate].
  destruct (base64url_decode (Tx.data tx)) as [e|v] eqn:Hd; cbn [rbind]; [|discriminate].
  intros [= <-]. eapply base64url_decode_raises, Hd.
Qed.

Lemma signed_record_signed_by (tx : Tx.tx_fields) (key : RSA.RSAPrivateKey)
    (root : string) (dd sg : bytes) :
  deep_hash_transaction_v2 (Tx.set_data_root root tx) = inr dd ->
  RSA.sign key dd RSA.PKCS1v15 RSA.SHA384 = inr sg ->
  signed_by key
    (Tx.set_id (base64url_encode (sha256 sg))
       (Tx.set_signature (base64url_encode sg) (Tx.set_data_root root tx))).
Proof.
  intros Hdd Hsg. unfold signed_by. cbv zeta. exists dd, sg.
  rewrite deep_hash_set_id, deep_hash_set_signature.
  repeat split; try assumption; try reflexivity.
  pose proof (rsa_sign_sha384 key dd) as Hs. cbv zeta in Hs. rewrite Hsg in Hs.
  destruct (_ <? 78)%nat; [discriminate|]. now injection Hs.
Qed.

(** *** Signature and id *)

Lemma new_data_root_decodes (tx : Tx.tx_fields) (root : string) :
  new_data_root tx = inr root -> exists v, base64url_decode root = inr v.
Proof.
  unfold new_data_root. destruct (truthy (Tx.data tx)).
  - destruct (base64url_decode (Tx.data tx)) as [ex|data_bytes]; cbn [rbind]; [discriminate|].
    intros [= <-]. eexists. apply base64url_roundtrip.
  - intros [= <-]. exists []. reflexivity.
Qed.

Lemma decodable_signs (tx : Tx.tx_fields) (key : RSA.RSAPrivateKey) :
  decodable tx = true ->
  (78 <= RSA.key_size_bytes (RSA.n (RSA.public_numbers (RSA.private_numbers key))))%nat ->
  exists root dd sg,
    new_data_root tx = inr root
    /\ deep_hash_transaction_v2 (Tx.set_data_root root tx) = inr dd
    /\ RSA.sign key dd RSA.PKCS1v15 RSA.SHA384 = inr sg.
Proof.
  unfold decodable. intros Hdec Hkey.
  apply andb_prop in Hdec. destruct Hdec as [Hdec Ht].
  apply andb_prop in Hdec. destruct Hdec as [Hdec Hl].
  apply andb_prop in Hdec. destruct Hdec as [Hr Ho].
  destruct (new_data_root tx) as [ex|root] eqn:Hroot; [discriminate|].
  destruct (new_data_root_decodes tx root Hroot) as [rb Hrb].
  destruct (base64url_decode (Tx.owner tx)) as [ex|ob] eqn:Hob; [discriminate|].
  assert (Hlb : exists lb, (if truthy (Tx.last_tx tx)
                            then base64url_decode (Tx.last_tx tx) else inr []) = inr lb).
  { destruct (truthy (Tx.last_tx tx)); [|now eexists].
    destruct (base64url_decode (Tx.last_tx tx)); [discriminate | now eexists]. }
  destruct Hlb as [lb Hlb].
  assert (Hti : exists ti,
             (if truthy (Tx.target tx)
              then rbind (base64url_decode (Tx.target tx))
                     (fun target_bytes => inr (bytes_literal "ARWEAVE_TARGET", target_bytes))
              else inr ([], [])) = inr ti).
  { destruct (truthy (Tx.target tx)); [|now eexists].
    destruct (base64url_decode (Tx.target tx)); [discriminate | now eexists]. }
  destruct Hti as [ti Hti].
  pose proof (labelled_chunks_decoded (Tx.set_data_root root tx) ob lb rb ti Hob Hlb Hrb Hti)
    as Hitems.
  exists root. unfold deep_hash_transaction_v2. rewrite Hitems. cbn [rbind].
  eexists. rewrite rsa_sign_sha384. cbv zeta.
  apply Nat.ltb_ge in Hkey. rewrite Hkey.
  eexists. repeat split.
Qed.

Lemma decodable_returns (l : ref) (key : RSA.RSAPrivateKey) (h : heap) :
  decodable (h l) = true ->
  (78 <= RSA.key_size_bytes (RSA.n (RSA.public_numbers (RSA.private_numbers key))))%nat ->
  fst (sign_transaction_v2 l key h) = inr l.
Proof.
  intros Hdec Hkey.
  destruct (sign_transaction_v2_record l key h) as [Hfst _]. rewrite Hfst.
  destruct (decodable_signs (h l) key Hdec Hkey) as (root & dd & sg & Hroot & Hdd & Hsg).
  unfold sign_record. rewrite Hroot. cbv zeta. rewrite Hdd, Hsg. reflexivity.
Qed.

(** C3, as the code has it.  For every record whose base64url fields
    decode and every RSA private key of at least 78 bytes (what a SHA-384
    [DigestInfo] and the PKCS#1 v1.5 padding need), [sign_transaction_v2]
    returns, and the record
    then carries in its signature field the base64url text of the raw
    signature bytes, an RSASSA-PKCS1-v1_5 signature with SHA-384 of the
    record's deep hash under the key, and in its id field the base64url text
    of the SHA-256 digest of those raw signature bytes. *)
Theorem sign_transaction_v2_signature :
  forall (l : ref) (key : RSA.RSAPrivateKey) (h : heap),
    decodable (h l) = true ->
    (78 <= RSA.key_size_bytes (RSA.n (RSA.public_numbers (RSA.private_numbers key))))%nat ->
    fst (sign_transaction_v2 l key h) = inr l
    /\ signed_by key (snd (sign_transaction_v2 l key h) l).
Proof.
  intros l key h Hdec Hkey.
  destruct (sign_transaction_v2_record l key h) as [Hfst Hsnd].
  rewrite Hfst, Hsnd, Nat.eqb_refl.
  destruct (decodable_signs (h l) key Hdec Hkey) as (root & dd & sg & Hroot & Hdd & Hsg).
  unfold sign_record. rewrite Hroot. cbv zeta. rewrite Hdd, Hsg. cbn [fst snd].
  split; [reflexivity|].
  eapply signed_record_signed_by; eassumption.
Qed.

Lemma sign_transaction_v2_signature_witness :
  fst (sign_transaction_v2 0%nat Sample.key (Sample.heap_of Sample.tx_hello)) = inr 0%nat
  /\ signed_by Sample.key
       (snd (sign_transaction_v2 0%nat Sample.key (Sample.heap_of Sample.tx_hello)) 0%nat).
Proof.
  apply (sign_transaction_v2_signature 0%nat Sample.key (Sample.heap_of Sample.tx_hello)).
  - vm_compute. reflexivity.
  - vm_compute. lia.
Defined.

(** C3 as the design document states it fails: not every record is signed.
    With an owner text that does not decode, under the sample key of 80
    bytes, the call raises [binascii.Error], and the signature and the id
    of the record are as empty as before. *)
Lemma sign_transaction_v2_owner_undecodable :
  decodable (main_tx_fields "abc" "A" "100" Sample.hello) = false
  /\ fst (sign_transaction_v2 0%nat Sample.key
            (Sample.heap_of (main_tx_fields "abc" "A" "100" Sample.hello)))
     = inl binascii_Error
  /\ Tx.signature (snd (sign_transaction_v2 0%nat Sample.key
                          (Sample.heap_of (main_tx_fields "abc" "A" "100" Sample.hello)))
                     0%nat) = EmptyString
  /\ Tx.id (snd (sign_transaction_v2 0%nat Sample.key
                   (Sample.heap_of (main_tx_fields "abc" "A" "100" Sample.hello)))
              0%nat) = EmptyString.
Proof.
  split; [|split; [|split]]; vm_compute; reflexivity.
Qed.

(** C4, as the code has it.  Signing either returns the reference it was
    given, with the signature and the id of the record both non-empty, or
    raises [ValueError] or [binascii.Error] (the module has no
    [SigningError]) and leaves the signature and the id of the record as
    they were: never one of the two written without the other. *)
Theorem sign_transaction_v2_all_or_nothing :
  forall (l : ref) (key : RSA.RSAPrivateKey) (h : heap),
    match fst (sign_transaction_v2 l key h) with
    | inr l' =>
        l' = l
        /\ Tx.signature (snd (sign_transaction_v2 l key h) l) <> EmptyString
        /\ Tx.id (snd (sign_transaction_v2 l key h) l) <> EmptyString
    | inl ex =>
        (ex = ValueError \/ ex = binascii_Error)
        /\ exn_name ex <> "SigningError"%string
        /\ Tx.signature (snd (sign_transaction_v2 l key h) l) = Tx.signature (h l)
        /\ Tx.id (snd (sign_transaction_v2 l key h) l) = Tx.id (h l)
    end.
Proof.
  intros l key h.
  destruct (sign_transaction_v2_record l key h) as [Hfst Hsnd].
  rewrite Hfst, Hsnd, Nat.eqb_refl.
  assert (Hname : forall ex, ex = ValueError \/ ex = binascii_Error ->
                             exn_name ex <> "SigningError"%string)
    by (intros ex [-> | ->]; discriminate).
  destruct (sign_record_outcome (h l) key)
    as [ex Hroot | root ex Hroot Hdd | root dd ex Hroot Hdd Hsg | root dd sg Hroot Hdd Hsg].
  - pose proof (new_data_root_raises _ _ Hroot) as Hex. auto.
  - pose proof (deep_hash_raises _ _ Hdd) as Hex. auto.
  - pose proof (rsa_sign_raises _ _ _ Hsg) as Hex. auto.
  - split; [reflexivity|]. cbn [Tx.signature Tx.id Tx.set_id Tx.set_signature]. split.
    + apply base64url_encode_nonempty. eapply rsa_sign_sha384_nonempty, Hsg.
    + apply base64url_encode_nonempty. intros Hnil.
      apply (f_equal (@List.length byte)) in Hnil.
      rewrite sha256_length in Hnil. discriminate Hnil.
Qed.

(** C4 as the design document states it fails: with a key too short for a
    SHA-384 digest, signing raises, and what it raises is a [ValueError],
    not a [SigningError]. *)
Lemma sign_transaction_v2_raises_ValueError :
  fst (sign_transaction_v2 0%nat Sample.small_key (Sample.heap_of Sample.tx_hello))
  = inl ValueError
  /\ exn_name ValueError <> "SigningError"%string.
Proof.
  split; [vm_compute; reflexivity | discriminate].
Qed.

(** *** No validation *)

(** C7, as the code has it.  Neither quantity, nor fee, nor data_size is
    validated: two records that differ in these three fields only are signed
    alike, both returning or both raising the same exception, which is never
    a [ValidationError]. *)
Theorem sign_transaction_v2_no_validation :
  forall (l : ref) (key : RSA.RSAPrivateKey) (h h' : heap),
    same_but_amounts (h l) (h' l) ->
    fst (sign_transaction_v2 l key h') = fst (sign_transaction_v2 l key h)
    /\ (forall ex, fst (sign_transaction_v2 l key h') = inl ex ->
                   exn_name ex <> "ValidationError"%string).
Proof.
  intros l key h h' (Hf & Hi & Hl & Ho & Htg & Ht & Hd & Hs & Hr).
  split; [|intros [] _; discriminate].
  destruct (sign_transaction_v2_record l key h) as [Hfst _].
  destruct (sign_transaction_v2_record l key h') as [Hfst' _].
  rewrite Hfst, Hfst'. unfold sign_record, new_data_root. rewrite Hd.
  destruct (if truthy (Tx.data (h l)) then _ else _) as [ex|root]; [reflexivity|].
  cbv zeta.
  pose proof (deep_hash_same_outcome
                (Tx.set_data_root root (h l)) (Tx.set_data_root root (h' l))
                Ho Hl eq_refl Ht) as Hsame.
  destruct (deep_hash_transaction_v2 (Tx.set_data_root root (h l))) as [ex|dd],
           (deep_hash_transaction_v2 (Tx.set_data_root root (h' l))) as [ex'|dd'];
    cbn [same_outcome] in Hsame; try contradiction; cbn [fst]; [now subst|].
  pose proof (rsa_sign_same_outcome key dd dd') as Hsg.
  destruct (RSA.sign key dd RSA.PKCS1v15 RSA.SHA384) as [ex|sg],
           (RSA.sign key dd' RSA.PKCS1v15 RSA.SHA384) as [ex'|sg'];
    cbn [same_outcome] in Hsg; try contradiction; cbn [fst]; [now subst | reflexivity].
Qed.

Lemma sign_transaction_v2_no_validation_witness :
  fst (sign_transaction_v2 0%nat Sample.key (Sample.heap_of Sample.tx_unvalidated))
  = fst (sign_transaction_v2 0%nat Sample.key (Sample.heap_of Sample.tx_hello))
  /\ (forall ex,
        fst (sign_transaction_v2 0%nat Sample.key (Sample.heap_of Sample.tx_unvalidated))
        = inl ex ->
        exn_name ex <> "ValidationError"%string).
Proof.
  apply (sign_transaction_v2_no_validation 0%nat Sample.key
           (Sample.heap_of Sample.tx_hello) (Sample.heap_of Sample.tx_unvalidated)).
  unfold same_but_amounts. repeat split.
Defined.

(** C7 as the design document states it fails: a record whose quantity and
    fee are no decimal numbers and whose data_size is not the length of its
    payload is signed; nothing is raised. *)
Lemma sign_transaction_v2_signs_unvalidated :
  is_decimal (Tx.quantity Sample.tx_unvalidated) = false
  /\ is_decimal (Tx.reward Sample.tx_unvalidated) = false
  /\ base64url_decode (Tx.data Sample.tx_unvalidated) = inr Sample.hello
  /\ Tx.data_size Sample.tx_unvalidated
     <> str_of_int (Z.of_nat (List.length Sample.hello))
  /\ fst (sign_transaction_v2 0%nat Sample.key (Sample.heap_of Sample.tx_unvalidated))
     = inr 0%nat.
Proof.
  repeat split; try (vm_compute; reflexivity).
  vm_compute. discriminate.
Qed.

(** *** data_root and data_size *)

(** The data_root signing leaves: the one computed from the data field,
    unless the data field does not decode. *)
Lemma sign_transaction_v2_data_root (l : ref) (key : RSA.RSAPrivateKey) (h : heap) :
  Tx.data_root (snd (sign_transaction_v2 l key h) l)
  = match new_data_root (h l) with
    | inr root => root
    | inl _ => Tx.data_root (h l)
    end
  /\ Tx.data_size (snd (sign_transaction_v2 l key h) l) = Tx.data_size (h l).
Proof.
  destruct (sign_transaction_v2_record l key h) as [_ Hsnd].
  rewrite Hsnd, Nat.eqb_refl.
  destruct (sign_record_outcome (h l) key) as [e H1 | r e H1 H2 | r dd e H1 H2 H3 | r dd sg H1 H2 H3];
    rewrite H1; split; reflexivity.
Qed.

(** C8, as the code has it.  Signing never writes data_size: it is after
    the call what the caller had put there.  It sets data_root from the
    data field alone: to the empty string when the data field is the empty
    text, and otherwise to the base64url text of the SHA-256 digest of the
    bytes the data field decodes to, be they none.  So for a record built as
    [main] builds it, with the base64url text of a payload as data and the
    decimal length of the payload as data_size: an empty payload gives the
    empty data_root and the data_size "0", a payload that is not empty the
    base64url text of the SHA-256 digest of the payload. *)
Theorem data_root_of_payload :
  forall (l : ref) (key : RSA.RSAPrivateKey) (h : heap),
    Tx.data_size (snd (sign_transaction_v2 l key h) l) = Tx.data_size (h l)
    /\ (Tx.data (h l) = EmptyString ->
        Tx.data_root (snd (sign_transaction_v2 l key h) l) = EmptyString)
    /\ (forall payload : bytes,
          Tx.data (h l) <> EmptyString ->
          base64url_decode (Tx.data (h l)) = inr payload ->
          Tx.data_root (snd (sign_transaction_v2 l key h) l)
          = base64url_encode (sha256 payload))
    /\ (forall payload : bytes,
          Tx.data (h l) = base64url_encode payload ->
          Tx.data_size (h l) = str_of_int (Z.of_nat (List.length payload)) ->
          match payload with
          | [] =>
              Tx.data_root (snd (sign_transaction_v2 l key h) l) = EmptyString
              /\ Tx.data_size (snd (sign_transaction_v2 l key h) l) = "0"%string
          | _ :: _ =>
              Tx.data_root (snd (sign_transaction_v2 l key h) l)
              = base64url_encode (sha256 payload)
          end).
Proof.
  intros l key h.
  destruct (sign_transaction_v2_data_root l key h) as [Hdr Hds].
  rewrite Hdr, Hds. unfold new_data_root.
  split; [reflexivity|]. split; [|split].
  - intros ->. reflexivity.
  - intros payload Hne Hdec. rewrite Hdec.
    destruct (Tx.data (h l)); [contradiction | reflexivity].
  - intros payload Hdata Hsize. rewrite Hdata, Hsize.
    rewrite truthy_base64url_encode, base64url_roundtrip.
    destruct payload; [split|]; reflexivity.
Qed.

Lemma data_root_of_payload_witness :
  (Tx.data_root (snd (sign_transaction_v2 0%nat Sample.key
                        (Sample.heap_of (main_tx_fields "abc" Sample.owner "100" [])))
                   0%nat) = EmptyString
   /\ Tx.data_size (snd (sign_transaction_v2 0%nat Sample.key
                           (Sample.heap_of (main_tx_fields "abc" Sample.owner "100" [])))
                      0%nat) = "0"%string)
  /\ Tx.data_root (snd (sign_transaction_v2 0%nat Sample.key
                          (Sample.heap_of Sample.tx_hello)) 0%nat)
     = base64url_encode (sha256 Sample.hello).
Proof.
  split.
  - apply (proj2 (proj2 (proj2
             (data_root_of_payload 0%nat Sample.key
                (Sample.heap_of (main_tx_fields "abc" Sample.owner "100" []))))) []);
      reflexivity.
  - apply (proj1 (proj2 (proj2
             (data_root_of_payload 0%nat Sample.key (Sample.heap_of Sample.tx_hello))))
             Sample.hello).
    + vm_compute. discriminate.
    + vm_compute. reflexivity.
Defined.

(** C8 as the design document states it fails, on two records the sample
    key signs.  The first has no data and the data_size "5": its data_size
    is "5" after the call, not "0".  The data of the second is four pad
    characters, which decode to no bytes: its data_root is the digest of
    the empty byte string, not the empty string. *)
Lemma sign_transaction_v2_keeps_data_size :
  (Tx.data SampleRun.tx_without_data = EmptyString
   /\ fst (sign_transaction_v2 0%nat Sample.key
             (Sample.heap_of SampleRun.tx_without_data)) = inr 0%nat
   /\ Tx.data_size (snd (sign_transaction_v2 0%nat Sample.key
                           (Sample.heap_of SampleRun.tx_without_data)) 0%nat)
      = "5"%string)
  /\ (base64url_decode (Tx.data SampleRun.tx_padding_only) = inr []
      /\ fst (sign_transaction_v2 0%nat Sample.key
                (Sample.heap_of SampleRun.tx_padding_only)) = inr 0%nat
      /\ Tx.data_root (snd (sign_transaction_v2 0%nat Sample.key
                              (Sample.heap_of SampleRun.tx_padding_only)) 0%nat)
         = "47DEQpj8HBSa-_TImW-5JCeuQeRkm5NMpJWZG3hSuFU"%string).
Proof.
  assert (Hkey : (78 <= RSA.key_size_bytes
                          (RSA.n (RSA.public_numbers (RSA.private_numbers Sample.key))))%nat)
    by (vm_compute; lia).
  split; (split; [vm_compute; reflexivity|]; split).
  - apply decodable_returns; [vm_compute; reflexivity | exact Hkey].
  - apply (sign_transaction_v2_data_root 0%nat Sample.key
             (Sample.heap_of SampleRun.tx_without_data)).
  - apply decodable_returns; [vm_compute; reflexivity | exact Hkey].
  - rewrite (proj1 (sign_transaction_v2_data_root 0%nat Sample.key
                      (Sample.heap_of SampleRun.tx_padding_only))).
    vm_compute. reflexivity.
Qed.

(** *** What signing writes *)

(** C9. Signing works on the record behind the reference it is given and
    returns that reference.  When it returns, no other record has changed;
    the fields format, last_tx, owner, tags, target, quantity, data, reward
    and data_size of the record are as before; data_root is the base64url
    text of the SHA-256 digest of the decoded data field, or the empty
    string when the data field is empty, whatever data_root held before;
    signature and id are those of the signed record, the signature being
    over the hash of the record with the new data_root. *)
Theorem sign_transaction_v2_frame :
  forall (l : ref) (key : RSA.RSAPrivateKey) (h : heap) (l' : ref),
    fst (sign_transaction_v2 l key h) = inr l' ->
    l' = l
    /\ (forall r, r <> l -> snd (sign_transaction_v2 l key h) r = h r)
    /\ (let tx := h l in
        let tx' := snd (sign_transaction_v2 l key h) l in
        Tx.format tx' = Tx.format tx /\ Tx.last_tx tx' = Tx.last_tx tx
        /\ Tx.owner tx' = Tx.owner tx /\ Tx.tags tx' = Tx.tags tx
        /\ Tx.target tx' = Tx.target tx /\ Tx.quantity tx' = Tx.quantity tx
        /\ Tx.data tx' = Tx.data tx /\ Tx.reward tx' = Tx.reward tx
        /\ Tx.data_size tx' = Tx.data_size tx
        /\ new_data_root tx = inr (Tx.data_root tx')
        /\ signed_by key tx')
    /\ (forall v : string,
          fst (sign_transaction_v2 l key (with_data_root v l h)) = inr l
          /\ snd (sign_transaction_v2 l key (with_data_root v l h)) l
             = snd (sign_transaction_v2 l key h) l).
Proof.
  intros l key h l' Hok.
  destruct (sign_transaction_v2_record l key h) as [Hfst Hsnd].
  rewrite Hfst in Hok.
  assert (Hov : forall v, sign_record (Tx.set_data_root v (h l)) key = sign_record (h l) key).
  { intros v. unfold sign_record in Hok |- *.
    change (new_data_root (Tx.set_data_root v (h l))) with (new_data_root (h l)).
    destruct (new_data_root (h l)) as [ex|root]; [discriminate Hok | reflexivity]. }
  split; [|split; [|split]].
  - destruct (fst (sign_record (h l) key)); [discriminate | now injection Hok].
  - intros r Hr. rewrite Hsnd. apply Nat.eqb_neq in Hr. now rewrite Hr.
  - cbv zeta. rewrite Hsnd, Nat.eqb_refl.
    destruct (sign_record_outcome (h l) key)
      as [ex ? | root ex ? ? | root dd ex ? ? ? | root dd sg Hroot Hdd Hsg];
      try discriminate Hok.
    repeat split; try reflexivity.
    + exact Hroot.
    + eapply signed_record_signed_by; eassumption.
  - intros v.
    destruct (sign_transaction_v2_record l key (with_data_root v l h)) as [Hfst' Hsnd'].
    rewrite Hfst', Hsnd', Hsnd. unfold with_data_root. rewrite !Nat.eqb_refl, Hov.
    split; [|reflexivity].
    destruct (fst (sign_record (h l) key)); [discriminate | reflexivity].
Qed.

Lemma sign_transaction_v2_frame_witness :
  0%nat = 0%nat
  /\ (forall r, r <> 0%nat ->
        snd (sign_transaction_v2 0%nat Sample.key (Sample.heap_of Sample.tx_target)) r
        = Sample.heap_of Sample.tx_target r)
  /\ (let tx := Sample.heap_of Sample.tx_target 0%nat in
      let tx' := snd (sign_transaction_v2 0%nat Sample.key
                        (Sample.heap_of Sample.tx_target)) 0%nat in
      Tx.format tx' = Tx.format tx /\ Tx.last_tx tx' = Tx.last_tx tx
      /\ Tx.owner tx' = Tx.owner tx /\ Tx.tags tx' = Tx.tags tx
      /\ Tx.target tx' = Tx.target tx /\ Tx.quantity tx' = Tx.quantity tx
      /\ Tx.data tx' = Tx.data tx /\ Tx.reward tx' = Tx.reward tx
      /\ Tx.data_size tx' = Tx.data_size tx
      /\ new_data_root tx = inr (Tx.data_root tx')
      /\ signed_by Sample.key tx')
  /\ (forall v : string,
        fst (sign_transaction_v2 0%nat Sample.key
               (with_data_root v 0%nat (Sample.heap_of Sample.tx_target))) = inr 0%nat
        /\ snd (sign_transaction_v2 0%nat Sample.key
                  (with_data_root v 0%nat (Sample.heap_of Sample.tx_target))) 0%nat
           = snd (sign_transaction_v2 0%nat Sample.key
                    (Sample.heap_of Sample.tx_target)) 0%nat).
Proof.
  apply (sign_transaction_v2_frame 0%nat Sample.key (Sample.heap_of Sample.tx_target) 0%nat).
  vm_compute. reflexivity.
Defined.

(** ** The key loader *)

(** C5, as the code has it.  For every key file whose decoded modulus is not
    the product of its two decoded primes, [load_jwk] raises [ValueError]:
    the check is made by the RSA library when the key is built from the
    numbers, and no key is returned to hash or sign with. *)
Theorem load_jwk_inconsistent_modulus :
  forall (json_load_file : string -> result pydict) (filepath : string)
         (jwk : pydict) (n e d p q dp dq qi : N),
    json_load_file filepath = inr jwk ->
    jwk_int jwk "n" = inr n -> jwk_int jwk "e" = inr e ->
    jwk_int jwk "d" = inr d -> jwk_int jwk "p" = inr p ->
    jwk_int jwk "q" = inr q -> jwk_int jwk "dp" = inr dp ->
    jwk_int jwk "dq" = inr dq -> jwk_int jwk "qi" = inr qi ->
    n <> p * q ->
    load_jwk json_load_file filepath = inl ValueError.
Proof.
  intros json_load_file filepath jwk n e d p q dp dq qi
         Hfile Hn He Hd Hp Hq Hdp Hdq Hqi Hne.
  unfold load_jwk. rewrite Hfile. cbn [rbind].
  rewrite Hn, He, Hd, Hp, Hq, Hdp, Hdq, Hqi. cbn [rbind].
  unfold RSA.private_key, RSA.check_private_key_components.
  cbn [RSA.p RSA.q RSA.n RSA.public_numbers].
  assert (Hpq : (p * q =? n) = false) by (apply N.eqb_neq; congruence).
  rewrite Hpq, andb_false_r. reflexivity.
Qed.

Lemma load_jwk_inconsistent_modulus_witness :
  load_jwk (fun _ => inr Sample.jwk_inconsistent) "arweave-key.json" = inl ValueError.
Proof.
  apply (load_jwk_inconsistent_modulus (fun _ => inr Sample.jwk_inconsistent)
           "arweave-key.json" Sample.jwk_inconsistent 35 3 3 3 5 1 3 2);
    try reflexivity.
  discriminate.
Defined.

(** C5 as the design document states it fails: on a key file with modulus
    35 and primes 3 and 5, every other check of the key passing, what
    [load_jwk] raises is a [ValueError], not a [KeyConsistencyError]. *)
Lemma load_jwk_raises_ValueError :
  jwk_int Sample.jwk_inconsistent "n" = inr 35
  /\ jwk_int Sample.jwk_inconsistent "p" = inr 3
  /\ jwk_int Sample.jwk_inconsistent "q" = inr 5
  /\ load_jwk (fun _ => inr Sample.jwk_inconsistent) "arweave-key.json" = inl ValueError
  /\ exn_name ValueError <> "KeyConsistencyError"%string.
Proof.
  repeat split; try (vm_compute; reflexivity). discriminate.
Qed.

(** ** The node queries *)

(** C10. For every response of the node whose status code is not 200,
    [get_anchor] returns the empty string and [get_price] returns "0";
    neither raises. *)
Theorem fetchers_default_on_failure :
  forall (requests_get : string -> result Response) (node_url : string) (size : Z)
         (r_anchor r_price : Response),
    requests_get (node_url ++ "/tx_anchor")%string = inr r_anchor ->
    status_code r_anchor <> 200%Z ->
    requests_get (node_url ++ "/price/" ++ str_of_int size)%string = inr r_price ->
    status_code r_price <> 200%Z ->
    get_anchor requests_get node_url = inr EmptyString
    /\ get_price requests_get node_url size = inr "0"%string.
Proof.
  intros requests_get node_url size r_anchor r_price Ha Hsa Hp Hsp.
  unfold get_anchor, get_price. rewrite Ha, Hp. cbn [rbind].
  apply Z.eqb_neq in Hsa, Hsp. rewrite Hsa, Hsp. split; reflexivity.
Qed.

Lemma fetchers_default_on_failure_witness :
  get_anchor Sample.not_found "http://localhost:1984" = inr EmptyString
  /\ get_price Sample.not_found "http://localhost:1984" 39 = inr "0"%string.
Proof.
  apply (fetchers_default_on_failure Sample.not_found "http://localhost:1984" 39%Z
           {| status_code := 404; text := "Not Found" |}
           {| status_code := 404; text := "Not Found" |});
    (reflexivity || (vm_compute; discriminate)).
Defined.

(** * Further properties of the module *)

(** ** The codec: what the encoder writes *)

Lemma ascii_forall (P : ascii -> bool) :
  forallb (fun v => P (ascii_of_N v)) (N_range 256) = true -> forall c, P c = true.
Proof.
  intros Hall c. rewrite <- (ascii_N_embedding c).
  apply (N_forall_below 256 (fun v => P (ascii_of_N v)) Hall).
  apply N_ascii_bounded.
Qed.

Lemma urlsafe_char_land (v : N) : urlsafe_char (N.land v 63) = urlsafe_char v.
Proof. unfold urlsafe_char. now rewrite b2a_char_land. Qed.

Lemma sextet_urlsafe_all (v : N) : is_urlsafe (urlsafe_char v) = true.
Proof.
  rewrite <- urlsafe_char_land.
  apply (N_forall_below 64 sextet_urlsafe); [vm_compute; reflexivity | apply land_63_lt].
Qed.

Lemma urlsafe_char_not_pad (v : N) : (urlsafe_char v =? "=")%char = false.
Proof. apply (urlsafe_char_facts v). Qed.

Lemma base64url_encode_nil : base64url_encode [] = EmptyString.
Proof. reflexivity. Qed.

Lemma base64url_encode_1 (x0 : byte) :
  base64url_encode [x0]
  = String (urlsafe_char (N.shiftr (Byte.to_N x0) 2))
      (String (urlsafe_char (N.shiftl (N.land (Byte.to_N x0) 3) 4)) EmptyString).
Proof.
  unfold base64url_encode. rewrite urlsafe_b64encode_1. cbv zeta.
  rewrite !rstrip_cons by apply urlsafe_char_not_pad. reflexivity.
Qed.

Lemma base64url_encode_2 (x0 x1 : byte) :
  base64url_encode [x0; x1]
  = String (urlsafe_char (N.shiftr (Byte.to_N x0) 2))
      (String (urlsafe_char (N.lor (N.shiftl (N.land (Byte.to_N x0) 3) 4)
                               (N.shiftr (Byte.to_N x1) 4)))
         (String (urlsafe_char (N.shiftl (N.land (Byte.to_N x1) 15) 2)) EmptyString)).
Proof.
  unfold base64url_encode. rewrite urlsafe_b64encode_2. cbv zeta.
  rewrite !rstrip_cons by apply urlsafe_char_not_pad. reflexivity.
Qed.

Lemma base64url_encode_group (x0 x1 x2 : byte) (rest : bytes) :
  base64url_encode (x0 :: x1 :: x2 :: rest)
  = String (urlsafe_char (N.shiftr (Byte.to_N x0) 2))
      (String (urlsafe_char (N.lor (N.shiftl (N.land (Byte.to_N x0) 3) 4)
                               (N.shiftr (Byte.to_N x1) 4)))
         (String (urlsafe_char (N.lor (N.shiftl (N.land (Byte.to_N x1) 15) 2)
                                  (N.shiftr (Byte.to_N x2) 6)))
            (String (urlsafe_char (Byte.to_N x2)) (base64url_encode rest)))).
Proof.
  unfold base64url_encode. rewrite urlsafe_b64encode_group. cbv zeta.
  rewrite !rstrip_cons by apply urlsafe_char_not_pad. reflexivity.
Qed.

Lemma encoded_chars_urlsafe (data : bytes) :
  str_forallb is_urlsafe (base64url_encode data) = true.
Proof.
  induction data as [| x0 | x0 x1 | x0 x1 x2 rest IH] using list_triple_ind.
  - reflexivity.
  - rewrite base64url_encode_1. cbn [str_forallb].
    rewrite !sextet_urlsafe_all. reflexivity.
  - rewrite base64url_encode_2. cbn [str_forallb].
    rewrite !sextet_urlsafe_all. reflexivity.
  - rewrite base64url_encode_group. cbn [str_forallb].
    rewrite !sextet_urlsafe_all, IH. reflexivity.
Qed.

Lemma encoded_length (data : bytes) :
  String.length (base64url_encode data) = ((4 * List.length data + 2) / 3)%nat.
Proof.
  induction data as [| x0 | x0 x1 | x0 x1 x2 rest IH] using list_triple_ind.
  - reflexivity.
  - rewrite base64url_encode_1. reflexivity.
  - rewrite base64url_encode_2. reflexivity.
  - rewrite base64url_encode_group. cbn [String.length List.length]. rewrite IH.
    replace (4 * S (S (S (List.length rest))) + 2)%nat
      with ((4 * List.length rest + 2) + 4 * 3)%nat by lia.
    rewrite Nat.div_add by discriminate. lia.
Qed.

(** X1. The text [base64url_encode] returns holds letters, digits, [-] and
    [_] only: never the pad [=], never [+] or [/]. *)
Theorem base64url_encode_urlsafe :
  forall data : bytes, str_forallb is_urlsafe (base64url_encode data) = true.
Proof. exact encoded_chars_urlsafe. Qed.

(** X2. The text [base64url_encode] returns for [n] bytes has
    [(4 * n + 2) / 3] characters: four for three bytes, two for one byte
    left over, three for two. *)
Theorem base64url_encode_length :
  forall data : bytes,
    String.length (base64url_encode data) = ((4 * List.length data + 2) / 3)%nat.
Proof. exact encoded_length. Qed.

(** X3. Different byte strings have different encodings. *)
Theorem base64url_encode_injective :
  forall data data' : bytes,
    data <> data' -> base64url_encode data <> base64url_encode data'.
Proof.
  intros data data' Hne Heq. apply Hne.
  pose proof (base64url_roundtrip data) as H.
  rewrite Heq, base64url_roundtrip in H. now injection H.
Qed.

Lemma base64url_encode_injective_witness :
  base64url_encode [x00] <> base64url_encode [x00; x00].
Proof.
  apply (base64url_encode_injective [x00] [x00; x00]). discriminate.
Defined.

(** ** The codec: what the decoder accepts *)

Lemma pad4_fixed (s : string) : (String.length s mod 4 = 0)%nat -> pad4 s = s.
Proof. intros H. unfold pad4. rewrite H. reflexivity. Qed.

(** X4. The decoder takes the padded encoding as well as the stripped one:
    decoding what [urlsafe_b64encode] returns, [=] included, gives the bytes
    back. *)
Theorem base64url_decode_padded :
  forall data : bytes, base64url_decode (Base64.urlsafe_b64encode data) = inr data.
Proof.
  intros data. rewrite base64url_decode_pad4.
  rewrite pad4_fixed by (rewrite <- pad4_rstrip; apply pad4_length).
  unfold Base64.urlsafe_b64decode. rewrite urlsafe_b64encode_isascii.
  apply a2b_loop_encode.
Qed.

Lemma str_forallb_app (f : ascii -> bool) (s t : string) :
  str_forallb f (s ++ t) = str_forallb f s && str_forallb f t.
Proof.
  induction s as [|c s IH]; cbn [String.append str_forallb].
  - reflexivity.
  - rewrite IH. apply andb_assoc.
Qed.

Lemma str_forallb_impl (f g : ascii -> bool) (s : string) :
  (forall c, f c = true -> g c = true) ->
  str_forallb f s = true -> str_forallb g s = true.
Proof.
  intros Hfg. induction s as [|c s IH]; cbn [str_forallb]; [reflexivity|].
  intros H. apply andb_prop in H. destruct H as [Hc Hs].
  rewrite (Hfg c Hc), (IH Hs). reflexivity.
Qed.

Lemma str_forallb_pads (k : nat) : str_forallb isascii (str_repeat "=" k) = true.
Proof. induction k as [|k IH]; cbn [str_repeat str_forallb]; [|rewrite IH]; reflexivity. Qed.

Lemma pad4_isascii (s : string) :
  str_forallb isascii (pad4 s) = str_forallb isascii s.
Proof.
  unfold pad4. destruct (0 <? String.length s mod 4)%nat; [|reflexivity].
  rewrite str_forallb_app, str_forallb_pads. apply andb_true_r.
Qed.

(** X5. Text with a character that is not ASCII is refused with
    [ValueError], wherever the character stands. *)
Theorem base64url_decode_not_ascii :
  forall s : string,
    str_forallb isascii s = false -> base64url_decode s = inl ValueError.
Proof.
  intros s Hs. rewrite base64url_decode_pad4. unfold Base64.urlsafe_b64decode.
  rewrite pad4_isascii, Hs. reflexivity.
Qed.

Lemma base64url_decode_not_ascii_witness :
  base64url_decode (String "a" (String "233" EmptyString)) = inl ValueError.
Proof.
  apply (base64url_decode_not_ascii (String "a" (String "233" EmptyString))).
  vm_compute. reflexivity.
Defined.

(** *** Text of alphabet characters *)

Lemma alphabet_char_ok_all (c : ascii) : alphabet_char_ok (N_of_ascii c) = true.
Proof.
  apply (N_forall_below 256 alphabet_char_ok); [vm_compute; reflexivity|].
  apply N_ascii_bounded.
Qed.

Lemma in_alphabet_facts (c : ascii) :
  in_alphabet c = true ->
  isascii c = true
  /\ (Base64.urlsafe_decode_translation c =? Base64.BASE64_PAD)%char = false
  /\ exists v, Base64.a2b_char (Base64.urlsafe_decode_translation c) = Some v.
Proof.
  intros Hc. pose proof (alphabet_char_ok_all c) as H.
  unfold alphabet_char_ok in H. rewrite ascii_N_embedding in H.
  apply andb_prop in H. destruct H as [H _].
  apply andb_prop in H. destruct H as [H _].
  rewrite Hc in H. cbn [implb] in H.
  apply andb_prop in H. destruct H as [Ha Hp].
  split; [exact Ha|]. split; [now apply negb_true_iff|].
  unfold in_alphabet in Hc.
  destruct (Base64.a2b_char (Base64.urlsafe_decode_translation c)) as [v|];
    [now exists v | discriminate].
Qed.

Lemma is_skipped_facts (c : ascii) :
  is_skipped c = true ->
  isascii c = true
  /\ (Base64.urlsafe_decode_translation c =? Base64.BASE64_PAD)%char = false
  /\ Base64.a2b_char (Base64.urlsafe_decode_translation c) = None.
Proof.
  intros Hc. pose proof (alphabet_char_ok_all c) as H.
  unfold alphabet_char_ok in H. rewrite ascii_N_embedding in H.
  apply andb_prop in H. destruct H as [_ H].
  rewrite Hc in H. cbn [implb] in H.
  unfold is_skipped in Hc.
  apply andb_prop in Hc. destruct Hc as [Hc _].
  apply andb_prop in Hc. destruct Hc as [Ha Hn].
  split; [exact Ha|]. split; [now apply negb_true_iff|].
  apply negb_true_iff in Hn. unfold in_alphabet in Hn.
  now destruct (Base64.a2b_char (Base64.urlsafe_decode_translation c)).
Qed.

Lemma string_quad_ind (P : string -> Prop) :
  P EmptyString ->
  (forall c0, P (String c0 EmptyString)) ->
  (forall c0 c1, P (String c0 (String c1 EmptyString))) ->
  (forall c0 c1 c2, P (String c0 (String c1 (String c2 EmptyString)))) ->
  (forall c0 c1 c2 c3 s, P s -> P (String c0 (String c1 (String c2 (String c3 s))))) ->
  forall s, P s.
Proof.
  intros H0 H1 H2 H3 H4 s.
  assert (Hall : P s /\ (forall a, P (String a s))
                 /\ (forall a b, P (String a (String b s)))
                 /\ (forall a b c, P (String a (String b (String c s))))).
  { induction s as [|d s (IH0 & IH1 & IH2 & IH3)]; repeat split; auto. }
  apply Hall.
Qed.

Lemma a2b_loop_skip_pad_q0 (s : string) (l p : N) (out : bytes) :
  Base64.a2b_loop (String Base64.BASE64_PAD s) 0 l p out = Base64.a2b_loop s 0 l p out.
Proof. reflexivity. Qed.

Lemma a2b_loop_skip_pad_q1 (s : string) (l p : N) (out : bytes) :
  Base64.a2b_loop (String Base64.BASE64_PAD s) 1 l p out = Base64.a2b_loop s 1 l p out.
Proof. reflexivity. Qed.

Section AlphabetText.
Import Base64.

Lemma pad4_1 (c0 : ascii) :
  pad4 (String c0 EmptyString)
  = String c0 (String BASE64_PAD (String BASE64_PAD (String BASE64_PAD EmptyString))).
Proof. reflexivity. Qed.

Lemma pad4_2 (c0 c1 : ascii) :
  pad4 (String c0 (String c1 EmptyString))
  = String c0 (String c1 (String BASE64_PAD (String BASE64_PAD EmptyString))).
Proof. reflexivity. Qed.

Lemma pad4_3 (c0 c1 c2 : ascii) :
  pad4 (String c0 (String c1 (String c2 EmptyString)))
  = String c0 (String c1 (String c2 (String BASE64_PAD EmptyString))).
Proof. reflexivity. Qed.

(** The decoder on the padded form of a text of alphabet characters: an
    error when one character is left over after the groups of four, and
    three bytes for four characters otherwise. *)
Lemma a2b_loop_alphabet (s : string) :
  str_forallb in_alphabet s = true ->
  forall out,
    ((String.length s mod 4 = 1)%nat ->
     a2b_loop (str_map urlsafe_decode_translation (pad4 s)) 0 0 0 out
     = inl binascii_Error)
    /\ ((String.length s mod 4 <> 1)%nat ->
        exists data,
          a2b_loop (str_map urlsafe_decode_translation (pad4 s)) 0 0 0 out
          = inr (out ++ data)
          /\ List.length data = (3 * String.length s / 4)%nat).
Proof.
  induction s as [| c0 | c0 c1 | c0 c1 c2 | c0 c1 c2 c3 s IH] using string_quad_ind;
    cbn [str_forallb]; intros Hall out.
  - split; [discriminate|]. intros _. exists []. split; [|reflexivity].
    cbn. now rewrite app_nil_r.
  - apply andb_prop in Hall. destruct Hall as [A0 _].
    destruct (in_alphabet_facts c0 A0) as (_ & P0 & v0 & V0).
    split; [|intros H; now contradiction H]. intros _.
    rewrite pad4_1. cbn [str_map].
    rewrite (a2b_loop_q0 _ _ _ _ _ _ P0 V0).
    change (urlsafe_decode_translation BASE64_PAD) with BASE64_PAD.
    rewrite !a2b_loop_skip_pad_q1. reflexivity.
  - apply andb_prop in Hall. destruct Hall as [A0 Hall].
    apply andb_prop in Hall. destruct Hall as [A1 _].
    destruct (in_alphabet_facts c0 A0) as (_ & P0 & v0 & V0).
    destruct (in_alphabet_facts c1 A1) as (_ & P1 & v1 & V1).
    split; [discriminate|]. intros _.
    rewrite pad4_2. cbn [str_map].
    rewrite (a2b_loop_q0 _ _ _ _ _ _ P0 V0), (a2b_loop_q1 _ _ _ _ _ _ P1 V1).
    change (urlsafe_decode_translation BASE64_PAD) with BASE64_PAD.
    rewrite a2b_loop_pad2. eexists. split; reflexivity.
  - apply andb_prop in Hall. destruct Hall as [A0 Hall].
    apply andb_prop in Hall. destruct Hall as [A1 Hall].
    apply andb_prop in Hall. destruct Hall as [A2 _].
    destruct (in_alphabet_facts c0 A0) as (_ & P0 & v0 & V0).
    destruct (in_alphabet_facts c1 A1) as (_ & P1 & v1 & V1).
    destruct (in_alphabet_facts c2 A2) as (_ & P2 & v2 & V2).
    split; [discriminate|]. intros _.
    rewrite pad4_3. cbn [str_map].
    rewrite (a2b_loop_q0 _ _ _ _ _ _ P0 V0), (a2b_loop_q1 _ _ _ _ _ _ P1 V1),
      (a2b_loop_q2 _ _ _ _ _ _ P2 V2).
    change (urlsafe_decode_translation BASE64_PAD) with BASE64_PAD.
    rewrite a2b_loop_pad1. rewrite <- app_assoc. eexists. split; reflexivity.
  - apply andb_prop in Hall. destruct Hall as [A0 Hall].
    apply andb_prop in Hall. destruct Hall as [A1 Hall].
    apply andb_prop in Hall. destruct Hall as [A2 Hall].
    apply andb_prop in Hall. destruct Hall as [A3 Hall].
    destruct (in_alphabet_facts c0 A0) as (_ & P0 & v0 & V0).
    destruct (in_alphabet_facts c1 A1) as (_ & P1 & v1 & V1).
    destruct (in_alphabet_facts c2 A2) as (_ & P2 & v2 & V2).
    destruct (in_alphabet_facts c3 A3) as (_ & P3 & v3 & V3).
    rewrite pad4_group. cbn [str_map String.length].
    rewrite (a2b_loop_q0 _ _ _ _ _ _ P0 V0), (a2b_loop_q1 _ _ _ _ _ _ P1 V1),
      (a2b_loop_q2 _ _ _ _ _ _ P2 V2), (a2b_loop_q3 _ _ _ _ _ _ P3 V3).
    replace (S (S (S (S (String.length s))))) with (String.length s + 1 * 4)%nat by lia.
    rewrite Nat.Div0.mod_add.
    destruct (IH Hall (((out ++ [byte_of_N (N.lor (N.shiftl v0 2) (N.shiftr v1 4))])
                        ++ [byte_of_N (N.lor (N.shiftl (N.land v1 15) 4) (N.shiftr v2 2))])
                       ++ [byte_of_N (N.lor (N.shiftl (N.land v2 3) 6) v3)]))
      as [IHerr IHok].
    split; [exact IHerr|].
    intros Hrem. destruct (IHok Hrem) as (data & Hdata & Hlen).
    eexists. split.
    + rewrite Hdata, <- !app_assoc. cbn [app]. reflexivity.
    + cbn [List.length]. rewrite Hlen.
      replace (3 * (String.length s + 1 * 4))%nat with (3 * String.length s + 3 * 4)%nat by lia.
      rewrite Nat.div_add by discriminate. lia.
Qed.
End AlphabetText.

(** X6. On a text of alphabet characters (letters, digits, [-], [_], [+],
    [/]) the decoder raises [binascii.Error] exactly when the length is one
    more than a multiple of four; for every other length it returns, and
    the bytes it returns number three for every four characters, rounded
    down. *)
Theorem base64url_decode_alphabet :
  forall s : string,
    str_forallb in_alphabet s = true ->
    if (String.length s mod 4 =? 1)%nat
    then base64url_decode s = inl binascii_Error
    else exists data,
        base64url_decode s = inr data
        /\ List.length data = (3 * String.length s / 4)%nat.
Proof.
  intros s Hs. rewrite base64url_decode_pad4. unfold Base64.urlsafe_b64decode.
  rewrite pad4_isascii.
  rewrite (str_forallb_impl in_alphabet isascii s
             (fun c Hc => proj1 (in_alphabet_facts c Hc)) Hs).
  unfold Base64.a2b_base64.
  destruct (a2b_loop_alphabet s Hs []) as [Herr Hok].
  destruct (String.length s mod 4 =? 1)%nat eqn:Hrem.
  - apply Herr. now apply Nat.eqb_eq.
  - apply Hok. now apply Nat.eqb_neq.
Qed.

Lemma base64url_decode_alphabet_witness :
  base64url_decode "SolAR" = inl binascii_Error
  /\ exists data, base64url_decode "SolARa" = inr data /\ List.length data = 4%nat.
Proof.
  split.
  - apply (base64url_decode_alphabet "SolAR"). vm_compute. reflexivity.
  - apply (base64url_decode_alphabet "SolARa"). vm_compute. reflexivity.
Defined.

(** *** Characters the decoder passes over *)

Lemma str_map_app (f : ascii -> ascii) (s t : string) :
  str_map f (s ++ t) = (str_map f s ++ str_map f t)%string.
Proof.
  induction s as [|c s IH]; cbn [String.append str_map]; [reflexivity|].
  now rewrite IH.
Qed.

Lemma string_app_assoc (s t u : string) : ((s ++ t) ++ u = s ++ (t ++ u))%string.
Proof.
  induction s as [|c s IH]; cbn [String.append]; [reflexivity|].
  now rewrite IH.
Qed.

Lemma a2b_loop_skipped (junk : string) :
  str_forallb is_skipped junk = true ->
  forall t quad_pos leftchar pads out,
    Base64.a2b_loop (str_map Base64.urlsafe_decode_translation junk ++ t)
      quad_pos leftchar pads out
    = Base64.a2b_loop t quad_pos leftchar pads out.
Proof.
  induction junk as [|c junk IH]; cbn [str_forallb str_map String.append];
    intros Hall t quad_pos leftchar pads out; [reflexivity|].
  apply andb_prop in Hall. destruct Hall as [Hc Hall].
  destruct (is_skipped_facts c Hc) as (_ & Hp & Hv).
  cbn [Base64.a2b_loop]. rewrite Hp, Hv. apply IH, Hall.
Qed.

Lemma pad4_prefix (junk t : string) :
  (String.length junk mod 4 = 0)%nat ->
  pad4 (junk ++ t) = (junk ++ pad4 t)%string.
Proof.
  intros Hj. unfold pad4. rewrite string_append_length.
  rewrite Nat.Div0.add_mod, Hj, Nat.add_0_l, Nat.Div0.mod_mod.
  destruct (0 <? String.length t mod 4)%nat; [apply string_app_assoc | reflexivity].
Qed.

(** X7. Characters that are neither in the alphabet nor the pad are passed
    over, not refused: four of them (or eight, ...) in front of a text
    change nothing in what the decoder returns or raises for it. *)
Theorem base64url_decode_skips :
  forall junk t : string,
    str_forallb is_skipped junk = true ->
    (String.length junk mod 4 = 0)%nat ->
    base64url_decode (junk ++ t) = base64url_decode t.
Proof.
  intros junk t Hjunk Hlen. rewrite !base64url_decode_pad4.
  rewrite pad4_prefix by exact Hlen.
  unfold Base64.urlsafe_b64decode. rewrite str_forallb_app.
  rewrite (str_forallb_impl is_skipped isascii junk
             (fun c Hc => proj1 (is_skipped_facts c Hc)) Hjunk).
  cbn [andb]. destruct (str_forallb isascii (pad4 t)); [|reflexivity].
  unfold Base64.a2b_base64. rewrite str_map_app.
  now apply a2b_loop_skipped.
Qed.

Lemma base64url_decode_skips_witness :
  base64url_decode ("!?#$" ++ "aGVsbG8") = base64url_decode "aGVsbG8".
Proof.
  apply (base64url_decode_skips "!?#$" "aGVsbG8"); vm_compute; reflexivity.
Defined.

(** ** The deep hash: what it covers *)



(** X9. Whenever the deep hash is computed, the loop has run over nine
    chunks, none of them a tuple, and has hashed nine labelled digests:
    the final digest is over 432 bytes, with or without a target, and is
    itself 48 bytes long. *)
Theorem deep_hash_nine_digests :
  forall (tx : Tx.tx_fields) (dd : bytes),
    deep_hash_transaction_v2 tx = inr dd ->
    exists items : list (bytes * pyval),
      labelled_chunks tx = inr items
      /\ List.length items = 9%nat
      /\ Forall (fun item => exists chunk, snd item = PBytes chunk) items
      /\ List.length (fold_left hash_step items []) = 432%nat
      /\ dd = sha384 (fold_left hash_step items [])
      /\ List.length dd = 48%nat.
Proof.
  intros tx dd. unfold deep_hash_transaction_v2.
  destruct (labelled_chunks tx) as [ex|items] eqn:Hitems; cbn [rbind]; [discriminate|].
  intros [= <-]. exists items. split; [reflexivity|].
  unfold labelled_chunks in Hitems.
  destruct (base64url_decode (Tx.owner tx)) as [ex|ob]; cbn [rbind] in Hitems; [discriminate|].
  destruct (if truthy (Tx.last_tx tx) then _ else _) as [ex|lb];
    cbn [rbind] in Hitems; [discriminate|].
  destruct (base64url_decode (Tx.data_root tx)) as [ex|rb]; cbn [rbind] in Hitems; [discriminate|].
  assert (Hnine : forall i1 i2 i3 i4 i5 i6 i7 i8 i9 : bytes * bytes,
             List.length (fold_left hash_step
                            (map (fun lc => (fst lc, PBytes (snd lc)))
                               [i1; i2; i3; i4; i5; i6; i7; i8; i9]) []) = 432%nat).
  { intros. rewrite fold_hash_step_nine. cbn [flat_map]. unfold deep_hash_chunk.
    rewrite !length_app, !sha384_length. reflexivity. }
  destruct (truthy (Tx.target tx)).
  - destruct (base64url_decode (Tx.target tx)) as [ex|tb]; cbn [rbind] in Hitems; [discriminate|].
    injection Hitems as <-. split; [reflexivity|]. split.
    + repeat constructor; eexists; reflexivity.
    + split; [|split; [reflexivity | apply sha384_length]].
      exact (Hnine (_, _) (_, _) (_, _) (_, _) (_, _) (_, _) (_, _) (_, tb) (_, _)).
  - cbn [rbind] in Hitems. injection Hitems as <-. split; [reflexivity|]. split.
    + repeat constructor; eexists; reflexivity.
    + split; [|split; [reflexivity | apply sha384_length]].
      exact (Hnine (_, _) (_, _) (_, _) (_, _) (_, _) (_, _) (_, _) ([], []) (_, _)).
Qed.

Lemma deep_hash_nine_digests_witness :
  exists items : list (bytes * pyval),
    labelled_chunks Sample.tx_target = inr items
    /\ List.length items = 9%nat
    /\ Forall (fun item => exists chunk, snd item = PBytes chunk) items
    /\ List.length (fold_left hash_step items []) = 432%nat
    /\ match deep_hash_transaction_v2 Sample.tx_target with
       | inr dd => dd
       | inl _ => []
       end = sha384 (fold_left hash_step items [])
    /\ List.length (match deep_hash_transaction_v2 Sample.tx_target with
                    | inr dd => dd
                    | inl _ => []
                    end) = 48%nat.
Proof.
  apply (deep_hash_nine_digests Sample.tx_target
           (match deep_hash_transaction_v2 Sample.tx_target with
            | inr dd => dd
            | inl _ => []
            end)).
  vm_compute. reflexivity.
Defined.

(** ** Signing: what a call leaves behind *)

Lemma int_from_bytes_app (l : bytes) (x : byte) :
  int_from_bytes (l ++ [x]) = int_from_bytes l * 256 + Byte.to_N x.
Proof. unfold int_from_bytes. rewrite fold_left_app. reflexivity. Qed.

Lemma to_N_byte_of_N (v : N) : Byte.to_N (byte_of_N v) = v mod 256.
Proof.
  unfold byte_of_N.
  destruct (Byte.of_N (v mod 256)) as [x|] eqn:Hx.
  - now apply Byte.to_of_N.
  - apply Byte.of_N_None_iff in Hx.
    pose proof (N.mod_lt v 256 ltac:(discriminate)). lia.
Qed.

(** [int.from_bytes(v.to_bytes(len, 'big'), 'big')] is [v] when [v] fits. *)
Lemma int_from_to_bytes (len : nat) :
  forall v, int_from_bytes (int_to_bytes len v) = v mod 256 ^ N.of_nat len.
Proof.
  induction len as [|len IH]; intros v.
  - cbn. now rewrite N.mod_1_r.
  - cbn [int_to_bytes]. rewrite int_from_bytes_app, IH, to_N_byte_of_N.
    rewrite Nat2N.inj_succ, N.pow_succ_r'.
    rewrite N.Div0.mod_mul_r. lia.
Qed.

Lemma key_size_bytes_bound (modulus : N) :
  modulus < 256 ^ N.of_nat (RSA.key_size_bytes modulus).
Proof.
  unfold RSA.key_size_bytes. rewrite N2Nat.id.
  apply N.lt_le_trans with (2 ^ N.size modulus); [apply N.size_gt|].
  change 256 with (2 ^ 8). rewrite <- N.pow_mul_r.
  apply N.pow_le_mono_r; [discriminate|].
  pose proof (N.Div0.mul_div_le (N.size modulus + 7) 8) as Hle.
  pose proof (N.Div0.mod_eq (N.size modulus + 7) 8) as Hmod.
  pose proof (N.mod_lt (N.size modulus + 7) 8 ltac:(discriminate)) as Hlt.
  lia.
Qed.

(** When signing returns, it returns its argument, and the record is the
    signed record. *)
Lemma sign_transaction_v2_returns (l : ref) (key : RSA.RSAPrivateKey) (h : heap) (l' : ref) :
  fst (sign_transaction_v2 l key h) = inr l' ->
  l' = l
  /\ exists root dd sg,
      new_data_root (h l) = inr root
      /\ deep_hash_transaction_v2 (Tx.set_data_root root (h l)) = inr dd
      /\ RSA.sign key dd RSA.PKCS1v15 RSA.SHA384 = inr sg
      /\ snd (sign_transaction_v2 l key h) l
         = Tx.set_id (base64url_encode (sha256 sg))
             (Tx.set_signature (base64url_encode sg) (Tx.set_data_root root (h l))).
Proof.
  intros Hok.
  destruct (sign_transaction_v2_record l key h) as [Hfst Hsnd].
  rewrite Hfst in Hok. rewrite Hsnd, Nat.eqb_refl.
  destruct (sign_record_outcome (h l) key)
    as [ex ? | root ex ? ? | root dd ex ? ? ? | root dd sg Hroot Hdd Hsg];
    try discriminate Hok.
  split; [now injection Hok|]. now exists root, dd, sg.
Qed.

(** X10. Signing a record that has been signed changes nothing: the second
    call returns as well and leaves every record, the signed one with its
    signature and id included, as the first call left it. *)
Theorem sign_transaction_v2_idempotent :
  forall (l : ref) (key : RSA.RSAPrivateKey) (h : heap) (l' : ref),
    fst (sign_transaction_v2 l key h) = inr l' ->
    fst (sign_transaction_v2 l key (snd (sign_transaction_v2 l key h))) = inr l
    /\ forall r,
        snd (sign_transaction_v2 l key (snd (sign_transaction_v2 l key h))) r
        = snd (sign_transaction_v2 l key h) r.
Proof.
  intros l key h l' Hok.
  destruct (sign_transaction_v2_returns l key h l' Hok)
    as (_ & root & dd & sg & Hroot & Hdd & Hsg & Hrec).
  destruct (sign_transaction_v2_record l key (snd (sign_transaction_v2 l key h)))
    as [Hfst Hsnd].
  assert (Hagain : sign_record (snd (sign_transaction_v2 l key h) l) key
                   = (inr tt, snd (sign_transaction_v2 l key h) l)).
  { rewrite Hrec. unfold sign_record.
    change (new_data_root (Tx.set_id _ (Tx.set_signature _ (Tx.set_data_root root (h l)))))
      with (new_data_root (h l)).
    rewrite Hroot. cbv zeta.
    change (deep_hash_transaction_v2
              (Tx.set_data_root root
                 (Tx.set_id (base64url_encode (sha256 sg))
                    (Tx.set_signature (base64url_encode sg)
                       (Tx.set_data_root root (h l))))))
      with (deep_hash_transaction_v2 (Tx.set_data_root root (h l))).
    rewrite Hdd, Hsg. reflexivity. }
  split.
  - rewrite Hfst, Hagain. reflexivity.
  - intros r. rewrite Hsnd, Hagain. cbn [snd].
    destruct (Nat.eqb r l) eqn:E; [|reflexivity].
    apply Nat.eqb_eq in E. now subst.
Qed.

Lemma sign_transaction_v2_idempotent_witness :
  fst (sign_transaction_v2 0%nat Sample.key
         (snd (sign_transaction_v2 0%nat Sample.key (Sample.heap_of Sample.tx_hello))))
  = inr 0%nat
  /\ forall r,
      snd (sign_transaction_v2 0%nat Sample.key
             (snd (sign_transaction_v2 0%nat Sample.key (Sample.heap_of Sample.tx_hello)))) r
      = snd (sign_transaction_v2 0%nat Sample.key (Sample.heap_of Sample.tx_hello)) r.
Proof.
  apply (sign_transaction_v2_idempotent 0%nat Sample.key
           (Sample.heap_of Sample.tx_hello) 0%nat).
  vm_compute. reflexivity.
Defined.

(** X11. A call that raises has not left the record as it found it, unless
    it was the data field that did not decode: data_root has been replaced
    by the one computed from the data field.  Every other field of the
    record, and every other record, is as before. *)
Theorem sign_transaction_v2_failure_state :
  forall (l : ref) (key : RSA.RSAPrivateKey) (h : heap) (ex : exn),
    fst (sign_transaction_v2 l key h) = inl ex ->
    snd (sign_transaction_v2 l key h) l
    = match new_data_root (h l) with
      | inr root => Tx.set_data_root root (h l)
      | inl _ => h l
      end
    /\ forall r, r <> l -> snd (sign_transaction_v2 l key h) r = h r.
Proof.
  intros l key h ex Hfail.
  destruct (sign_transaction_v2_record l key h) as [Hfst Hsnd].
  rewrite Hfst in Hfail. split.
  - rewrite Hsnd, Nat.eqb_refl.
    destruct (sign_record_outcome (h l) key)
      as [e H1 | root e H1 H2 | root dd e H1 H2 H3 | root dd sg H1 H2 H3];
      try discriminate Hfail; rewrite H1; reflexivity.
  - intros r Hr. rewrite Hsnd. apply Nat.eqb_neq in Hr. now rewrite Hr.
Qed.

Lemma sign_transaction_v2_failure_state_witness :
  snd (sign_transaction_v2 0%nat Sample.small_key (Sample.heap_of Sample.tx_hello)) 0%nat
  = match new_data_root (Sample.heap_of Sample.tx_hello 0%nat) with
    | inr root => Tx.set_data_root root (Sample.heap_of Sample.tx_hello 0%nat)
    | inl _ => Sample.heap_of Sample.tx_hello 0%nat
    end
  /\ forall r, r <> 0%nat ->
       snd (sign_transaction_v2 0%nat Sample.small_key (Sample.heap_of Sample.tx_hello)) r
       = Sample.heap_of Sample.tx_hello r.
Proof.
  apply (sign_transaction_v2_failure_state 0%nat Sample.small_key
           (Sample.heap_of Sample.tx_hello) ValueError).
  vm_compute. reflexivity.
Defined.

(** X12. After a call that returns, the id has 43 characters and the
    signature [(4 * k + 2) / 3] for a key of [k] bytes, all of them
    letters, digits, [-] or [_]; the signature decodes to [k] bytes, which
    read as a number are the encoded message of the deep hash raised to the
    private exponent modulo the modulus, a number below the modulus. *)
Theorem sign_transaction_v2_shapes :
  forall (l : ref) (key : RSA.RSAPrivateKey) (h : heap) (l' : ref),
    fst (sign_transaction_v2 l key h) = inr l' ->
    let tx' := snd (sign_transaction_v2 l key h) l in
    let modulus := RSA.n (RSA.public_numbers (RSA.private_numbers key)) in
    let k := RSA.key_size_bytes modulus in
    String.length (Tx.id tx') = 43%nat
    /\ String.length (Tx.signature tx') = ((4 * k + 2) / 3)%nat
    /\ str_forallb is_urlsafe (Tx.id tx') = true
    /\ str_forallb is_urlsafe (Tx.signature tx') = true
    /\ exists dd sg,
        deep_hash_transaction_v2 tx' = inr dd
        /\ base64url_decode (Tx.signature tx') = inr sg
        /\ List.length sg = k
        /\ int_from_bytes sg
           = (encoded_message k dd ^ RSA.d (RSA.private_numbers key)) mod modulus
        /\ int_from_bytes sg < modulus.
Proof.
  intros l key h l' Hok tx' modulus k.
  destruct (sign_transaction_v2_returns l key h l' Hok)
    as (_ & root & dd & sg & Hroot & Hdd & Hsg & Hrec).
  subst tx'. rewrite Hrec. cbn [Tx.id Tx.signature Tx.set_id Tx.set_signature].
  pose proof (rsa_sign_sha384 key dd) as Hs. cbv zeta in Hs. rewrite Hsg in Hs.
  fold modulus in Hs. fold k in Hs.
  destruct (k <? 78)%nat eqn:Hk; [discriminate|]. injection Hs as Hs.
  apply Nat.ltb_ge in Hk.
  assert (Hmod : modulus <> 0).
  { intros H0. subst k. rewrite H0 in Hk. vm_compute in Hk. lia. }
  assert (Hlen : List.length sg = k) by (rewrite Hs; apply int_to_bytes_length).
  assert (Hval : int_from_bytes sg
                 = (encoded_message k dd ^ RSA.d (RSA.private_numbers key)) mod modulus).
  { rewrite Hs, int_from_to_bytes, pow_mod_spec by exact Hmod.
    apply N.mod_small. unfold encoded_message.
    apply N.lt_trans with modulus; [now apply N.mod_lt | apply key_size_bytes_bound]. }
  split; [rewrite encoded_length, sha256_length; reflexivity|].
  split; [rewrite encoded_length, Hlen; reflexivity|].
  split; [apply encoded_chars_urlsafe|].
  split; [apply encoded_chars_urlsafe|].
  exists dd, sg. split; [rewrite deep_hash_set_id, deep_hash_set_signature; exact Hdd|].
  split; [apply base64url_roundtrip|]. split; [exact Hlen|].
  split; [exact Hval|]. rewrite Hval. now apply N.mod_lt.
Qed.

Lemma sign_transaction_v2_shapes_witness :
  let tx' := snd (sign_transaction_v2 0%nat Sample.key (Sample.heap_of Sample.tx_hello)) 0%nat in
  let modulus := RSA.n (RSA.public_numbers (RSA.private_numbers Sample.key)) in
  let k := RSA.key_size_bytes modulus in
  String.length (Tx.id tx') = 43%nat
  /\ String.length (Tx.signature tx') = ((4 * k + 2) / 3)%nat
  /\ str_forallb is_urlsafe (Tx.id tx') = true
  /\ str_forallb is_urlsafe (Tx.signature tx') = true
  /\ exists dd sg,
      deep_hash_transaction_v2 tx' = inr dd
      /\ base64url_decode (Tx.signature tx') = inr sg
      /\ List.length sg = k
      /\ int_from_bytes sg
         = (encoded_message k dd ^ RSA.d (RSA.private_numbers Sample.key)) mod modulus
      /\ int_from_bytes sg < modulus.
Proof.
  apply (sign_transaction_v2_shapes 0%nat Sample.key (Sample.heap_of Sample.tx_hello) 0%nat).
  vm_compute. reflexivity.
Defined.
(** ** Primes

    The key validation tests the two primes of a key.  For a number
    [k * 2 ^ m + 1] with [k] below [2 ^ m] one modular power settles it. *)

Section Order.
Local Open Scope Z_scope.
Variables (dv b m : Z).
Hypothesis dv_big : 2 < dv.
Hypothesis m_pos : 0 < m.
Hypothesis half_turn : (dv | b ^ (2 ^ (m - 1)) + 1).

Lemma pow_cong_one (x n : Z) : 0 <= n -> (dv | x - 1) -> (dv | x ^ n - 1).
Proof.
  intros Hn Hx. pattern n. apply natlike_ind; [| |exact Hn].
  - rewrite Z.pow_0_r. apply Z.divide_0_r.
  - intros n' Hn' IH. rewrite Z.pow_succ_r by exact Hn'.
    replace (x * x ^ n' - 1) with (x * (x ^ n' - 1) + (x - 1)) by ring.
    apply Z.divide_add_r; [apply Z.divide_mul_r, IH | exact Hx].
Qed.

Lemma pow_cong_minus_one (x u : Z) :
  0 <= u -> (dv | x + 1) -> (dv | x ^ (2 * u + 1) + 1).
Proof.
  intros Hu Hx. pattern u. apply natlike_ind; [| |exact Hu].
  - change (2 * 0 + 1) with 1. now rewrite Z.pow_1_r.
  - intros u' Hu' IH.
    replace (2 * Z.succ u' + 1) with (2 + (2 * u' + 1)) by lia.
    rewrite Z.pow_add_r by lia.
    replace (x ^ 2 * x ^ (2 * u' + 1) + 1)
      with (x ^ 2 * (x ^ (2 * u' + 1) + 1) - (x - 1) * (x + 1)) by ring.
    apply Z.divide_sub_r; [apply Z.divide_mul_r, IH | apply Z.divide_mul_r, Hx].
Qed.

Lemma full_turn : (dv | b ^ (2 ^ m) - 1).
Proof.
  replace m with (1 + (m - 1)) at 1 by lia.
  rewrite Z.pow_add_r, Z.pow_1_r by lia.
  rewrite Z.mul_comm, Z.pow_mul_r by lia.
  replace ((b ^ (2 ^ (m - 1))) ^ 2 - 1)
    with ((b ^ (2 ^ (m - 1)) - 1) * (b ^ (2 ^ (m - 1)) + 1)) by ring.
  apply Z.divide_mul_r, half_turn.
Qed.

Lemma odd_part (e : positive) :
  exists t u : Z, 0 <= t /\ 0 <= u /\ Z.pos e = 2 ^ t * (2 * u + 1).
Proof.
  induction e as [e _ | e (t & u & Ht & Hu & IH) |].
  - exists 0, (Z.pos e). repeat split; lia.
  - exists (Z.succ t), u. repeat split; try lia.
    rewrite Z.pow_succ_r by exact Ht. lia.
  - exists 0, 0. repeat split; lia.
Qed.

Lemma no_early_turn (e : Z) : 0 < e < 2 ^ m -> ~ (dv | b ^ e - 1).
Proof.
  intros [He Hlt] Hone.
  destruct e as [|e|e]; try lia.
  destruct (odd_part e) as (t & u & Ht & Hu & Heq).
  assert (Htm : t < m).
  { apply (Z.pow_lt_mono_r_iff 2); [lia | lia |].
    assert (0 < 2 ^ t) by (apply Z.pow_pos_nonneg; lia). nia. }
  pose proof (pow_cong_one (b ^ Z.pos e) (2 ^ (m - 1 - t))
                ltac:(apply Z.pow_nonneg; lia) Hone) as H1.
  pose proof (pow_cong_minus_one (b ^ (2 ^ (m - 1))) u Hu half_turn) as H2.
  rewrite <- Z.pow_mul_r in H1, H2 by (try apply Z.pow_nonneg; lia).
  replace (Z.pos e * 2 ^ (m - 1 - t)) with (2 ^ (m - 1) * (2 * u + 1)) in H1.
  2:{ rewrite Heq. replace (m - 1) with (t + (m - 1 - t)) at 1 by lia.
      rewrite Z.pow_add_r by lia. ring. }
  assert (H3 : (dv | 2)).
  { replace 2 with ((b ^ (2 ^ (m - 1) * (2 * u + 1)) + 1)
                    - (b ^ (2 ^ (m - 1) * (2 * u + 1)) - 1)) by ring.
    now apply Z.divide_sub_r. }
  apply Z.divide_pos_le in H3; lia.
Qed.

Lemma pow_units (i : Z) : 0 <= i <= 2 ^ m -> ~ (dv | b ^ i).
Proof.
  intros Hi Hz.
  assert (H : (dv | b ^ (2 ^ m))).
  { replace (2 ^ m) with (i + (2 ^ m - i)) by lia.
    rewrite Z.pow_add_r by lia. now apply Z.divide_mul_l. }
  assert (H1 : (dv | 1)).
  { replace 1 with (b ^ (2 ^ m) - (b ^ (2 ^ m) - 1)) by ring.
    apply Z.divide_sub_r; [exact H | exact full_turn]. }
  apply Z.divide_pos_le in H1; lia.
Qed.

Lemma pow_distinct (i j : Z) :
  0 <= i < j -> j < 2 ^ m -> b ^ i mod dv <> b ^ j mod dv.
Proof.
  intros Hij Hj Heq.
  apply (no_early_turn (j - i)); [lia|].
  assert (Hd : (dv | b ^ j - b ^ i)).
  { apply Z.mod_divide; [lia|]. rewrite Zminus_mod, Heq, Z.sub_diag. apply Z.mod_0_l. lia. }
  replace (b ^ (j - i) - 1)
    with ((b ^ j - b ^ i) * b ^ (2 ^ m - i) - (b ^ (2 ^ m) - 1) * (b ^ (j - i) - 1)).
  - apply Z.divide_sub_r; [now apply Z.divide_mul_l | apply Z.divide_mul_l, full_turn].
  - replace (b ^ j) with (b ^ i * b ^ (j - i))
      by (rewrite <- Z.pow_add_r by lia; f_equal; lia).
    replace (b ^ (2 ^ m)) with (b ^ i * b ^ (2 ^ m - i))
      by (rewrite <- Z.pow_add_r by lia; f_equal; lia).
    ring.
Qed.

Lemma NoDup_map_on (A B : Type) (f : A -> B) (l : list A) :
  NoDup l -> (forall x y, In x l -> In y l -> f x = f y -> x = y) -> NoDup (map f l).
Proof.
  induction 1 as [|x l Hx Hl IH]; intros Hinj; cbn [map]; constructor.
  - intros Hin. apply in_map_iff in Hin. destruct Hin as (y & Hy & Hin).
    apply Hx. rewrite <- (Hinj y x); [exact Hin | now right | now left | exact Hy].
  - apply IH. intros a c Ha Hc. apply Hinj; now right.
Qed.

(** A divisor above 2 of [b ^ (2 ^ (m - 1)) + 1] is above [2 ^ m]: the
    [2 ^ m] first powers of [b] are different residues, none of them 0. *)
Lemma divisor_above : 2 ^ m < dv.
Proof.
  assert (Hpow : 0 < 2 ^ m) by (apply Z.pow_pos_nonneg; lia).
  pose (powers := map (fun i : nat => b ^ Z.of_nat i mod dv) (seq 0 (Z.to_nat (2 ^ m)))).
  pose (residues := map Z.of_nat (seq 1 (Z.to_nat (dv - 1)))).
  assert (Hnodup : NoDup powers).
  { apply NoDup_map_on; [apply seq_NoDup|].
    intros x y Hx Hy Heq. apply in_seq in Hx, Hy.
    destruct (Nat.lt_trichotomy x y) as [Hlt | [-> | Hlt]]; [exfalso| reflexivity |exfalso].
    - apply (pow_distinct (Z.of_nat x) (Z.of_nat y)); [lia | lia | exact Heq].
    - apply (pow_distinct (Z.of_nat y) (Z.of_nat x)); [lia | lia | now symmetry]. }
  assert (Hincl : incl powers residues).
  { intros r Hr. apply in_map_iff in Hr. destruct Hr as (i & <- & Hi).
    apply in_seq in Hi. apply in_map_iff.
    pose proof (Z.mod_pos_bound (b ^ Z.of_nat i) dv ltac:(lia)) as Hbound.
    assert (Hnz : b ^ Z.of_nat i mod dv <> 0).
    { intros Hz. apply (pow_units (Z.of_nat i)); [lia|].
      apply Z.mod_divide; [lia | exact Hz]. }
    exists (Z.to_nat (b ^ Z.of_nat i mod dv)). split; [lia|].
    apply in_seq. lia. }
  pose proof (NoDup_incl_length Hnodup Hincl) as Hlen.
  unfold powers, residues in Hlen. rewrite !length_map, !length_seq in Hlen. lia.
Qed.
End Order.

(** Proth's criterion: [k * 2 ^ m + 1] with [k < 2 ^ m] has no divisor
    between 1 and itself when it divides [a ^ (k * 2 ^ (m - 1)) + 1]. *)
Lemma proth_no_divisor (v k m a dv : Z) :
  (0 < m)%Z -> (0 < k < 2 ^ m)%Z -> v = (k * 2 ^ m + 1)%Z ->
  (v | a ^ (k * 2 ^ (m - 1)) + 1)%Z ->
  (2 <= dv < v)%Z -> ~ (dv | v)%Z.
Proof.
  intros Hm Hk Hv Hhalf Hdv [c Hc].
  assert (Hpow : (2 ^ m = 2 * 2 ^ (m - 1))%Z).
  { replace m with (1 + (m - 1))%Z at 1 by lia.
    rewrite Z.pow_add_r by lia. reflexivity. }
  assert (Hhalf' : forall x, (x | v)%Z -> (x | (a ^ k) ^ (2 ^ (m - 1)) + 1)%Z).
  { intros x Hx. rewrite <- Z.pow_mul_r by (try apply Z.pow_nonneg; lia).
    eapply Z.divide_trans; [exact Hx | exact Hhalf]. }
  assert (Hc2 : (2 <= c)%Z) by nia.
  assert (Hodd : (v = 2 * (k * 2 ^ (m - 1)) + 1)%Z) by (rewrite Hv, Hpow; ring).
  assert (Hdv2 : (dv <> 2)%Z) by (intros ->; lia).
  assert (Hc3 : (c <> 2)%Z) by (intros ->; lia).
  clear Hodd.
  assert (Hdv3 : (2 < dv)%Z) by lia.
  assert (Hc4 : (2 < c)%Z) by lia.
  assert (Hc' : v = (dv * c)%Z) by (rewrite Hc; ring).
  pose proof (divisor_above dv (a ^ k) m Hdv3 Hm (Hhalf' dv (ex_intro _ c Hc))) as H1.
  pose proof (divisor_above c (a ^ k) m Hc4 Hm (Hhalf' c (ex_intro _ dv Hc'))) as H2.
  nia.
Qed.

Lemma skipn_N_range (skipped bound : nat) (x : N) :
  In x (skipn skipped (N_range bound)) -> N.of_nat skipped <= x < N.of_nat bound.
Proof.
  unfold N_range. rewrite skipn_map, skipn_seq.
  intros Hin. apply in_map_iff in Hin. destruct Hin as (i & <- & Hi).
  apply in_seq in Hi. lia.
Qed.

Lemma is_prime_intro (v : N) :
  2 <= v -> (forall dv, 2 <= dv < v -> v mod dv <> 0) -> SHA2.is_prime v = true.
Proof.
  intros Hv Hnone. unfold SHA2.is_prime.
  apply andb_true_intro. split; [now apply N.leb_le|].
  apply forallb_forall. intros dv Hdv.
  apply skipn_N_range in Hdv. rewrite N2Nat.id in Hdv.
  apply negb_true_iff, N.eqb_neq, Hnone. exact Hdv.
Qed.

(** A number [k * 2 ^ m + 1] with [k < 2 ^ m] is prime when some [a] raised
    to its half is -1 modulo the number. *)
Lemma is_prime_proth (v k m a : N) :
  0 < m -> 0 < k < 2 ^ m -> v = k * 2 ^ m + 1 ->
  RSA.pow_mod a ((v - 1) / 2) v = v - 1 ->
  SHA2.is_prime v = true.
Proof.
  intros Hm Hk Hv Hpow.
  assert (Hp : 0 < 2 ^ m) by (apply N.neq_0_lt_0, N.pow_nonzero; discriminate).
  assert (Hm2 : 2 ^ m = 2 * 2 ^ (m - 1)).
  { replace m with (N.succ (m - 1)) at 1 by lia. apply N.pow_succ_r'. }
  assert (Hhalf : (v - 1) / 2 = k * 2 ^ (m - 1)).
  { rewrite Hv, N.add_sub, Hm2.
    replace (k * (2 * 2 ^ (m - 1))) with (k * 2 ^ (m - 1) * 2) by lia.
    apply N.div_mul. discriminate. }
  rewrite pow_mod_spec, Hhalf in Hpow by lia.
  apply is_prime_intro; [nia|].
  intros dv Hdv Hmod.
  pose proof (N2Z.inj_pow 2 m) as Em. change (Z.of_N 2) with 2%Z in Em.
  pose proof (N2Z.inj_pow 2 (m - 1)) as Em1. change (Z.of_N 2) with 2%Z in Em1.
  replace (Z.of_N (m - 1)) with (Z.of_N m - 1)%Z in Em1 by lia.
  apply (proth_no_divisor (Z.of_N v) (Z.of_N k) (Z.of_N m) (Z.of_N a) (Z.of_N dv)).
  - lia.
  - rewrite <- Em. lia.
  - rewrite <- Em, Hv, N2Z.inj_add, N2Z.inj_mul. reflexivity.
  - rewrite <- Em1, <- N2Z.inj_mul, <- N2Z.inj_pow.
    exists (Z.of_N (a ^ (k * 2 ^ (m - 1)) / v) + 1)%Z.
    pose proof (N.div_mod (a ^ (k * 2 ^ (m - 1))) v ltac:(lia)) as Hdiv.
    rewrite Hpow in Hdiv. rewrite Hdiv at 1.
    rewrite N2Z.inj_add, N2Z.inj_mul, N2Z.inj_sub by lia.
    change (Z.of_N 1) with 1%Z. ring.
  - lia.
  - exists (Z.of_N (v / dv)).
    pose proof (N.div_mod v dv ltac:(lia)) as Hdiv.
    rewrite Hmod, N.add_0_r in Hdiv. rewrite Hdiv at 1.
    rewrite N2Z.inj_mul. ring.
Qed.

(** ** The key loader: what it returns and what it raises *)

Lemma load_jwk_inv (json_load_file : string -> result pydict) (filepath : string)
    (key : RSA.RSAPrivateKey) (jwk : pydict) :
  load_jwk json_load_file filepath = inr (key, jwk) ->
  json_load_file filepath = inr jwk
  /\ (let k := RSA.private_numbers key in
      jwk_int jwk "n" = inr (RSA.n (RSA.public_numbers k))
      /\ jwk_int jwk "e" = inr (RSA.e (RSA.public_numbers k))
      /\ jwk_int jwk "d" = inr (RSA.d k)
      /\ jwk_int jwk "p" = inr (RSA.p k)
      /\ jwk_int jwk "q" = inr (RSA.q k)
      /\ jwk_int jwk "dp" = inr (RSA.dmp1 k)
      /\ jwk_int jwk "dq" = inr (RSA.dmq1 k)
      /\ jwk_int jwk "qi" = inr (RSA.iqmp k))
  /\ RSA.check_private_key_components (RSA.private_numbers key) = true.
Proof.
  unfold load_jwk.
  destruct (json_load_file filepath) as [ex|jwk0]; cbn [rbind]; [discriminate|].
  destruct (jwk_int jwk0 "n") as [ex|n] eqn:Hn; cbn [rbind]; [discriminate|].
  destruct (jwk_int jwk0 "e") as [ex|e] eqn:He; cbn [rbind]; [discriminate|].
  destruct (jwk_int jwk0 "d") as [ex|d] eqn:Hd; cbn [rbind]; [discriminate|].
  destruct (jwk_int jwk0 "p") as [ex|p] eqn:Hp; cbn [rbind]; [discriminate|].
  destruct (jwk_int jwk0 "q") as [ex|q] eqn:Hq; cbn [rbind]; [discriminate|].
  destruct (jwk_int jwk0 "dp") as [ex|dp] eqn:Hdp; cbn [rbind]; [discriminate|].
  destruct (jwk_int jwk0 "dq") as [ex|dq] eqn:Hdq; cbn [rbind]; [discriminate|].
  destruct (jwk_int jwk0 "qi") as [ex|qi] eqn:Hqi; cbn [rbind]; [discriminate|].
  unfold RSA.private_key.
  destruct (RSA.check_private_key_components _) eqn:Hcheck; cbn [rbind]; [|discriminate].
  destruct (RSA.check_key _); cbn [rbind]; [|discriminate].
  destruct (N.odd _ && N.odd _); cbn [rbind]; [|discriminate].
  intros [= <- <-].
  cbn [RSA.private_numbers RSA.n RSA.e RSA.d RSA.p RSA.q RSA.dmp1 RSA.dmq1 RSA.iqmp
       RSA.public_numbers].
  repeat split; assumption.
Qed.

(** A key whose numbers pass every check is built. *)
Lemma private_key_returns (k : RSA.RSAPrivateNumbers) :
  RSA.check_private_key_components k = true ->
  RSA.check_key_relations k = true ->
  SHA2.is_prime (RSA.p k) = true -> SHA2.is_prime (RSA.q k) = true ->
  N.odd (RSA.p k) = true -> N.odd (RSA.q k) = true ->
  RSA.private_key k = inr (RSA.PrivateKey k).
Proof.
  intros Hcomponents Hrelations Hp Hq Hoddp Hoddq.
  unfold RSA.private_key, RSA.check_key, RSA.BN_check_prime.
  rewrite Hcomponents, Hrelations, Hp, Hq, Hoddp, Hoddq. reflexivity.
Qed.

(** The two primes of the sample key are prime: 3 raised to the half of
    each is -1 modulo the prime. *)
Lemma sample_p_prime : SHA2.is_prime (RSA.p SampleRun.numbers) = true.
Proof.
  apply (is_prime_proth _ SampleRun.p_factor SampleRun.prime_shift 3).
  - reflexivity.
  - split; reflexivity.
  - vm_compute. reflexivity.
  - vm_compute. reflexivity.
Qed.

Lemma sample_q_prime : SHA2.is_prime (RSA.q SampleRun.numbers) = true.
Proof.
  apply (is_prime_proth _ SampleRun.q_factor SampleRun.prime_shift 3).
  - reflexivity.
  - split; reflexivity.
  - vm_compute. reflexivity.
  - vm_compute. reflexivity.
Qed.

(** The sample key file loads, to the sample key. *)
Lemma sample_key_file_loads :
  load_jwk SampleRun.key_file "arweave-key.json" = inr (SampleRun.key, SampleRun.jwk).
Proof.
  unfold load_jwk.
  replace (SampleRun.key_file "arweave-key.json") with (@inr exn pydict SampleRun.jwk)
    by reflexivity.
  cbn [rbind].
  replace (jwk_int SampleRun.jwk "n")
    with (@inr exn N (RSA.n (RSA.public_numbers SampleRun.numbers)))
    by (vm_compute; reflexivity).
  replace (jwk_int SampleRun.jwk "e")
    with (@inr exn N (RSA.e (RSA.public_numbers SampleRun.numbers)))
    by (vm_compute; reflexivity).
  replace (jwk_int SampleRun.jwk "d") with (@inr exn N (RSA.d SampleRun.numbers))
    by (vm_compute; reflexivity).
  replace (jwk_int SampleRun.jwk "p") with (@inr exn N (RSA.p SampleRun.numbers))
    by (vm_compute; reflexivity).
  replace (jwk_int SampleRun.jwk "q") with (@inr exn N (RSA.q SampleRun.numbers))
    by (vm_compute; reflexivity).
  replace (jwk_int SampleRun.jwk "dp") with (@inr exn N (RSA.dmp1 SampleRun.numbers))
    by (vm_compute; reflexivity).
  replace (jwk_int SampleRun.jwk "dq") with (@inr exn N (RSA.dmq1 SampleRun.numbers))
    by (vm_compute; reflexivity).
  replace (jwk_int SampleRun.jwk "qi") with (@inr exn N (RSA.iqmp SampleRun.numbers))
    by (vm_compute; reflexivity).
  cbn [rbind].
  rewrite private_key_returns.
  - reflexivity.
  - vm_compute. reflexivity.
  - vm_compute. reflexivity.
  - exact sample_p_prime.
  - exact sample_q_prime.
  - reflexivity.
  - reflexivity.
Qed.

(** X13. Every key [load_jwk] returns is built from the eight numbers of
    the file it read, and these numbers are consistent: the modulus is the
    product of the two primes, every private number is below the modulus,
    and the public exponent and the two CRT exponents are odd.  The dict it
    returns with the key is the one it read. *)
Theorem load_jwk_returns_consistent_key :
  forall (json_load_file : string -> result pydict) (filepath : string)
         (key : RSA.RSAPrivateKey) (jwk : pydict),
    load_jwk json_load_file filepath = inr (key, jwk) ->
    json_load_file filepath = inr jwk
    /\ map (jwk_int jwk) jwk_fields
       = map inr [ RSA.n (RSA.public_numbers (RSA.private_numbers key));
                   RSA.e (RSA.public_numbers (RSA.private_numbers key));
                   RSA.d (RSA.private_numbers key);
                   RSA.p (RSA.private_numbers key);
                   RSA.q (RSA.private_numbers key);
                   RSA.dmp1 (RSA.private_numbers key);
                   RSA.dmq1 (RSA.private_numbers key);
                   RSA.iqmp (RSA.private_numbers key) ]
    /\ consistent (RSA.private_numbers key).
Proof.
  intros json_load_file filepath key jwk Hload.
  destruct (load_jwk_inv _ _ _ _ Hload)
    as (Hfile & (Hn & He & Hd & Hp & Hq & Hdp & Hdq & Hqi) & Hcheck).
  split; [exact Hfile|]. split.
  - cbn [map jwk_fields]. now rewrite Hn, He, Hd, Hp, Hq, Hdp, Hdq, Hqi.
  - unfold RSA.check_private_key_components in Hcheck.
    repeat (apply andb_prop in Hcheck; destruct Hcheck as [Hcheck ?]).
    unfold consistent. cbv zeta.
    repeat match goal with
           | H : (_ <=? _) = true |- _ => apply N.leb_le in H
           | H : (_ <? _) = true |- _ => apply N.ltb_lt in H
           | H : (_ =? _) = true |- _ => apply N.eqb_eq in H
           end.
    repeat split; assumption.
Qed.

Lemma load_jwk_returns_consistent_key_witness :
  SampleRun.key_file "arweave-key.json" = inr SampleRun.jwk
  /\ map (jwk_int SampleRun.jwk) jwk_fields
     = map inr [ RSA.n (RSA.public_numbers (RSA.private_numbers SampleRun.key));
                 RSA.e (RSA.public_numbers (RSA.private_numbers SampleRun.key));
                 RSA.d (RSA.private_numbers SampleRun.key);
                 RSA.p (RSA.private_numbers SampleRun.key);
                 RSA.q (RSA.private_numbers SampleRun.key);
                 RSA.dmp1 (RSA.private_numbers SampleRun.key);
                 RSA.dmq1 (RSA.private_numbers SampleRun.key);
                 RSA.iqmp (RSA.private_numbers SampleRun.key) ]
  /\ consistent (RSA.private_numbers SampleRun.key).
Proof.
  apply (load_jwk_returns_consistent_key SampleRun.key_file "arweave-key.json"
           SampleRun.key SampleRun.jwk).
  exact sample_key_file_loads.
Defined.

Lemma dict_get_missing (d : pydict) (key : string) :
  (forall v, ~ In (key, v) d) -> dict_get d key = inl (KeyError key).
Proof.
  induction d as [|[k v] d IH]; intros Hnot; cbn [dict_get]; [reflexivity|].
  destruct (String.eqb k key) eqn:E.
  - apply String.eqb_eq in E. subst k. exfalso. apply (Hnot v). now left.
  - apply IH. intros v' Hin. apply (Hnot v'). now right.
Qed.

(** X14. [load_jwk] reads the fields n, e, d, p, q, dp, dq, qi in this
    order and raises what the first field that cannot be read raises: a
    [KeyError] naming the field when the file has no such field, the
    decoder's exception when its text does not decode. *)
Theorem load_jwk_first_unreadable_field :
  forall (json_load_file : string -> result pydict) (filepath : string)
         (jwk : pydict) (before after : list string) (name : string) (ex : exn),
    json_load_file filepath = inr jwk ->
    jwk_fields = before ++ name :: after ->
    Forall (fun field => returns (jwk_int jwk field) = true) before ->
    jwk_int jwk name = inl ex ->
    load_jwk json_load_file filepath = inl ex
    /\ ((forall v, ~ In (name, v) jwk) -> ex = KeyError name).
Proof.
  intros json_load_file filepath jwk before after name ex Hfile Hfields Hbefore Hname.
  split.
  - unfold load_jwk. rewrite Hfile. cbn [rbind].
    unfold jwk_fields in Hfields.
    repeat (destruct before as [|? before];
            [ injection Hfields as <- _; rewrite Hname; reflexivity
            | injection Hfields as <- Hfields;
              apply Forall_cons_iff in Hbefore; destruct Hbefore as [Hok Hbefore];
              match type of Hok with
              | returns (jwk_int jwk ?f) = true =>
                  destruct (jwk_int jwk f); [discriminate Hok|]; cbn [rbind]
              end; clear Hok ]).
    destruct before; cbn [app] in Hfields; discriminate Hfields.
  - intros Hmissing. unfold jwk_int in Hname.
    rewrite (dict_get_missing jwk name Hmissing) in Hname.
    cbn [rbind] in Hname. now injection Hname.
Qed.

Lemma load_jwk_first_unreadable_field_witness :
  load_jwk (fun _ => inr SampleRun.jwk_without_n) "arweave-key.json" = inl (KeyError "n")
  /\ ((forall v, ~ In ("n"%string, v) SampleRun.jwk_without_n) -> KeyError "n" = KeyError "n").
Proof.
  apply (load_jwk_first_unreadable_field (fun _ => inr SampleRun.jwk_without_n)
           "arweave-key.json" SampleRun.jwk_without_n [] ["e"; "d"; "p"; "q"; "dp"; "dq"; "qi"]%string "n").
  - reflexivity.
  - reflexivity.
  - constructor.
  - vm_compute. reflexivity.
Defined.

(** ** The node queries: what they return from an answer *)

Lemma lstrip_by_first (f : ascii -> bool) (s : string) :
  match str_first (lstrip_by f s) with
  | Some c => f c = false
  | None => True
  end.
Proof.
  induction s as [|c s IH]; cbn [lstrip_by]; [exact I|].
  destruct (f c) eqn:Hc; [exact IH | exact Hc].
Qed.

Lemma rstrip_by_cons (f : ascii -> bool) (c : ascii) (s : string) :
  f c = false -> rstrip_by f (String c s) = String c (rstrip_by f s).
Proof.
  intros Hc. cbn [rstrip_by]. rewrite Hc. now destruct (rstrip_by f s).
Qed.

Lemma rstrip_by_last (f : ascii -> bool) (s : string) :
  match str_last (rstrip_by f s) with
  | Some c => f c = false
  | None => True
  end.
Proof.
  induction s as [|c s IH]; cbn [rstrip_by]; [exact I|].
  destruct (rstrip_by f s) as [|c' r].
  - destruct (f c) eqn:Hc; [exact I | exact Hc].
  - exact IH.
Qed.

Lemma rstrip_by_step (f : ascii -> bool) (c : ascii) (s : string) :
  rstrip_by f (String c s)
  = match rstrip_by f s with
    | EmptyString => if f c then EmptyString else String c EmptyString
    | String c' r => String c (String c' r)
    end.
Proof. reflexivity. Qed.

Lemma rstrip_by_fixed (f : ascii -> bool) (s : string) :
  match str_last s with
  | Some c => f c = false
  | None => True
  end ->
  rstrip_by f s = s.
Proof.
  induction s as [|c s IH]; [reflexivity|].
  destruct s as [|c' s'].
  - cbn. intros Hc. now rewrite Hc.
  - intros Hlast. rewrite rstrip_by_step, (IH Hlast). reflexivity.
Qed.

Lemma lstrip_by_fixed (f : ascii -> bool) (s : string) :
  match str_first s with
  | Some c => f c = false
  | None => True
  end ->
  lstrip_by f s = s.
Proof.
  destruct s as [|c s]; [reflexivity|]. cbn. intros Hc. now rewrite Hc.
Qed.

Lemma strip_trimmed (s : string) : trimmed (strip s).
Proof.
  unfold trimmed, strip. split; [|apply rstrip_by_last].
  pose proof (lstrip_by_first isspace s) as Hfirst.
  destruct (lstrip_by isspace s) as [|c t]; [exact I|].
  cbn [str_first] in Hfirst. rewrite rstrip_by_cons by exact Hfirst. exact Hfirst.
Qed.

Lemma strip_fixed (s : string) : trimmed s -> strip s = s.
Proof.
  intros [Hfirst Hlast]. unfold strip.
  rewrite lstrip_by_fixed by exact Hfirst. now apply rstrip_by_fixed.
Qed.

(** X15. From an answer with status 200, [get_anchor] and [get_price]
    return its text without the white space around it: what they return is
    the text itself when it has none at either end, and has none at either
    end in any case. *)
Theorem fetchers_on_success :
  forall (requests_get : string -> result Response) (node_url : string) (size : Z)
         (r_anchor r_price : Response),
    requests_get (node_url ++ "/tx_anchor")%string = inr r_anchor ->
    status_code r_anchor = 200%Z ->
    requests_get (node_url ++ "/price/" ++ str_of_int size)%string = inr r_price ->
    status_code r_price = 200%Z ->
    exists anchor fee : string,
      get_anchor requests_get node_url = inr anchor
      /\ get_price requests_get node_url size = inr fee
      /\ trimmed anchor /\ trimmed fee
      /\ (trimmed (text r_anchor) -> anchor = text r_anchor)
      /\ (trimmed (text r_price) -> fee = text r_price).
Proof.
  intros requests_get node_url size r_anchor r_price Ha Hsa Hp Hsp.
  exists (strip (text r_anchor)), (strip (text r_price)).
  unfold get_anchor, get_price. rewrite Ha, Hp. cbn [rbind].
  rewrite Hsa, Hsp. cbn [Z.eqb Pos.eqb].
  repeat split; try apply strip_trimmed; intros [H1 H2]; apply strip_fixed; now split.
Qed.

Lemma fetchers_on_success_witness :
  exists anchor fee : string,
    get_anchor SampleRun.node "http://localhost:1984" = inr anchor
    /\ get_price SampleRun.node "http://localhost:1984" 39 = inr fee
    /\ trimmed anchor /\ trimmed fee
    /\ (trimmed (String "a" (String "b" (String "c" (String "010" EmptyString))))
        -> anchor = String "a" (String "b" (String "c" (String "010" EmptyString))))
    /\ (trimmed (String "1" (String "0" (String "0" (String "010" EmptyString))))
        -> fee = String "1" (String "0" (String "0" (String "010" EmptyString)))).
Proof.
  apply (fetchers_on_success SampleRun.node "http://localhost:1984" 39%Z
           {| status_code := 200; text := String "a" (String "b" (String "c" (String "010" EmptyString))) |}
           {| status_code := 200; text := String "1" (String "0" (String "0" (String "010" EmptyString))) |});
    vm_compute; reflexivity.
Defined.

(** ** The program *)

Ltac run_IO :=
  cbv beta iota zeta delta
    [main io_bind io_lift io_ret io_heap print new_dict post_transaction
     fst snd objects next_ref stdout posted].

Lemma inl_inj (A B : Type) (x y : A) : @inl A B x = inl y -> x = y.
Proof. intros H. now injection H. Qed.

Lemma inr_inj (A B : Type) (x y : B) : @inr A B x = inr y -> x = y.
Proof. intros H. now injection H. Qed.

Lemma new_data_root_built (anchor jwk_n reward : string) (payload : bytes) :
  payload <> [] ->
  new_data_root (main_tx_fields anchor jwk_n reward payload)
  = inr (base64url_encode (sha256 payload)).
Proof.
  intros Hne. unfold new_data_root, main_tx_fields. cbn [Tx.data].
  rewrite truthy_base64url_encode, base64url_roundtrip.
  destruct payload; [contradiction | reflexivity].
Qed.

(** The signing step of [main]: other dicts are left alone, and when it
    returns the dict is the signed record of [main]. *)
Lemma sign_built_record (l : ref) (key : RSA.RSAPrivateKey) (h1 h2 : heap)
    (anchor jwk_n reward : string) (payload : bytes) (r : result ref) :
  payload <> [] ->
  h1 l = main_tx_fields anchor jwk_n reward payload ->
  sign_transaction_v2 l key h1 = (r, h2) ->
  (forall r', r' <> l -> h2 r' = h1 r')
  /\ match r with
     | inl _ => True
     | inr l' =>
         l' = l /\ signed_by key (h2 l)
         /\ built_record anchor jwk_n reward payload (h2 l)
     end.
Proof.
  intros Hne Hrec Hsign.
  pose proof (f_equal fst Hsign) as Hfst. pose proof (f_equal snd Hsign) as Hsnd.
  cbn [fst snd] in Hfst, Hsnd. subst h2.
  destruct (sign_transaction_v2_record l key h1) as [_ Hframe].
  split.
  - intros r' Hr'. rewrite Hframe. apply Nat.eqb_neq in Hr'. now rewrite Hr'.
  - destruct r as [ex|l']; [exact I|].
    destruct (sign_transaction_v2_returns l key h1 l' Hfst)
      as (Hl & root & dd & sg & Hroot & Hdd & Hsg & Hfinal).
    split; [exact Hl|]. rewrite Hfinal. split.
    + eapply signed_record_signed_by; eassumption.
    + rewrite Hrec, new_data_root_built in Hroot by exact Hne.
      apply inr_inj in Hroot. subst root.
      rewrite Hrec. unfold built_record, main_tx_fields.
      cbn [Tx.format Tx.last_tx Tx.owner Tx.tags Tx.target Tx.quantity Tx.data
           Tx.reward Tx.data_size Tx.data_root Tx.set_id Tx.set_signature
           Tx.set_data_root].
      repeat split.
Qed.

Lemma main_payload_facts :
  main_payload <> [] /\ Z.of_nat (List.length main_payload) = 39%Z.
Proof. split; [vm_compute; discriminate | vm_compute; reflexivity]. Qed.

Lemma loaded_owner (json_load_file : string -> result pydict) (filepath : string)
    (key : RSA.RSAPrivateKey) (jwk : pydict) (jwk_n : string) :
  load_jwk json_load_file filepath = inr (key, jwk) ->
  dict_get jwk "n" = inr jwk_n ->
  exists owner_bytes,
    base64url_decode jwk_n = inr owner_bytes
    /\ int_from_bytes owner_bytes = RSA.n (RSA.public_numbers (RSA.private_numbers key)).
Proof.
  intros Hload Hn.
  destruct (load_jwk_inv _ _ _ _ Hload) as (_ & (Hint & _) & _).
  unfold jwk_int in Hint. rewrite Hn in Hint. cbn [rbind] in Hint.
  destruct (base64url_decode jwk_n) as [ex|ob]; cbn [rbind] in Hint; [discriminate|].
  exists ob. split; [reflexivity|]. now injection Hint.
Qed.

(** X16. When the key file cannot be loaded, or the node cannot be reached
    for the anchor or for the fee, [main] raises what the failing call
    raised and has done nothing else: no line printed, no dict built,
    nothing posted. *)
Theorem main_stops_before_building :
  forall (json_load_file : string -> result pydict)
         (requests_get : string -> result Response)
         (requests_post : string -> Tx.tx_fields -> result Response)
         (w : world) (ex : exn),
    (load_jwk json_load_file "arweave-key.json" = inl ex
     \/ (returns (load_jwk json_load_file "arweave-key.json") = true
         /\ (get_anchor requests_get "http://localhost:1984" = inl ex
             \/ (returns (get_anchor requests_get "http://localhost:1984") = true
                 /\ get_price requests_get "http://localhost:1984" 39 = inl ex)))) ->
    main json_load_file requests_get requests_post w = (inl ex, w).
Proof.
  intros json_load_file requests_get requests_post w ex Hfail.
  unfold main. change (bytes_literal "Hello from single-chunk v2 transaction!")
    with main_payload.
  rewrite (proj2 main_payload_facts). generalize main_payload. intros payload.
  run_IO.
  destruct (load_jwk json_load_file "arweave-key.json") as [e0|[key jwk]].
  - destruct Hfail as [Hl | [Hr _]]; [apply inl_inj in Hl; now subst | discriminate Hr].
  - destruct Hfail as [Hl | [_ Hfail]]; [discriminate Hl|].
    destruct (get_anchor requests_get "http://localhost:1984") as [e1|anchor].
    + destruct Hfail as [Ha | [Hr _]]; [apply inl_inj in Ha; now subst | discriminate Hr].
    + destruct Hfail as [Ha | [_ Hp]]; [discriminate Ha|].
      rewrite Hp. reflexivity.
Qed.

Lemma main_stops_before_building_witness :
  main (fun _ => inr Sample.jwk_inconsistent) SampleRun.node SampleRun.accept
    SampleRun.empty_world
  = (inl ValueError, SampleRun.empty_world).
Proof.
  apply (main_stops_before_building (fun _ => inr Sample.jwk_inconsistent)
           SampleRun.node SampleRun.accept SampleRun.empty_world ValueError).
  left. vm_compute. reflexivity.
Defined.

Lemma io_bind_lift (A B : Type) (r : result A) (k : A -> IO B) (w : world) :
  io_bind (io_lift r) k w
  = match r with
    | inl ex => (inl ex, w)
    | inr a => k a w
    end.
Proof. unfold io_bind, io_lift. now destruct r. Qed.

Lemma io_bind_print (B : Type) (line : string) (k : unit -> IO B) (w : world) :
  io_bind (print line) k w
  = k tt (World (objects w) (next_ref w) (stdout w ++ [line]) (posted w)).
Proof. reflexivity. Qed.

Lemma io_bind_ret (A B : Type) (a : A) (k : A -> IO B) (w : world) :
  io_bind (io_ret a) k w = k a w.
Proof. reflexivity. Qed.

Ltac run_tail :=
  cbv beta iota zeta delta
    [io_bind io_lift io_ret io_heap print new_dict post_transaction deref
     objects next_ref stdout posted].

Ltac run_tail_in H :=
  cbv beta iota zeta delta
    [io_bind io_lift io_ret io_heap print new_dict post_transaction deref
     objects next_ref stdout posted] in H.

Section MainTail.
Variable requests_post : string -> Tx.tx_fields -> result Response.
Variables (key : RSA.RSAPrivateKey) (jwk : pydict).
Variables (anchor reward : string) (payload : bytes).
Hypothesis payload_nonempty : payload <> [].

(** What [main] does once it has the key, the anchor and the fee. *)
Let tail : IO unit :=
  (jwk_n <- io_lift (dict_get jwk "n") ;;
   tx_fields <- new_dict (main_tx_fields anchor jwk_n reward payload) ;;
   tx_fields <- io_heap (sign_transaction_v2 tx_fields key) ;;
   resp <- post_transaction requests_post "http://localhost:1984" tx_fields ;;
   print ("POST /tx status: " ++ str_of_int (status_code resp)) ;;
   print ("POST /tx text: " ++ text resp) ;;
   tx <- io_heap (deref tx_fields) ;;
   if ((status_code resp =? 200) || (status_code resp =? 202))%Z
   then print ("Transaction posted successfully. TxID: " ++ Tx.id tx)
   else print "Transaction might have failed. Check node logs/responses.")%IO.

Lemma main_tail_safe (w : world) :
  (forall r, r <> next_ref w -> objects (snd (tail w)) r = objects w r)
  /\ (exists lines, stdout (snd (tail w)) = stdout w ++ lines)
  /\ (posted (snd (tail w)) = posted w
      \/ exists jwk_n tx,
          dict_get jwk "n" = inr jwk_n
          /\ posted (snd (tail w)) = posted w ++ [("http://localhost:1984/tx"%string, tx)]
          /\ signed_by key tx
          /\ built_record anchor jwk_n reward payload tx).
Proof.
  destruct w as [objs nr out ps]. cbn [objects next_ref stdout posted].
  remember (tail (World objs nr out ps)) as res eqn:Hres.
  unfold tail in Hres. run_tail_in Hres. revert Hres.
  destruct (dict_get jwk "n") as [e3|jwk_n] eqn:Hn.
  { intros ->. cbn [snd]. run_tail. repeat split;
      [exists []; now rewrite app_nil_r | now left]. }
  set (h1 := fun r : ref => if Nat.eqb r nr
                            then main_tx_fields anchor jwk_n reward payload
                            else objs r).
  assert (Hh1 : h1 nr = main_tx_fields anchor jwk_n reward payload)
    by (unfold h1; now rewrite Nat.eqb_refl).
  destruct (sign_transaction_v2 nr key h1) as [r h] eqn:Hsign.
  destruct (sign_built_record nr key h1 h anchor jwk_n reward payload r
              payload_nonempty Hh1 Hsign) as [Hframe Hsigned].
  assert (Hobj : forall r0, r0 <> nr -> h r0 = objs r0).
  { intros r0 Hr0. rewrite (Hframe r0 Hr0). unfold h1.
    apply Nat.eqb_neq in Hr0. now rewrite Hr0. }
  destruct r as [e4|tx_fields].
  { intros ->. cbn [snd]. run_tail. repeat split;
      [exact Hobj | exists []; now rewrite app_nil_r | now left]. }
  destruct Hsigned as (-> & Hsigned & Hbuilt).
  cbv beta iota zeta.
  destruct (requests_post _ _) as [e5|resp].
  - intros ->. cbn [snd]. run_tail.
    split; [exact Hobj|]. split; [exists []; now rewrite app_nil_r|].
    right. exists jwk_n, (h nr).
    split; [reflexivity|]. split; [reflexivity|]. split; assumption.
  - destruct ((status_code resp =? 200) || (status_code resp =? 202))%Z;
      intros ->; cbn [snd]; run_tail;
      (split; [exact Hobj|]; split;
       [eexists; rewrite <- !app_assoc; reflexivity|];
       right; exists jwk_n, (h nr);
       split; [reflexivity|]; split; [reflexivity|]; split; assumption).
Qed.

Lemma main_tail_returns (w : world) (jwk_n : string) (resp : Response) :
  dict_get jwk "n" = inr jwk_n ->
  decodable (main_tx_fields anchor jwk_n reward payload) = true ->
  (78 <= RSA.key_size_bytes (RSA.n (RSA.public_numbers (RSA.private_numbers key))))%nat ->
  (forall body, requests_post "http://localhost:1984/tx"%string body = inr resp) ->
  exists tx,
    fst (tail w) = inr tt
    /\ objects (snd (tail w)) (next_ref w) = tx
    /\ next_ref (snd (tail w)) = S (next_ref w)
    /\ stdout (snd (tail w)) = stdout w ++ report resp tx
    /\ posted (snd (tail w)) = posted w ++ [("http://localhost:1984/tx"%string, tx)]
    /\ signed_by key tx
    /\ built_record anchor jwk_n reward payload tx.
Proof.
  intros Hn Hdec Hkey Hpost.
  destruct w as [objs nr out ps]. cbn [objects next_ref stdout posted].
  remember (tail (World objs nr out ps)) as res eqn:Hres.
  unfold tail in Hres. run_tail_in Hres. revert Hres. rewrite Hn. cbv beta iota zeta.
  set (h1 := fun r : ref => if Nat.eqb r nr
                            then main_tx_fields anchor jwk_n reward payload
                            else objs r).
  assert (Hh1 : h1 nr = main_tx_fields anchor jwk_n reward payload)
    by (unfold h1; now rewrite Nat.eqb_refl).
  destruct (sign_transaction_v2 nr key h1) as [r h] eqn:Hsign.
  destruct (sign_built_record nr key h1 h anchor jwk_n reward payload r
              payload_nonempty Hh1 Hsign) as [_ Hsigned].
  assert (Hr : r = inr nr).
  { destruct (sign_transaction_v2_record nr key h1) as [Hfst _].
    rewrite Hsign in Hfst. cbn [fst] in Hfst. rewrite Hfst, Hh1.
    destruct (decodable_signs _ key Hdec Hkey) as (root & dd & sg & Hroot & Hdd & Hsg).
    unfold sign_record. rewrite Hroot. cbv zeta. rewrite Hdd, Hsg. reflexivity. }
  subst r. destruct Hsigned as (_ & Hsigned & Hbuilt).
  cbv beta iota zeta.
  change ("http://localhost:1984" ++ "/tx")%string with "http://localhost:1984/tx"%string.
  rewrite Hpost. cbv beta iota zeta.
  unfold report.
  destruct ((status_code resp =? 200) || (status_code resp =? 202))%Z;
    intros ->; exists (h nr); cbn [fst snd]; run_tail;
    (split; [reflexivity|]; split; [reflexivity|]; split; [reflexivity|];
     split; [rewrite <- !app_assoc; reflexivity|];
     split; [reflexivity|]; split; assumption).
Qed.
End MainTail.

(** X17. Whatever the key file and the node answer, [main] posts at most
    once, to the /tx path of the node, and what it posts is the record it
    built for its payload, signed with the key it loaded: the owner is the
    modulus text of the key file and decodes to the modulus of that key, the
    anchor and the fee are what the node returned.  It writes to no dict but
    the one it builds, and only adds to what was printed. *)
Theorem main_posts_signed_only :
  forall (json_load_file : string -> result pydict)
         (requests_get : string -> result Response)
         (requests_post : string -> Tx.tx_fields -> result Response)
         (w : world),
    (forall r, r <> next_ref w ->
               objects (snd (main json_load_file requests_get requests_post w)) r
               = objects w r)
    /\ (exists lines,
          stdout (snd (main json_load_file requests_get requests_post w))
          = stdout w ++ lines)
    /\ (posted (snd (main json_load_file requests_get requests_post w)) = posted w
        \/ exists key jwk anchor reward jwk_n tx,
            load_jwk json_load_file "arweave-key.json" = inr (key, jwk)
            /\ get_anchor requests_get "http://localhost:1984" = inr anchor
            /\ get_price requests_get "http://localhost:1984" 39 = inr reward
            /\ dict_get jwk "n" = inr jwk_n
            /\ posted (snd (main json_load_file requests_get requests_post w))
               = posted w ++ [("http://localhost:1984/tx"%string, tx)]
            /\ signed_by key tx
            /\ built_record anchor jwk_n reward main_payload tx
            /\ exists owner_bytes,
                base64url_decode (Tx.owner tx) = inr owner_bytes
                /\ int_from_bytes owner_bytes
                   = RSA.n (RSA.public_numbers (RSA.private_numbers key))).
Proof.
  intros json_load_file requests_get requests_post w.
  unfold main. cbv zeta.
  change (bytes_literal "Hello from single-chunk v2 transaction!") with main_payload.
  rewrite (proj2 main_payload_facts).
  pose proof (proj1 main_payload_facts) as Hne. revert Hne.
  generalize main_payload. intros payload Hne.
  rewrite io_bind_lift.
  destruct (load_jwk json_load_file "arweave-key.json") as [e0|[key jwk]] eqn:Hload;
    [cbn [snd]; repeat split; [exists []; now rewrite app_nil_r | now left]|].
  cbn [fst snd]. rewrite io_bind_lift.
  destruct (get_anchor requests_get "http://localhost:1984") as [e1|anchor] eqn:Hanchor;
    [cbn [snd]; repeat split; [exists []; now rewrite app_nil_r | now left]|].
  rewrite io_bind_lift.
  destruct (get_price requests_get "http://localhost:1984" 39) as [e2|reward] eqn:Hprice;
    [cbn [snd]; repeat split; [exists []; now rewrite app_nil_r | now left]|].
  assert (Hkeep : forall w1 : world,
             objects w1 = objects w -> next_ref w1 = next_ref w ->
             posted w1 = posted w -> (exists lines, stdout w1 = stdout w ++ lines) ->
             forall res,
               res = snd ((jwk_n <- io_lift (dict_get jwk "n") ;;
                           tx_fields <- new_dict (main_tx_fields anchor jwk_n reward payload) ;;
                           tx_fields <- io_heap (sign_transaction_v2 tx_fields key) ;;
                           resp <- post_transaction requests_post "http://localhost:1984" tx_fields ;;
                           print ("POST /tx status: " ++ str_of_int (status_code resp)) ;;
                           print ("POST /tx text: " ++ text resp) ;;
                           tx <- io_heap (deref tx_fields) ;;
                           if ((status_code resp =? 200) || (status_code resp =? 202))%Z
                           then print ("Transaction posted successfully. TxID: " ++ Tx.id tx)
                           else print "Transaction might have failed. Check node logs/responses.")%IO
                            w1) ->
               (forall r, r <> next_ref w -> objects res r = objects w r)
               /\ (exists lines, stdout res = stdout w ++ lines)
               /\ (posted res = posted w
                   \/ exists key0 jwk0 anchor0 reward0 jwk_n tx,
                       @inr exn _ (key, jwk) = inr (key0, jwk0)
                       /\ @inr exn _ anchor = inr anchor0
                       /\ @inr exn _ reward = inr reward0
                       /\ dict_get jwk0 "n" = inr jwk_n
                       /\ posted res = posted w ++ [("http://localhost:1984/tx"%string, tx)]
                       /\ signed_by key0 tx
                       /\ built_record anchor0 jwk_n reward0 payload tx
                       /\ exists owner_bytes,
                           base64url_decode (Tx.owner tx) = inr owner_bytes
                           /\ int_from_bytes owner_bytes
                              = RSA.n (RSA.public_numbers (RSA.private_numbers key0)))).
  { intros w1 Ho Hnx Hp (lines0 & Hs) res ->.
    destruct (main_tail_safe requests_post key jwk anchor reward payload Hne w1)
      as (H1 & (lines & H2) & H3).
    rewrite Hnx, Ho in H1. rewrite Hs in H2. rewrite Hp in H3.
    split; [exact H1|]. split.
    - exists (lines0 ++ lines). rewrite H2. symmetry; apply app_assoc.
    - destruct H3 as [H3 | (jwk_n & tx & Hn & H3 & Hsigned & Hbuilt)]; [now left | right].
      exists key, jwk, anchor, reward, jwk_n, tx.
      split; [reflexivity|]. split; [reflexivity|]. split; [reflexivity|].
      split; [exact Hn|]. split; [exact H3|]. split; [exact Hsigned|].
      split; [exact Hbuilt|].
      destruct Hbuilt as (_ & _ & Howner & _). rewrite Howner.
        eapply loaded_owner; eassumption. }
  destruct (String.eqb reward "0").
  - rewrite io_bind_print.
    refine (Hkeep (World (objects w) (next_ref w)
                     (stdout w ++ ["Warning: Reward=0, might be invalid on a real node."%string])
                     (posted w))
                  eq_refl eq_refl eq_refl _ _ eq_refl).
    cbn [stdout]. eexists. reflexivity.
  - rewrite io_bind_ret.
    refine (Hkeep w eq_refl eq_refl eq_refl _ _ eq_refl).
    exists []. now rewrite app_nil_r.
Qed.

Lemma loaded_modulus_text (json_load_file : string -> result pydict) (filepath : string)
    (key : RSA.RSAPrivateKey) (jwk : pydict) :
  load_jwk json_load_file filepath = inr (key, jwk) ->
  exists jwk_n, dict_get jwk "n" = inr jwk_n.
Proof.
  intros Hload.
  destruct (load_jwk_inv _ _ _ _ Hload) as (_ & (Hint & _) & _).
  unfold jwk_int in Hint.
  destruct (dict_get jwk "n") as [ex|jwk_n]; [discriminate Hint|].
  now exists jwk_n.
Qed.

(** X18. With a key file that loads to a key of at least 78 bytes, an
    anchor that is empty or decodes, a fee, and a node that answers the
    post, [main] returns normally: it posts once, the signed record it
    built, leaves that record in the new dict, and prints the warning
    exactly for a fee of "0", then the status, the text and the line for
    the status of the node's answer. *)
Theorem main_posts_and_reports :
  forall (json_load_file : string -> result pydict)
         (requests_get : string -> result Response)
         (requests_post : string -> Tx.tx_fields -> result Response)
         (w : world) (key : RSA.RSAPrivateKey) (jwk : pydict)
         (anchor reward : string) (resp : Response),
    load_jwk json_load_file "arweave-key.json" = inr (key, jwk) ->
    (78 <= RSA.key_size_bytes (RSA.n (RSA.public_numbers (RSA.private_numbers key))))%nat ->
    get_anchor requests_get "http://localhost:1984" = inr anchor ->
    (anchor = EmptyString \/ exists b, base64url_decode anchor = inr b) ->
    get_price requests_get "http://localhost:1984" 39 = inr reward ->
    (forall body, requests_post "http://localhost:1984/tx"%string body = inr resp) ->
    exists jwk_n tx,
      dict_get jwk "n" = inr jwk_n
      /\ fst (main json_load_file requests_get requests_post w) = inr tt
      /\ objects (snd (main json_load_file requests_get requests_post w)) (next_ref w) = tx
      /\ next_ref (snd (main json_load_file requests_get requests_post w)) = S (next_ref w)
      /\ stdout (snd (main json_load_file requests_get requests_post w))
         = stdout w ++ warning reward ++ report resp tx
      /\ posted (snd (main json_load_file requests_get requests_post w))
         = posted w ++ [("http://localhost:1984/tx"%string, tx)]
      /\ signed_by key tx
      /\ built_record anchor jwk_n reward main_payload tx.
Proof.
  intros json_load_file requests_get requests_post w key jwk anchor reward resp
    Hload Hkey Hanchor Hdecodes Hprice Hpost.
  destruct (loaded_modulus_text _ _ _ _ Hload) as [jwk_n Hn].
  destruct (loaded_owner _ _ _ _ _ Hload Hn) as (owner_bytes & Howner & _).
  unfold main. cbv zeta.
  change (bytes_literal "Hello from single-chunk v2 transaction!") with main_payload.
  rewrite (proj2 main_payload_facts).
  pose proof (proj1 main_payload_facts) as Hne. revert Hne.
  generalize main_payload. intros payload Hne.
  rewrite io_bind_lift, Hload. cbn [fst snd].
  rewrite io_bind_lift, Hanchor, io_bind_lift, Hprice.
  assert (Hdec : decodable (main_tx_fields anchor jwk_n reward payload) = true).
  { unfold decodable. rewrite new_data_root_built by exact Hne.
    unfold main_tx_fields. cbn [Tx.owner Tx.last_tx Tx.target returns truthy negb].
    rewrite Howner. cbn [returns andb orb].
    destruct Hdecodes as [-> | [b ->]]; [reflexivity|].
    cbn [returns]. now rewrite orb_true_r. }
  exists jwk_n. unfold warning.
  destruct (String.eqb reward "0").
  - rewrite io_bind_print.
    destruct (main_tail_returns requests_post key jwk anchor reward payload Hne
                (World (objects w) (next_ref w)
                   (stdout w ++ ["Warning: Reward=0, might be invalid on a real node."%string])
                   (posted w))
                jwk_n resp Hn Hdec Hkey Hpost)
      as (tx & H1 & H2 & H3 & H4 & H5 & H6 & H7).
    cbn [objects next_ref stdout posted] in H2, H3, H4, H5.
    exists tx. rewrite <- app_assoc in H4.
    split; [exact Hn|]. split; [exact H1|]. split; [exact H2|]. split; [exact H3|].
    split; [exact H4|]. split; [exact H5|]. split; assumption.
  - rewrite io_bind_ret.
    destruct (main_tail_returns requests_post key jwk anchor reward payload Hne
                w jwk_n resp Hn Hdec Hkey Hpost)
      as (tx & H1 & H2 & H3 & H4 & H5 & H6 & H7).
    exists tx.
    split; [exact Hn|]. split; [exact H1|]. split; [exact H2|]. split; [exact H3|].
    split; [exact H4|]. split; [exact H5|]. split; assumption.
Qed.

Lemma main_posts_and_reports_witness :
  exists jwk_n tx,
    dict_get SampleRun.jwk "n" = inr jwk_n
    /\ fst (main SampleRun.key_file SampleRun.node SampleRun.accept SampleRun.empty_world)
       = inr tt
    /\ objects (snd (main SampleRun.key_file SampleRun.node SampleRun.accept
                       SampleRun.empty_world)) (next_ref SampleRun.empty_world) = tx
    /\ next_ref (snd (main SampleRun.key_file SampleRun.node SampleRun.accept
                        SampleRun.empty_world)) = S (next_ref SampleRun.empty_world)
    /\ stdout (snd (main SampleRun.key_file SampleRun.node SampleRun.accept
                      SampleRun.empty_world))
       = stdout SampleRun.empty_world ++ warning "100"
         ++ report {| status_code := 200; text := "OK" |} tx
    /\ posted (snd (main SampleRun.key_file SampleRun.node SampleRun.accept
                      SampleRun.empty_world))
       = posted SampleRun.empty_world ++ [("http://localhost:1984/tx"%string, tx)]
    /\ signed_by SampleRun.key tx
    /\ built_record "abc" jwk_n "100" main_payload tx.
Proof.
  apply (main_posts_and_reports SampleRun.key_file SampleRun.node SampleRun.accept
           SampleRun.empty_world SampleRun.key SampleRun.jwk "abc" "100"
           {| status_code := 200; text := "OK" |}).
  - exact sample_key_file_loads.
  - vm_compute. lia.
  - vm_compute. reflexivity.
  - right. eexists. vm_compute. reflexivity.
  - vm_compute. reflexivity.
  - intros body. reflexivity.
Defined.
